(** * Node-type descriptors of the Redocly CLI core: OpenAPI 3 and AsyncAPI 2

    A shallow embedding of the OpenAPI 3 descriptor table
    [packages/core/src/types/oas3.ts], of a second copy of that table
    ([part_000]) and of the bindings and security-scheme descriptors of
    [packages/core/src/types/asyncapi2.ts], together with the resolution and
    checking operations that the specification describes for descriptors. *)

From Stdlib Require Import String Ascii List Bool ZArith Lia.
Import ListNotations.
Open Scope string_scope.
Set Warnings "-register-all".

(** ** Document values *)

(** A parsed document node, as the descriptors' functions receive it
    ([value: any]).  Objects keep their fields in order. *)
Inductive Value : Type :=
| VUndefined
| VNull
| VBool (b : bool)
| VNum (z : Z)
| VStr (s : string)
| VArr (elems : list Value)
| VObj (fields : list (string * Value)).

(** Lookup in a string-keyed object literal or table. *)
Fixpoint assoc {A : Type} (k : string) (l : list (string * A)) : option A :=
  match l with
  | [] => None
  | (k', a) :: tl => if String.eqb k k' then Some a else assoc k tl
  end.

(** The assignment [o[k] = a] on an object's fields: the value of an existing
    key is replaced where it stands, a new key is added at the end. *)
Fixpoint assign {A : Type} (k : string) (a : A) (l : list (string * A))
  : list (string * A) :=
  match l with
  | [] => [(k, a)]
  | (k', a') :: tl =>
      if String.eqb k k' then (k, a) :: tl else (k', a') :: assign k a tl
  end.

(** [includes l k] is [l.includes(k)] on an array of strings. *)
Definition includes (l : list string) (k : string) : bool :=
  existsb (String.eqb k) l.

(** [startsWith p k] is [k.startsWith(p)]. *)
Definition startsWith (p k : string) : bool := String.prefix p k.

(** [opt_type value] is the expression [value?.type]: [undefined] on [null]
    and [undefined], the field [type] of an object, and [undefined] on every
    value that has no such field. *)
Definition opt_type (value : Value) : Value :=
  match value with
  | VObj fields =>
      match assoc "type" fields with
      | Some v => v
      | None => VUndefined
      end
  | _ => VUndefined
  end.

(** ** Scalar schemas (leaf constraints) *)

Inductive ScalarSchema : Type := mkScalar {
  sc_type : option string;
  sc_enum : option (list string);
  sc_items : option ScalarSchema;
  sc_minimum : option Z;
  sc_additionalProperties : option ScalarSchema;
  sc_isExample : option bool;
  sc_resolvable : option bool;
  sc_directResolveAs : option string;
  sc_description : option string;
  sc_documentationLink : option string }.

(** One [key: value] entry of a scalar-schema object literal. *)
Inductive ScalarField : Type :=
| s_type (t : string)
| s_enum (l : list string)
| s_items (s : ScalarSchema)
| s_minimum (z : Z)
| s_additionalProperties (s : ScalarSchema)
| s_isExample (b : bool)
| s_resolvable (b : bool)
| s_directResolveAs (n : string)
| s_description (d : string)
| s_documentationLink (d : string).

Definition emptyScalar : ScalarSchema :=
  mkScalar None None None None None None None None None None.

Definition setScalarField (s : ScalarSchema) (f : ScalarField) : ScalarSchema :=
  let '(mkScalar ty en it mi ap ex re dr de dl) := s in
  match f with
  | s_type t => mkScalar (Some t) en it mi ap ex re dr de dl
  | s_enum l => mkScalar ty (Some l) it mi ap ex re dr de dl
  | s_items i => mkScalar ty en (Some i) mi ap ex re dr de dl
  | s_minimum z => mkScalar ty en it (Some z) ap ex re dr de dl
  | s_additionalProperties a => mkScalar ty en it mi (Some a) ex re dr de dl
  | s_isExample b => mkScalar ty en it mi ap (Some b) re dr de dl
  | s_resolvable b => mkScalar ty en it mi ap ex (Some b) dr de dl
  | s_directResolveAs n => mkScalar ty en it mi ap ex re (Some n) de dl
  | s_description d => mkScalar ty en it mi ap ex re dr (Some d) dl
  | s_documentationLink d => mkScalar ty en it mi ap ex re dr de (Some d)
  end.

(** The object literal [{ f1, f2, ... }] as a scalar schema. *)
Definition scalar (fs : list ScalarField) : ScalarSchema :=
  fold_left setScalarField fs emptyScalar.

(** ** Node types (type descriptors) *)

(** [required] is an array of keys or a function of the node's value. *)
Inductive RequiredRule : Type :=
| ReqList (keys : list string)
| ReqFun (f : Value -> list string).

(** A property's type: [null], the name of a node type, a scalar schema, or a
    node type written in place; a property rule is such a type or a function
    of the value and the key that returns one, or [undefined] ([None]). *)
Inductive PropType : Type :=
| PNull
| PRef (name : string)
| PScalar (s : ScalarSchema)
| PNode (t : NodeType)
with PropRule : Type :=
| Static (p : PropType)
| Resolver (f : Value -> string -> option PropType)
with NodeType : Type :=
| mkNodeType
    (properties : list (string * PropRule))
    (additionalProperties : option PropRule)
    (items : option PropRule)
    (required : option RequiredRule)
    (requiredOneOf : option (list string))
    (allowed : option (Value -> list string))
    (extensionsPrefix : option string)
    (description : option string)
    (documentationLink : option string).

Definition properties (t : NodeType) : list (string * PropRule) :=
  let '(mkNodeType x _ _ _ _ _ _ _ _) := t in x.
Definition additionalProperties (t : NodeType) : option PropRule :=
  let '(mkNodeType _ x _ _ _ _ _ _ _) := t in x.
Definition items (t : NodeType) : option PropRule :=
  let '(mkNodeType _ _ x _ _ _ _ _ _) := t in x.
Definition required (t : NodeType) : option RequiredRule :=
  let '(mkNodeType _ _ _ x _ _ _ _ _) := t in x.
Definition requiredOneOf (t : NodeType) : option (list string) :=
  let '(mkNodeType _ _ _ _ x _ _ _ _) := t in x.
Definition allowed (t : NodeType) : option (Value -> list string) :=
  let '(mkNodeType _ _ _ _ _ x _ _ _) := t in x.
Definition extensionsPrefix (t : NodeType) : option string :=
  let '(mkNodeType _ _ _ _ _ _ x _ _) := t in x.
Definition description (t : NodeType) : option string :=
  let '(mkNodeType _ _ _ _ _ _ _ x _) := t in x.
Definition documentationLink (t : NodeType) : option string :=
  let '(mkNodeType _ _ _ _ _ _ _ _ x) := t in x.

(** One [key: value] entry of a node-type object literal. *)
Inductive NodeField : Type :=
| f_properties (ps : list (string * PropRule))
| f_additionalProperties (r : PropRule)
| f_items (r : PropRule)
| f_required (keys : list string)
| f_required_fn (f : Value -> list string)
| f_requiredOneOf (keys : list string)
| f_allowed (f : Value -> list string)
| f_extensionsPrefix (p : string)
| f_description (d : string)
| f_documentationLink (d : string).

Definition emptyNode : NodeType :=
  mkNodeType [] None None None None None None None None.

Definition setNodeField (t : NodeType) (f : NodeField) : NodeType :=
  let '(mkNodeType ps ap it rq ro al ep de dl) := t in
  match f with
  | f_properties x => mkNodeType x ap it rq ro al ep de dl
  | f_additionalProperties x => mkNodeType ps (Some x) it rq ro al ep de dl
  | f_items x => mkNodeType ps ap (Some x) rq ro al ep de dl
  | f_required x => mkNodeType ps ap it (Some (ReqList x)) ro al ep de dl
  | f_required_fn x => mkNodeType ps ap it (Some (ReqFun x)) ro al ep de dl
  | f_requiredOneOf x => mkNodeType ps ap it rq (Some x) al ep de dl
  | f_allowed x => mkNodeType ps ap it rq ro (Some x) ep de dl
  | f_extensionsPrefix x => mkNodeType ps ap it rq ro al (Some x) de dl
  | f_description x => mkNodeType ps ap it rq ro al ep (Some x) dl
  | f_documentationLink x => mkNodeType ps ap it rq ro al ep de (Some x)
  end.

(** The object literal [{ f1, f2, ... }] as a node type; a later entry of the
    same key replaces an earlier one, as in a literal with a spread. *)
Definition node (fs : list NodeField) : NodeType :=
  fold_left setNodeField fs emptyNode.

(** The four static forms of a property's value in a [properties] literal. *)
Definition null : PropRule := Static PNull.
Definition ref (name : string) : PropRule := Static (PRef name).
Definition leaf (fs : list ScalarField) : PropRule := Static (PScalar (scalar fs)).
Definition inline (t : NodeType) : PropRule := Static (PNode t).

(** The string of one double-quote character, for descriptions that quote. *)
Definition dq : string := String "034"%char EmptyString.

(** ** Combinators *)

(** Modelled from the spec: [listOf] is imported from [types/index.ts], which
    is not among the sources.  The specification (4.3) has it return a new
    descriptor for an ordered list whose every element is governed by
    [typeName]: an ordinary descriptor whose single dynamic rule is a
    reference to [typeName]; [overrides] supplies descriptive fields. *)
Definition listOf (typeName : string) (overrides : list NodeField) : NodeType :=
  node ([f_properties []; f_items (ref typeName)] ++ overrides).

(** Modelled from the spec: [mapOf] is imported from [types/index.ts], which
    is not among the sources.  The specification (4.3) has it return a new
    descriptor for a string-keyed mapping whose every value is governed by
    [typeName]; [overrides] supplies descriptive fields. *)
Definition mapOf (typeName : string) (overrides : list NodeField) : NodeType :=
  node ([f_properties []; f_additionalProperties (ref typeName)] ++ overrides).

(** ** Helpers of the descriptors' functions *)

(** [switch d cases default] is a [switch (d)] whose [case] labels are string
    literals, each returning at once: the first case strictly equal to [d], or
    the [default] branch. *)
Definition switch {A : Type} (d : Value) (cases : list (string * A)) (default : A) : A :=
  match d with
  | VStr s =>
      match assoc s cases with
      | Some a => a
      | None => default
      end
  | _ => default
  end.

(** [Array.isArray(value)] and [typeof value === 'boolean']. *)
Definition isArray (value : Value) : bool :=
  match value with VArr _ => true | _ => false end.

Definition isBoolean (value : Value) : bool :=
  match value with VBool _ => true | _ => false end.

(** *** Anchored regular expressions

    The patterns of the descriptors have the form [/^ p1 p2 ... $/] where each
    piece is a character class with a repetition count.  A class is the list
    of its ranges; a single character [c] is the range from [c] to [c]. *)
Definition CharClass : Type := list (ascii * ascii).

Inductive Piece : Type :=
| Rep (cls : CharClass) (n : nat).

Definition Regex : Type := list Piece.

Definition inClass (cls : CharClass) (c : ascii) : bool :=
  existsb
    (fun r => (nat_of_ascii (fst r) <=? nat_of_ascii c)
              && (nat_of_ascii c <=? nat_of_ascii (snd r)))%nat
    cls.

(** Consume exactly [n] characters of the class; the rest of the string. *)
Fixpoint consume (cls : CharClass) (n : nat) (s : string) : option string :=
  match n with
  | O => Some s
  | S n' =>
      match s with
      | String c rest => if inClass cls c then consume cls n' rest else None
      | EmptyString => None
      end
  end.

(** [test r s] is [r.test(s)] for an anchored pattern without flags. *)
Fixpoint test (r : Regex) (s : string) : bool :=
  match r with
  | [] => match s with EmptyString => true | _ => false end
  | Rep cls n :: r' =>
      match consume cls n s with
      | Some rest => test r' rest
      | None => false
      end
  end.

(** [testOneOrMore cls s] is [/^[cls]+$/.test(s)]: one character of the
    class or more, and nothing else. *)
Fixpoint allInClass (cls : CharClass) (s : string) : bool :=
  match s with
  | EmptyString => true
  | String c rest => inClass cls c && allInClass cls rest
  end.

Definition testOneOrMore (cls : CharClass) (s : string) : bool :=
  match s with
  | EmptyString => false
  | String _ _ => allInClass cls s
  end.

(** The object literal [{ ...o, k1: v1, k2: v2, ... }]: the fields of the
    spread object [o], then each entry assigned in turn. *)
Definition spreadThen {A : Type} (o entries : list (string * A)) : list (string * A) :=
  fold_left (fun acc kv => assign (fst kv) (snd kv) acc) entries o.

(** ** Resolution and checks

    The walker and the validator that read the descriptors are not among the
    sources; their operations are taken from the specification (4.1, 4.2,
    4.4). *)

(** Modelled from the spec: the outcome of resolving a child key (4.1), which
    the walker computes: a property type to go on with (a reference, a leaf
    constraint, [null] for a key accepted unvalidated, or a node type written
    in place), an extension key accepted as it is, or the rejection of an
    unknown key. *)
Inductive Outcome : Type :=
| Resolved (p : PropType)
| Extension
| Rejected.

(** Modelled from the spec: the walker's use of one rule (4.1): a static rule
    is used directly; a resolver is evaluated on the child's value and key, and
    one that returns [undefined] rejects the key. *)
Definition applyRule (rule : PropRule) (V : Value) (K : string) : Outcome :=
  match rule with
  | Static p => Resolved p
  | Resolver f =>
      match f V K with
      | Some p => Resolved p
      | None => Rejected
      end
  end.

(** Modelled from the spec: the walker's test for an extension key (3, 4.1):
    [extensionsPrefix] is set and the key starts with it. *)
Definition isExtensionKey (D : NodeType) (K : string) : bool :=
  match extensionsPrefix D with
  | Some p => startsWith p K
  | None => false
  end.

(** Modelled from the spec: [resolveChild] belongs to the walker, which is
    not among the sources.  The specification (4.1) gives its algorithm: a key
    of [properties] uses its rule; else a key that starts with the extension
    prefix is accepted; else [additionalProperties] is used when it is set;
    else the key is rejected. *)
Definition resolveChild (D : NodeType) (K : string) (V : Value) : Outcome :=
  match assoc K (properties D) with
  | Some rule => applyRule rule V K
  | None =>
      if isExtensionKey D K then Extension
      else
        match additionalProperties D with
        | Some rule => applyRule rule V K
        | None => Rejected
        end
  end.

(** Modelled from the spec: the validator's view of a node value as a
    string-keyed mapping (4.2): the keys of an object, and none for a value
    that is no mapping. *)
Definition keysOf (value : Value) : list string :=
  match value with
  | VObj fields => map fst fields
  | _ => []
  end.

Definition hasKey (V : Value) (k : string) : bool := includes (keysOf V) k.

(** Modelled from the spec: the validator's resolution of [required] to a
    list of keys (4.2): the list itself, or the function called with the
    value. *)
Definition resolveRequired (D : NodeType) (V : Value) : list string :=
  match required D with
  | Some (ReqList keys) => keys
  | Some (ReqFun f) => f V
  | None => []
  end.

(** Modelled from the spec: [checkRequired] belongs to the validator, which
    is not among the sources.  The specification (4.2): the keys of the
    resolved [required] that are absent from the value are missing. *)
Definition checkRequired (D : NodeType) (V : Value) : list string :=
  filter (fun k => negb (hasKey V k)) (resolveRequired D V).

(** Modelled from the spec: [checkDisjunctiveRequired] belongs to the
    validator, which is not among the sources.  The specification (4.2):
    [requiredOneOf] is violated ([true]) when none of its keys is present. *)
Definition checkDisjunctiveRequired (D : NodeType) (V : Value) : bool :=
  match requiredOneOf D with
  | Some keys => negb (existsb (hasKey V) keys)
  | None => false
  end.

(** Modelled from the spec: [checkAllowed] belongs to the validator, which is
    not among the sources.  The specification (4.2, 3): when [allowed] is set
    it is resolved with the value, and any key of the value that is not in
    the resolved allow-list is disallowed, whatever [properties] and
    [additionalProperties] make of it; keys with the extension prefix do not
    count against the allow-list. *)
Definition checkAllowed (D : NodeType) (V : Value) : list string :=
  match allowed D with
  | Some f =>
      filter (fun k => negb (includes (f V) k) && negb (isExtensionKey D k))
             (keysOf V)
  | None => []
  end.

(** Modelled from the spec: the registry's [lookup] of a type name (4.4), on
    a table of node types as the modules export them. *)
Definition lookup (name : string) (types : list (string * NodeType)) : option NodeType :=
  assoc name types.

(** ** Descriptive fields

    [description] and [documentationLink] are the descriptive fields of scalar
    schemas and node types; erasing them leaves what validation reads. *)
Fixpoint eraseScalar (s : ScalarSchema) : ScalarSchema :=
  let '(mkScalar ty en it mi ap ex re dr _ _) := s in
  mkScalar ty en (option_map eraseScalar it) mi (option_map eraseScalar ap)
           ex re dr None None.

Fixpoint eraseNode (t : NodeType) : NodeType :=
  let '(mkNodeType ps ap it rq ro al ep _ _) := t in
  mkNodeType (map (fun kr => (fst kr, eraseRule (snd kr))) ps)
             (option_map eraseRule ap) (option_map eraseRule it)
             rq ro al ep None None
with eraseRule (r : PropRule) : PropRule :=
  match r with
  | Static p => Static (eraseType p)
  | Resolver f => Resolver (fun v k => option_map eraseType (f v k))
  end
with eraseType (p : PropType) : PropType :=
  match p with
  | PNull => PNull
  | PRef name => PRef name
  | PScalar s => PScalar (eraseScalar s)
  | PNode t => PNode (eraseNode t)
  end.

Definition eraseOutcome (o : Outcome) : Outcome :=
  match o with
  | Resolved p => Resolved (eraseType p)
  | other => other
  end.

(** ** OpenAPI 3: [packages/core/src/types/oas3.ts] *)
Module Oas3.
Section Types.

(** [isMappingRef] is imported from [ref-utils.ts], which is not among the
    sources: the descriptors are given for any such predicate. *)
Variable isMappingRef : Value -> bool.

(** [const responseCodeRegexp = /^[0-9][0-9Xx]{2}$/]. *)
Definition responseCodeRegexp : Regex :=
  [ Rep [("0", "9")] 1;
    Rep [("0", "9"); ("X", "X"); ("x", "x")] 2 ]%char.

Definition Root : NodeType :=
  node
    [ f_properties
      [ ("openapi", null);
        ("info", ref "Info");
        ("servers", ref "ServerList");
        ("security", ref "SecurityRequirementList");
        ("tags", ref "TagList");
        ("externalDocs", ref "ExternalDocs");
        ("paths", ref "Paths");
        ("components", ref "Components");
        ("x-webhooks", ref "WebhooksMap");
        ("x-tagGroups", ref "TagGroups");
        ("x-ignoredHeaderParameters", leaf [s_type "array"; s_items (scalar [s_type "string"])]) ];
    f_required ["openapi"; "paths"; "info"];
    f_extensionsPrefix "x-" ].

Definition Tag : NodeType :=
  node
    [ f_properties
      [ ("name", leaf [s_type "string"; s_description "The name of the tag."]);
        ("description", leaf [ s_type "string";
          s_description "A short description for the tag. CommonMark syntax MAY be used for rich text representation." ]);
        ("externalDocs", ref "ExternalDocs");
        ("x-traitTag", leaf [s_type "boolean"]);
        ("x-displayName", leaf [s_type "string"]) ];
    f_required ["name"];
    f_extensionsPrefix "x-";
    f_description "The Tag Object represents a tag used by the OAS. It is not mandatory to have a tag object per tag used by the OAS but each tag object can contain additional metadata.";
    f_documentationLink "https://spec.openapis.org/oas/v3.1.0#tag-object" ].

Definition TagGroup : NodeType :=
  node
    [ f_properties
      [ ("name", leaf [s_type "string"]);
        ("tags", leaf [s_type "array"; s_items (scalar [s_type "string"])]) ];
    f_extensionsPrefix "x-" ].

Definition ExternalDocs : NodeType :=
  node
    [ f_properties
      [ ("description", leaf [ s_type "string";
          s_description "A description of the target documentation. CommonMark syntax MAY be used for rich text representation." ]);
        ("url", leaf [ s_type "string";
          s_description "REQUIRED. The URL for the target documentation. This MUST be in the format of a URL." ]) ];
    f_required ["url"];
    f_extensionsPrefix "x-";
    f_description "Additional external documentation for this operation." ].

Definition Server : NodeType :=
  node
    [ f_properties
      [ ("url", leaf [s_type "string"]);
        ("description", leaf [s_type "string"]);
        ("variables", ref "ServerVariablesMap") ];
    f_required ["url"];
    f_extensionsPrefix "x-" ].

Definition ServerVariable : NodeType :=
  node
    [ f_properties
      [ ("enum", leaf [s_type "array"; s_items (scalar [s_type "string"])]);
        ("default", leaf [s_type "string"]);
        ("description", leaf [s_type "string"]) ];
    f_required ["default"];
    f_extensionsPrefix "x-" ].

Definition SecurityRequirement : NodeType :=
  node
    [ f_properties [];
    f_additionalProperties (leaf [s_type "array"; s_items (scalar [s_type "string"])]) ].

Definition Info : NodeType :=
  node
    [ f_properties
      [ ("title", leaf [s_type "string"]);
        ("version", leaf [s_type "string"]);
        ("description", leaf [s_type "string"]);
        ("termsOfService", leaf [s_type "string"]);
        ("contact", ref "Contact");
        ("license", ref "License");
        ("x-logo", ref "Logo") ];
    f_required ["title"; "version"];
    f_extensionsPrefix "x-" ].

Definition Logo : NodeType :=
  node
    [ f_properties
      [ ("url", leaf [s_type "string"]);
        ("altText", leaf [s_type "string"]);
        ("backgroundColor", leaf [s_type "string"]);
        ("href", leaf [s_type "string"]) ] ].

Definition Contact : NodeType :=
  node
    [ f_properties
      [ ("name", leaf [s_type "string"]);
        ("url", leaf [s_type "string"]);
        ("email", leaf [s_type "string"]) ];
    f_extensionsPrefix "x-" ].

Definition License : NodeType :=
  node
    [ f_properties
      [ ("name", leaf [s_type "string"]);
        ("url", leaf [s_type "string"]) ];
    f_required ["name"];
    f_extensionsPrefix "x-" ].

Definition Paths_additionalProperties (_value : Value) (key : string) : option PropType :=
  if startsWith "/" key then Some (PRef "PathItem") else None.

Definition Paths : NodeType :=
  node
    [ f_properties [];
    f_additionalProperties (Resolver Paths_additionalProperties);
    f_description "The available paths and operations for the API.";
    f_documentationLink "https://redocly.com/learn/openapi/openapi-visual-reference/paths" ].

Definition WebhooksMap_additionalProperties (_value : Value) (_key : string) : option PropType :=
  Some (PRef "PathItem").

Definition WebhooksMap : NodeType :=
  node
    [ f_properties [];
    f_additionalProperties (Resolver WebhooksMap_additionalProperties) ].

Definition PathItem : NodeType :=
  node
    [ f_properties
      [ ("$ref", leaf [ s_type "string";
          s_description "Allows for a referenced definition of this path item. The referenced structure MUST be in the form of a Path Item Object. In case a Path Item Object field appears both in the defined object and the referenced object, the behavior is undefined. See the rules for resolving Relative References.";
          s_documentationLink "https://redocly.com/learn/openapi/openapi-visual-reference/reference" ]);
        ("servers", ref "ServerList");
        ("parameters", ref "ParameterList");
        ("summary", leaf [ s_type "string";
          s_description "An optional, string summary, intended to apply to all operations in this path." ]);
        ("description", leaf [ s_type "string";
          s_description "An optional, string description, intended to apply to all operations in this path. CommonMark syntax MAY be used for rich text representation." ]);
        ("get", ref "Operation");
        ("put", ref "Operation");
        ("post", ref "Operation");
        ("delete", ref "Operation");
        ("options", ref "Operation");
        ("head", ref "Operation");
        ("patch", ref "Operation");
        ("trace", ref "Operation") ];
    f_extensionsPrefix "x-";
    f_description "Describes the operations available on a single path. A Path Item MAY be empty, due to ACL constraints. The path itself is still exposed to the documentation viewer but they will not know which operations and parameters are available.";
    f_documentationLink "https://redocly.com/learn/openapi/openapi-visual-reference/path-item#path-item-object" ].

Definition Parameter_ : NodeType :=
  node
    [ f_properties
      [ ("name", leaf [ s_type "string";
          s_description "REQUIRED. The name of the parameter. Parameter names are case sensitive." ]);
        ("in", leaf [ s_enum ["query"; "header"; "path"; "cookie"];
          s_description ("REQUIRED. The location of the parameter. Possible values are " ++ dq ++ "query" ++ dq ++ ", " ++ dq ++ "header" ++ dq ++ ", " ++ dq ++ "path" ++ dq ++ ", or " ++ dq ++ "cookie" ++ dq ++ ".") ]);
        ("description", leaf [ s_type "string";
          s_description "A brief description of the parameter. This could contain examples of use. CommonMark syntax MAY be used for rich text representation." ]);
        ("required", leaf [ s_type "boolean";
          s_description ("Determines whether this parameter is mandatory. If the parameter location is " ++ dq ++ "path" ++ dq ++ ", this property is REQUIRED and its value MUST be true. Otherwise, the property MAY be included and its default value is false.") ]);
        ("deprecated", leaf [ s_type "boolean";
          s_description "Specifies that a parameter is deprecated and SHOULD be transitioned out of usage. Default value is false." ]);
        ("allowEmptyValue", leaf [ s_type "boolean";
          s_description "Sets the ability to pass empty-valued parameters. This is valid only for query parameters and allows sending a parameter with an empty value. Default value is false. If style is used, and if behavior is n/a (cannot be serialized), the value of allowEmptyValue SHALL be ignored. Use of this property is NOT RECOMMENDED, as it is likely to be removed in a later revision." ]);
        ("style", leaf [ s_enum ["form"; "simple"; "label"; "matrix"; "spaceDelimited"; "pipeDelimited"; "deepObject"];
          s_description "Describes how the parameter value will be serialized depending on the type of the parameter value. Default values (based on value of in): for query - form; for path - simple; for header - simple; for cookie - form." ]);
        ("explode", leaf [ s_type "boolean";
          s_description "When this is true, parameter values of type array or object generate separate parameters for each value of the array or key-value pair of the map. For other types of parameters this property has no effect. When style is form, the default value is true. For all other styles, the default value is false." ]);
        ("allowReserved", leaf [ s_type "boolean";
          s_description "Determines whether the parameter value SHOULD allow reserved characters, as defined by RFC3986 :/?#[]@!$&'()*+,;= to be included without percent-encoding. This property only applies to parameters with an in value of query. The default value is false." ]);
        ("schema", ref "Schema");
        ("example", leaf [s_isExample true]);
        ("examples", ref "ExamplesMap");
        ("content", ref "MediaTypesMap") ];
    f_required ["name"; "in"];
    f_requiredOneOf ["schema"; "content"];
    f_extensionsPrefix "x-";
    f_description "Describes a request parameter, which excludes the request body. A unique parameter is defined by a unique combination of the name and in values.";
    f_documentationLink "https://redocly.com/learn/openapi/openapi-visual-reference/parameter" ].

Definition Operation : NodeType :=
  node
    [ f_properties
      [ ("tags", leaf [ s_type "array";
          s_items (scalar [s_type "string"]);
          s_description "A list of tags for API documentation control. Tags can be used for logical grouping of operations by resources or any other qualifier.";
          s_documentationLink "https://redocly.com/learn/openapi/openapi-visual-reference/operation" ]);
        ("summary", leaf [ s_type "string";
          s_description "A short summary of what the operation does.";
          s_documentationLink "https://redocly.com/learn/openapi/openapi-visual-reference/operation#summary" ]);
        ("description", leaf [ s_type "string";
          s_description "A verbose explanation of the operation behavior. CommonMark syntax MAY be used for rich text representation.";
          s_documentationLink "https://redocly.com/learn/openapi/openapi-visual-reference/operation#description" ]);
        ("externalDocs", ref "ExternalDocs");
        ("operationId", leaf [ s_type "string";
          s_description "The operationId is path segment or path fragment in deep links to a specific operation.";
          s_documentationLink "https://redocly.com/learn/openapi/openapi-visual-reference/operation#operationid" ]);
        ("parameters", ref "ParameterList");
        ("security", ref "SecurityRequirementList");
        ("servers", ref "ServerList");
        ("requestBody", ref "RequestBody");
        ("responses", ref "Responses");
        ("deprecated", leaf [s_type "boolean"]);
        ("callbacks", ref "CallbacksMap");
        ("x-codeSamples", ref "XCodeSampleList");
        ("x-code-samples", ref "XCodeSampleList");
        ("x-hideTryItPanel", leaf [s_type "boolean"]) ];
    f_required ["responses"];
    f_extensionsPrefix "x-";
    f_description "The Operation Object describes a single API operation on a path, including its parameters, responses, and request body (if applicable). Each path can support more than one operation, but those operations must be unique. A unique operation is a combination of a path and an HTTP method, so two GET or two POST methods for the same path are not allowed.";
    f_documentationLink "https://redocly.com/learn/openapi/openapi-visual-reference/operation" ].

Definition XCodeSample : NodeType :=
  node
    [ f_properties
      [ ("lang", leaf [s_type "string"]);
        ("label", leaf [s_type "string"]);
        ("source", leaf [s_type "string"]) ] ].

Definition RequestBody : NodeType :=
  node
    [ f_properties
      [ ("description", leaf [s_type "string"]);
        ("required", leaf [s_type "boolean"]);
        ("content", ref "MediaTypesMap") ];
    f_required ["content"];
    f_extensionsPrefix "x-";
    f_description "The request body applicable for this operation. The requestBody is fully supported in HTTP methods where the HTTP 1.1 specification [RFC7231] Section 4.3.1 has explicitly defined semantics for request bodies. In other cases where the HTTP spec is vague (such as GET, HEAD and DELETE), requestBody is permitted but does not have well-defined semantics and SHOULD be avoided if possible." ].

Definition MediaTypesMap : NodeType :=
  node
    [ f_properties [];
    f_additionalProperties (ref "MediaType") ].

Definition MediaType : NodeType :=
  node
    [ f_properties
      [ ("schema", ref "Schema");
        ("example", leaf [s_isExample true]);
        ("examples", ref "ExamplesMap");
        ("encoding", ref "EncodingMap") ];
    f_extensionsPrefix "x-" ].

Definition Example : NodeType :=
  node
    [ f_properties
      [ ("value", leaf [s_resolvable false]);
        ("summary", leaf [s_type "string"]);
        ("description", leaf [s_type "string"]);
        ("externalValue", leaf [s_type "string"]) ];
    f_extensionsPrefix "x-" ].

Definition Encoding : NodeType :=
  node
    [ f_properties
      [ ("contentType", leaf [s_type "string"]);
        ("headers", ref "HeadersMap");
        ("style", leaf [ s_enum ["form"; "simple"; "label"; "matrix"; "spaceDelimited"; "pipeDelimited"; "deepObject"] ]);
        ("explode", leaf [s_type "boolean"]);
        ("allowReserved", leaf [s_type "boolean"]) ];
    f_extensionsPrefix "x-" ].

Definition EnumDescriptions : NodeType :=
  node
    [ f_properties [];
    f_additionalProperties (leaf [s_type "string"]) ].

Definition Header : NodeType :=
  node
    [ f_properties
      [ ("description", leaf [s_type "string"]);
        ("required", leaf [s_type "boolean"]);
        ("deprecated", leaf [s_type "boolean"]);
        ("allowEmptyValue", leaf [s_type "boolean"]);
        ("style", leaf [ s_enum ["form"; "simple"; "label"; "matrix"; "spaceDelimited"; "pipeDelimited"; "deepObject"] ]);
        ("explode", leaf [s_type "boolean"]);
        ("allowReserved", leaf [s_type "boolean"]);
        ("schema", ref "Schema");
        ("example", leaf [s_isExample true]);
        ("examples", ref "ExamplesMap");
        ("content", ref "MediaTypesMap") ];
    f_requiredOneOf ["schema"; "content"];
    f_extensionsPrefix "x-" ].

Definition Responses_additionalProperties (_v : Value) (key : string) : option PropType :=
  if test responseCodeRegexp key then Some (PRef "Response") else None.

Definition Responses : NodeType :=
  node
    [ f_properties
      [ ("default", ref "Response") ];
    f_additionalProperties (Resolver Responses_additionalProperties);
    f_description "The list of possible responses as they are returned from executing this operation." ].

Definition Response : NodeType :=
  node
    [ f_properties
      [ ("description", leaf [s_type "string"]);
        ("headers", ref "HeadersMap");
        ("content", ref "MediaTypesMap");
        ("links", ref "LinksMap");
        ("x-summary", leaf [s_type "string"]) ];
    f_required ["description"];
    f_extensionsPrefix "x-" ].

Definition Link : NodeType :=
  node
    [ f_properties
      [ ("operationRef", leaf [s_type "string"]);
        ("operationId", leaf [s_type "string"]);
        ("parameters", null);
        ("requestBody", null);
        ("description", leaf [s_type "string"]);
        ("server", ref "Server") ];
    f_extensionsPrefix "x-" ].

Definition Schema_items (value : Value) (_key : string) : option PropType :=
  if isArray value then Some (PNode (listOf "Schema" []))
  else Some (PRef "Schema").

Definition Schema_additionalProperties (value : Value) (_key : string) : option PropType :=
  if isBoolean value then Some (PScalar (scalar [s_type "boolean"]))
  else Some (PRef "Schema").

Definition Schema : NodeType :=
  node
    [ f_properties
      [ ("externalDocs", ref "ExternalDocs");
        ("discriminator", ref "Discriminator");
        ("title", leaf [s_type "string"]);
        ("multipleOf", leaf [s_type "number"; s_minimum 0]);
        ("maximum", leaf [s_type "number"]);
        ("minimum", leaf [s_type "number"]);
        ("exclusiveMaximum", leaf [s_type "boolean"]);
        ("exclusiveMinimum", leaf [s_type "boolean"]);
        ("maxLength", leaf [s_type "integer"; s_minimum 0]);
        ("minLength", leaf [s_type "integer"; s_minimum 0]);
        ("pattern", leaf [s_type "string"]);
        ("maxItems", leaf [s_type "integer"; s_minimum 0]);
        ("minItems", leaf [s_type "integer"; s_minimum 0]);
        ("uniqueItems", leaf [s_type "boolean"]);
        ("maxProperties", leaf [s_type "integer"; s_minimum 0]);
        ("minProperties", leaf [s_type "integer"; s_minimum 0]);
        ("required", leaf [s_type "array"; s_items (scalar [s_type "string"])]);
        ("enum", leaf [s_type "array"]);
        ("type", leaf [s_enum ["object"; "array"; "string"; "number"; "integer"; "boolean"]]);
        ("allOf", inline (listOf "Schema" []));
        ("anyOf", inline (listOf "Schema" []));
        ("oneOf", inline (listOf "Schema" []));
        ("not", ref "Schema");
        ("properties", ref "SchemaProperties");
        ("items", Resolver Schema_items);
        ("additionalProperties", Resolver Schema_additionalProperties);
        ("description", leaf [s_type "string"]);
        ("format", leaf [s_type "string"]);
        ("default", null);
        ("nullable", leaf [s_type "boolean"]);
        ("readOnly", leaf [s_type "boolean"]);
        ("writeOnly", leaf [s_type "boolean"]);
        ("xml", ref "Xml");
        ("example", leaf [s_isExample true]);
        ("deprecated", leaf [s_type "boolean"]);
        ("x-tags", leaf [s_type "array"; s_items (scalar [s_type "string"])]);
        ("x-additionalPropertiesName", leaf [s_type "string"]);
        ("x-explicitMappingOnly", leaf [s_type "boolean"]) ];
    f_extensionsPrefix "x-" ].

Definition Xml : NodeType :=
  node
    [ f_properties
      [ ("name", leaf [s_type "string"]);
        ("namespace", leaf [s_type "string"]);
        ("prefix", leaf [s_type "string"]);
        ("attribute", leaf [s_type "boolean"]);
        ("wrapped", leaf [s_type "boolean"]) ];
    f_extensionsPrefix "x-" ].

Definition SchemaProperties : NodeType :=
  node
    [ f_properties [];
    f_additionalProperties (ref "Schema") ].

Definition DiscriminatorMapping_additionalProperties (value : Value) (_key : string)
  : option PropType :=
  if isMappingRef value
  then Some (PScalar (scalar [s_type "string"; s_directResolveAs "Schema"]))
  else Some (PScalar (scalar [s_type "string"])).

Definition DiscriminatorMapping : NodeType :=
  node
    [ f_properties [];
    f_additionalProperties (Resolver DiscriminatorMapping_additionalProperties) ].

Definition Discriminator : NodeType :=
  node
    [ f_properties
      [ ("propertyName", leaf [s_type "string"]);
        ("mapping", ref "DiscriminatorMapping") ];
    f_required ["propertyName"];
    f_extensionsPrefix "x-" ].

Definition Components : NodeType :=
  node
    [ f_properties
      [ ("parameters", ref "NamedParameters");
        ("schemas", ref "NamedSchemas");
        ("responses", ref "NamedResponses");
        ("examples", ref "NamedExamples");
        ("requestBodies", ref "NamedRequestBodies");
        ("headers", ref "NamedHeaders");
        ("securitySchemes", ref "NamedSecuritySchemes");
        ("links", ref "NamedLinks");
        ("callbacks", ref "NamedCallbacks") ];
    f_extensionsPrefix "x-" ].

Definition ImplicitFlow : NodeType :=
  node
    [ f_properties
      [ ("refreshUrl", leaf [s_type "string"]);
        ("scopes", leaf [s_type "object"; s_additionalProperties (scalar [s_type "string"])]);
        ("authorizationUrl", leaf [s_type "string"]) ];
    f_required ["authorizationUrl"; "scopes"];
    f_extensionsPrefix "x-" ].

Definition PasswordFlow : NodeType :=
  node
    [ f_properties
      [ ("refreshUrl", leaf [s_type "string"]);
        ("scopes", leaf [s_type "object"; s_additionalProperties (scalar [s_type "string"])]);
        ("tokenUrl", leaf [s_type "string"]) ];
    f_required ["tokenUrl"; "scopes"];
    f_extensionsPrefix "x-" ].

Definition ClientCredentials : NodeType :=
  node
    [ f_properties
      [ ("refreshUrl", leaf [s_type "string"]);
        ("scopes", leaf [s_type "object"; s_additionalProperties (scalar [s_type "string"])]);
        ("tokenUrl", leaf [s_type "string"]) ];
    f_required ["tokenUrl"; "scopes"];
    f_extensionsPrefix "x-" ].

Definition AuthorizationCode_x_usePkce (value : Value) (_key : string) : option PropType :=
  if isBoolean value then Some (PScalar (scalar [s_type "boolean"]))
  else Some (PRef "XUsePkce").

Definition AuthorizationCode : NodeType :=
  node
    [ f_properties
      [ ("refreshUrl", leaf [s_type "string"]);
        ("authorizationUrl", leaf [s_type "string"]);
        ("scopes", leaf [s_type "object"; s_additionalProperties (scalar [s_type "string"])]);
        ("tokenUrl", leaf [s_type "string"]);
        ("x-usePkce", Resolver AuthorizationCode_x_usePkce) ];
    f_required ["authorizationUrl"; "tokenUrl"; "scopes"];
    f_extensionsPrefix "x-" ].

Definition OAuth2Flows : NodeType :=
  node
    [ f_properties
      [ ("implicit", ref "ImplicitFlow");
        ("password", ref "PasswordFlow");
        ("clientCredentials", ref "ClientCredentials");
        ("authorizationCode", ref "AuthorizationCode") ];
    f_extensionsPrefix "x-" ].

Definition SecurityScheme_required (value : Value) : list string :=
  switch (opt_type value)
    [ ("apiKey", ["type"; "name"; "in"]);
      ("http", ["type"; "scheme"]);
      ("oauth2", ["type"; "flows"]);
      ("openIdConnect", ["type"; "openIdConnectUrl"]) ]
    ["type"].

Definition SecurityScheme_allowed (value : Value) : list string :=
  switch (opt_type value)
    [ ("apiKey", ["type"; "name"; "in"; "description"]);
      ("http", ["type"; "scheme"; "bearerFormat"; "description"]);
      ("oauth2", ["type"; "flows"; "description"]);
      ("openIdConnect", ["type"; "openIdConnectUrl"; "description"]) ]
    ["type"; "description"].

Definition SecurityScheme : NodeType :=
  node
    [ f_properties
      [ ("type", leaf [s_enum ["apiKey"; "http"; "oauth2"; "openIdConnect"]]);
        ("description", leaf [s_type "string"]);
        ("name", leaf [s_type "string"]);
        ("in", leaf [s_type "string"; s_enum ["query"; "header"; "cookie"]]);
        ("scheme", leaf [s_type "string"]);
        ("bearerFormat", leaf [s_type "string"]);
        ("flows", ref "OAuth2Flows");
        ("openIdConnectUrl", leaf [s_type "string"]);
        ("x-defaultClientId", leaf [s_type "string"]) ];
    f_required_fn SecurityScheme_required;
    f_allowed SecurityScheme_allowed;
    f_extensionsPrefix "x-" ].

Definition XUsePkce : NodeType :=
  node
    [ f_properties
      [ ("disableManualConfiguration", leaf [s_type "boolean"]);
        ("hideClientSecretInput", leaf [s_type "boolean"]) ] ].

Definition Oas3Types : list (string * NodeType) :=
  [ ("Root", Root);
    ("Tag", Tag);
    ("TagList", listOf "Tag" [ f_description "A list of tags used by the document with additional metadata." ]);
    ("TagGroups", listOf "TagGroup" []);
    ("TagGroup", TagGroup);
    ("ExternalDocs", ExternalDocs);
    ("Server", Server);
    ("ServerList", listOf "Server" []);
    ("ServerVariable", ServerVariable);
    ("ServerVariablesMap", mapOf "ServerVariable" []);
    ("SecurityRequirement", SecurityRequirement);
    ("SecurityRequirementList", listOf "SecurityRequirement" []);
    ("Info", Info);
    ("Contact", Contact);
    ("License", License);
    ("Paths", Paths);
    ("PathItem", PathItem);
    ("Parameter", Parameter_);
    ("ParameterList", listOf "Parameter" [ f_description "A list of parameters that are applicable for this operation. If a parameter is already defined at the Path Item, the new definition will override it but can never remove it. The list MUST NOT include duplicated parameters. A unique parameter is defined by a combination of a name and location. The list can use the Reference Object to link to parameters that are defined at the OpenAPI Object’s components/parameters." ]);
    ("Operation", Operation);
    ("Callback", mapOf "PathItem" []);
    ("CallbacksMap", mapOf "Callback" []);
    ("RequestBody", RequestBody);
    ("MediaTypesMap", MediaTypesMap);
    ("MediaType", MediaType);
    ("Example", Example);
    ("ExamplesMap", mapOf "Example" []);
    ("Encoding", Encoding);
    ("EncodingMap", mapOf "Encoding" []);
    ("EnumDescriptions", EnumDescriptions);
    ("Header", Header);
    ("HeadersMap", mapOf "Header" []);
    ("Responses", Responses);
    ("Response", Response);
    ("Link", Link);
    ("Logo", Logo);
    ("Schema", Schema);
    ("Xml", Xml);
    ("SchemaProperties", SchemaProperties);
    ("DiscriminatorMapping", DiscriminatorMapping);
    ("Discriminator", Discriminator);
    ("Components", Components);
    ("LinksMap", mapOf "Link" []);
    ("NamedSchemas", mapOf "Schema" []);
    ("NamedResponses", mapOf "Response" []);
    ("NamedParameters", mapOf "Parameter" []);
    ("NamedExamples", mapOf "Example" []);
    ("NamedRequestBodies", mapOf "RequestBody" []);
    ("NamedHeaders", mapOf "Header" []);
    ("NamedSecuritySchemes", mapOf "SecurityScheme" []);
    ("NamedLinks", mapOf "Link" []);
    ("NamedCallbacks", mapOf "Callback" []);
    ("ImplicitFlow", ImplicitFlow);
    ("PasswordFlow", PasswordFlow);
    ("ClientCredentials", ClientCredentials);
    ("AuthorizationCode", AuthorizationCode);
    ("OAuth2Flows", OAuth2Flows);
    ("SecurityScheme", SecurityScheme);
    ("XCodeSample", XCodeSample);
    ("XCodeSampleList", listOf "XCodeSample" []);
    ("XUsePkce", XUsePkce);
    ("WebhooksMap", WebhooksMap) ].

End Types.
End Oas3.

(** ** OpenAPI 3, second copy: the file kept as [part_000] *)
Module Part000.
Section Types.

(** [isMappingRef] is imported from [ref-utils.ts], which is not among the
    sources: the descriptors are given for any such predicate. *)
Variable isMappingRef : Value -> bool.

(** [const responseCodeRegexp = /^[0-9][0-9Xx]{2}$/]. *)
Definition responseCodeRegexp : Regex :=
  [ Rep [("0", "9")] 1;
    Rep [("0", "9"); ("X", "X"); ("x", "x")] 2 ]%char.

Definition Root : NodeType :=
  node
    [ f_properties
      [ ("openapi", null);
        ("info", ref "Info");
        ("servers", ref "ServerList");
        ("security", ref "SecurityRequirementList");
        ("tags", ref "TagList");
        ("externalDocs", ref "ExternalDocs");
        ("paths", ref "Paths");
        ("components", ref "Components");
        ("x-webhooks", ref "WebhooksMap");
        ("x-tagGroups", ref "TagGroups");
        ("x-ignoredHeaderParameters", leaf [s_type "array"; s_items (scalar [s_type "string"])]) ];
    f_required ["openapi"; "paths"; "info"];
    f_extensionsPrefix "x-";
    f_documentationLink "https://redocly.com/learn/openapi/openapi-visual-reference/openapi#openapi";
    f_description "REQUIRED. This string MUST be the semantic version number of the OpenAPI Specification version that the OpenAPI document uses. The openapi field SHOULD be used by tooling specifications and clients to interpret the OpenAPI document. This is not related to the API info.version string." ].

Definition Tag : NodeType :=
  node
    [ f_properties
      [ ("name", leaf [s_type "string"; s_description "REQUIRED. The name of the tag."]);
        ("description", leaf [s_type "string"; s_description "A description for the tag."]);
        ("externalDocs", ref "ExternalDocs");
        ("x-traitTag", leaf [s_type "boolean"]);
        ("x-displayName", leaf [s_type "string"]) ];
    f_required ["name"];
    f_extensionsPrefix "x-";
    f_description "The Tag Object represents a tag used by the OAS. It is not mandatory to have a tag object per tag used by the OAS but each tag object can contain additional metadata.";
    f_documentationLink "https://spec.openapis.org/oas/v3.1.0#tag-object" ].

Definition TagGroup : NodeType :=
  node
    [ f_properties
      [ ("name", leaf [s_type "string"]);
        ("tags", leaf [s_type "array"; s_items (scalar [s_type "string"])]) ];
    f_extensionsPrefix "x-" ].

Definition ExternalDocs : NodeType :=
  node
    [ f_properties
      [ ("description", leaf [ s_type "string";
          s_description "A description of the target documentation. Used as the link anchor text in Redocly. If not provided, the url is used as the link anchor text." ]);
        ("url", leaf [ s_type "string";
          s_description "REQUIRED. The URL for the target documentation." ]) ];
    f_required ["url"];
    f_extensionsPrefix "x-";
    f_description "Additional external documentation for this operation.";
    f_documentationLink "https://redocly.com/learn/openapi/openapi-visual-reference/external-docs" ].

Definition Server : NodeType :=
  node
    [ f_properties
      [ ("url", leaf [ s_type "string";
          s_description "REQUIRED. A URL to the target host. This URL supports Server Variables and MAY be relative, to indicate that the host location is relative to the location where the OpenAPI document is being served. Variable substitutions are made when a variable is named in { curly braces }." ]);
        ("description", leaf [ s_type "string";
          s_description "An optional string describing the host designated by the URL." ]);
        ("variables", ref "ServerVariablesMap") ];
    f_required ["url"];
    f_extensionsPrefix "x-";
    f_description "A server object to be used by the target operation." ].

Definition ServerVariable : NodeType :=
  node
    [ f_properties
      [ ("enum", leaf [ s_type "array";
          s_items (scalar [s_type "string"]);
          s_description "An enumeration of string values to be used if the substitution options are from a limited set. The array MUST NOT be empty. If defined, the array MUST contain the default value." ]);
        ("default", leaf [ s_type "string";
          s_description "REQUIRED. The default value to use for substitution, which SHALL be sent if an alternate value is not supplied. Note this behavior is different than the Schema Object's treatment of default values, because in those cases parameter values are optional. If the enum is defined, the value MUST exist in the enum's values." ]);
        ("description", leaf [ s_type "string";
          s_description "An optional description for the server variable." ]) ];
    f_required ["default"];
    f_extensionsPrefix "x-";
    f_documentationLink "https://redocly.com/learn/openapi/openapi-visual-reference/server-variables#server-variables";
    f_description "Server variables are used when you need to make a substitution into the server URL such as when the subdomain is unique per tenant." ].

Definition SecurityRequirement : NodeType :=
  node
    [ f_properties [];
    f_additionalProperties (leaf [s_type "array"; s_items (scalar [s_type "string"])]);
    f_documentationLink "https://redocly.com/learn/openapi/openapi-visual-reference/security";
    f_description "A declaration of which security mechanisms can be used across the API. The list of values includes alternative security requirement objects that can be used. Only one of the security requirement objects need to be satisfied to authorize a request. Individual operations can override this definition. To make security optional, an empty security requirement ({}) can be included in the array." ].

Definition Info : NodeType :=
  node
    [ f_properties
      [ ("title", leaf [s_type "string"; s_description "REQUIRED. The title of the API."]);
        ("version", leaf [ s_type "string";
          s_description "REQUIRED. The version of the OpenAPI document (which is distinct from the OpenAPI Specification version or the API implementation version)." ]);
        ("description", leaf [ s_type "string";
          s_description "RECOMMENDED. A description of the API (Markdown may be used)." ]);
        ("termsOfService", leaf [s_type "string"; s_description "A URL to the Terms of Service for the API."]);
        ("contact", ref "Contact");
        ("license", ref "License");
        ("x-logo", ref "Logo") ];
    f_required ["title"; "version"];
    f_extensionsPrefix "x-";
    f_description "REQUIRED. Provides metadata about the API. The metadata MAY be used by tooling as required.";
    f_documentationLink "https://redocly.com/learn/openapi/openapi-visual-reference/info#info" ].

Definition Logo : NodeType :=
  node
    [ f_properties
      [ ("url", leaf [s_type "string"]);
        ("altText", leaf [s_type "string"]);
        ("backgroundColor", leaf [s_type "string"]);
        ("href", leaf [s_type "string"]) ];
    f_documentationLink "https://redocly.com/docs-legacy/api-reference-docs/specification-extensions/x-logo#x-logo";
    f_description "A commonly used specification extension containing the information about the API logo." ].

Definition Contact : NodeType :=
  node
    [ f_properties
      [ ("name", leaf [ s_type "string";
          s_description "The identifying name of the contact person or organization." ]);
        ("url", leaf [s_type "string"; s_description "The URL pointing to the contact information."]);
        ("email", leaf [ s_type "string";
          s_description "The email address of the contact person or organization." ]) ];
    f_extensionsPrefix "x-";
    f_documentationLink "https://redocly.com/learn/openapi/openapi-visual-reference/contact";
    f_description "The contact information for the exposed API." ].

Definition License : NodeType :=
  node
    [ f_properties
      [ ("name", leaf [s_type "string"; s_description "REQUIRED. The license name used for the API."]);
        ("url", leaf [s_type "string"; s_description "The URL pointing to the contact information."]) ];
    f_required ["name"];
    f_extensionsPrefix "x-";
    f_documentationLink "https://redocly.com/learn/openapi/openapi-visual-reference/license#license";
    f_description "The license information for the exposed API." ].

Definition Paths_additionalProperties (_value : Value) (key : string) : option PropType :=
  if startsWith "/" key then Some (PRef "PathItem") else None.

Definition Paths : NodeType :=
  node
    [ f_properties [];
    f_additionalProperties (Resolver Paths_additionalProperties);
    f_description "The Paths Object is a map of a paths to the path item object. A path starts with a /.";
    f_documentationLink "https://redocly.com/learn/openapi/openapi-visual-reference/paths#paths-object" ].

Definition WebhooksMap_additionalProperties (_value : Value) (_key : string) : option PropType :=
  Some (PRef "PathItem").

Definition WebhooksMap : NodeType :=
  node
    [ f_properties [];
    f_additionalProperties (Resolver WebhooksMap_additionalProperties) ].

Definition PathItem : NodeType :=
  node
    [ f_properties
      [ ("$ref", leaf [ s_type "string";
          s_description "Allows for a referenced definition of this path item. The referenced structure MUST be in the form of a Path Item Object. In case a Path Item Object field appears both in the defined object and the referenced object, the behavior is undefined. See the rules for resolving Relative References.";
          s_documentationLink "https://redocly.com/learn/openapi/openapi-visual-reference/reference" ]);
        ("servers", ref "ServerList");
        ("parameters", ref "ParameterList");
        ("summary", leaf [ s_type "string";
          s_description "An optional, string summary, intended to apply to all operations in this path." ]);
        ("description", leaf [ s_type "string";
          s_description "An optional, string description, intended to apply to all operations in this path." ]);
        ("get", ref "Operation");
        ("put", ref "Operation");
        ("post", ref "Operation");
        ("delete", ref "Operation");
        ("options", ref "Operation");
        ("head", ref "Operation");
        ("patch", ref "Operation");
        ("trace", ref "Operation") ];
    f_extensionsPrefix "x-";
    f_description "Describes the operations available on a single path. A Path Item MAY be empty, due to ACL constraints. The path itself is still exposed to the documentation viewer but they will not know which operations and parameters are available.";
    f_documentationLink "https://redocly.com/learn/openapi/openapi-visual-reference/path-item#path-item-object" ].

Definition Parameter_ : NodeType :=
  node
    [ f_properties
      [ ("name", leaf [ s_type "string";
          s_description "REQUIRED. The name of the parameter. Parameter names are case sensitive." ]);
        ("in", leaf [ s_enum ["query"; "header"; "path"; "cookie"];
          s_description ("REQUIRED. The location of the parameter. Possible values are " ++ dq ++ "query" ++ dq ++ ", " ++ dq ++ "header" ++ dq ++ ", " ++ dq ++ "path" ++ dq ++ ", or " ++ dq ++ "cookie" ++ dq ++ ".") ]);
        ("description", leaf [ s_type "string";
          s_description "A brief description of the parameter. This could contain examples of use." ]);
        ("required", leaf [ s_type "boolean";
          s_description ("Determines whether this parameter is mandatory. If the parameter location is " ++ dq ++ "path" ++ dq ++ ", this property is REQUIRED and its value MUST be true. Otherwise, the property MAY be included and its default value is false.") ]);
        ("deprecated", leaf [ s_type "boolean";
          s_description "Specifies that a parameter is deprecated and SHOULD be transitioned out of usage. Default value is false." ]);
        ("allowEmptyValue", leaf [ s_type "boolean";
          s_description "Sets the ability to pass empty-valued parameters. This is valid only for query parameters and allows sending a parameter with an empty value. Default value is false. If style is used, and if behavior is n/a (cannot be serialized), the value of allowEmptyValue SHALL be ignored. Use of this property is NOT RECOMMENDED, as it is likely to be removed in a later revision." ]);
        ("style", leaf [ s_enum ["form"; "simple"; "label"; "matrix"; "spaceDelimited"; "pipeDelimited"; "deepObject"];
          s_description "Describes how the parameter value will be serialized depending on the type of the parameter value. Default values (based on value of in): for query - form; for path - simple; for header - simple; for cookie - form." ]);
        ("explode", leaf [ s_type "boolean";
          s_description "When this is true, parameter values of type array or object generate separate parameters for each value of the array or key-value pair of the map. For other types of parameters this property has no effect. When style is form, the default value is true. For all other styles, the default value is false." ]);
        ("allowReserved", leaf [ s_type "boolean";
          s_description "Determines whether the parameter value SHOULD allow reserved characters, as defined by RFC3986 :/?#[]@!$&'()*+,;= to be included without percent-encoding. This property only applies to parameters with an in value of query. The default value is false." ]);
        ("schema", ref "Schema");
        ("example", leaf [s_isExample true]);
        ("examples", ref "ExamplesMap");
        ("content", ref "MediaTypesMap") ];
    f_required ["name"; "in"];
    f_requiredOneOf ["schema"; "content"];
    f_extensionsPrefix "x-";
    f_description "Describes a request parameter, which excludes the request body. A unique parameter is defined by a unique combination of the name and in values.";
    f_documentationLink "https://redocly.com/learn/openapi/openapi-visual-reference/parameter" ].

Definition Operation : NodeType :=
  node
    [ f_properties
      [ ("tags", leaf [ s_type "array";
          s_items (scalar [s_type "string"]);
          s_description "A list of tags for API documentation control. Tags can be used for logical grouping of operations by resources or any other qualifier." ]);
        ("summary", leaf [ s_type "string";
          s_description "A short summary of what the operation does.";
          s_documentationLink "https://redocly.com/learn/openapi/openapi-visual-reference/operation#summary" ]);
        ("description", leaf [ s_type "string";
          s_description "A verbose explanation of the operation behavior.";
          s_documentationLink "https://redocly.com/learn/openapi/openapi-visual-reference/operation#description" ]);
        ("externalDocs", ref "ExternalDocs");
        ("operationId", leaf [ s_type "string";
          s_description "The operationId is path segment or path fragment in deep links to a specific operation.";
          s_documentationLink "https://redocly.com/learn/openapi/openapi-visual-reference/operation#operationid" ]);
        ("parameters", ref "ParameterList");
        ("security", ref "SecurityRequirementList");
        ("servers", ref "ServerList");
        ("requestBody", ref "RequestBody");
        ("responses", ref "Responses");
        ("deprecated", leaf [s_type "boolean"]);
        ("callbacks", ref "CallbacksMap");
        ("x-codeSamples", ref "XCodeSampleList");
        ("x-code-samples", ref "XCodeSampleList");
        ("x-hideTryItPanel", leaf [s_type "boolean"]) ];
    f_required ["responses"];
    f_extensionsPrefix "x-";
    f_description "The Operation Object describes a single API operation on a path, including its parameters, responses, and request body (if applicable). Each path can support more than one operation, but those operations must be unique. A unique operation is a combination of a path and an HTTP method, so two GET or two POST methods for the same path are not allowed.";
    f_documentationLink "https://redocly.com/learn/openapi/openapi-visual-reference/operation" ].

Definition XCodeSample : NodeType :=
  node
    [ f_properties
      [ ("lang", leaf [s_type "string"]);
        ("label", leaf [s_type "string"]);
        ("source", leaf [s_type "string"]) ] ].

Definition RequestBody : NodeType :=
  node
    [ f_properties
      [ ("description", leaf [ s_type "string";
          s_description "A brief description of the request body. This could contain examples of use." ]);
        ("required", leaf [ s_type "boolean";
          s_description "Determines if the request body is required in the request. Defaults to false." ]);
        ("content", ref "MediaTypesMap") ];
    f_required ["content"];
    f_extensionsPrefix "x-";
    f_documentationLink "https://redocly.com/learn/openapi/openapi-visual-reference/request-body";
    f_description "The request body is defined inside of operations (including paths and webhooks). The request body can also be defined inside of the named requestBodies object in components." ].

Definition MediaTypesMap : NodeType :=
  node
    [ f_properties [];
    f_additionalProperties (ref "MediaType") ].

Definition MediaType : NodeType :=
  node
    [ f_properties
      [ ("schema", ref "Schema");
        ("example", leaf [s_isExample true]);
        ("examples", ref "ExamplesMap");
        ("encoding", ref "EncodingMap") ];
    f_extensionsPrefix "x-";
    f_description "The Media Type Object is one of the important building blocks of OpenAPI.";
    f_documentationLink "https://redocly.com/learn/openapi/openapi-visual-reference/media-type" ].

Definition Example : NodeType :=
  node
    [ f_properties
      [ ("value", leaf [s_resolvable false]);
        ("summary", leaf [s_type "string"]);
        ("description", leaf [s_type "string"]);
        ("externalValue", leaf [s_type "string"]) ];
    f_extensionsPrefix "x-";
    f_description "Example of the media type. The example object SHOULD be in the correct format as specified by the media type. The example field is mutually exclusive of the examples field. Furthermore, if referencing a schema which contains an example, the example value SHALL override the example provided by the schema.";
    f_documentationLink "https://redocly.com/learn/openapi/openapi-visual-reference/example" ].

Definition Encoding : NodeType :=
  node
    [ f_properties
      [ ("contentType", leaf [s_type "string"]);
        ("headers", ref "HeadersMap");
        ("style", leaf [ s_enum ["form"; "simple"; "label"; "matrix"; "spaceDelimited"; "pipeDelimited"; "deepObject"] ]);
        ("explode", leaf [s_type "boolean"]);
        ("allowReserved", leaf [s_type "boolean"]) ];
    f_extensionsPrefix "x-" ].

Definition EnumDescriptions : NodeType :=
  node
    [ f_properties [];
    f_additionalProperties (leaf [s_type "string"]) ].

Definition Header : NodeType :=
  node
    [ f_properties
      [ ("description", leaf [s_type "string"]);
        ("required", leaf [s_type "boolean"]);
        ("deprecated", leaf [s_type "boolean"]);
        ("allowEmptyValue", leaf [s_type "boolean"]);
        ("style", leaf [ s_enum ["form"; "simple"; "label"; "matrix"; "spaceDelimited"; "pipeDelimited"; "deepObject"] ]);
        ("explode", leaf [s_type "boolean"]);
        ("allowReserved", leaf [s_type "boolean"]);
        ("schema", ref "Schema");
        ("example", leaf [s_isExample true]);
        ("examples", ref "ExamplesMap");
        ("content", ref "MediaTypesMap") ];
    f_requiredOneOf ["schema"; "content"];
    f_extensionsPrefix "x-" ].

Definition Responses_additionalProperties (_v : Value) (key : string) : option PropType :=
  if test responseCodeRegexp key then Some (PRef "Response") else None.

Definition Responses : NodeType :=
  node
    [ f_properties
      [ ("default", ref "Response") ];
    f_additionalProperties (Resolver Responses_additionalProperties);
    f_description "The list of possible responses as they are returned from executing this operation." ].

Definition Response : NodeType :=
  node
    [ f_properties
      [ ("description", leaf [s_type "string"]);
        ("headers", ref "HeadersMap");
        ("content", ref "MediaTypesMap");
        ("links", ref "LinksMap");
        ("x-summary", leaf [s_type "string"]) ];
    f_required ["description"];
    f_extensionsPrefix "x-" ].

Definition Link : NodeType :=
  node
    [ f_properties
      [ ("operationRef", leaf [s_type "string"]);
        ("operationId", leaf [s_type "string"]);
        ("parameters", null);
        ("requestBody", null);
        ("description", leaf [s_type "string"]);
        ("server", ref "Server") ];
    f_extensionsPrefix "x-" ].

Definition Schema_items (value : Value) (_key : string) : option PropType :=
  if isArray value then Some (PNode (listOf "Schema" []))
  else Some (PRef "Schema").

Definition Schema_additionalProperties (value : Value) (_key : string) : option PropType :=
  if isBoolean value then Some (PScalar (scalar [s_type "boolean"]))
  else Some (PRef "Schema").

Definition Schema : NodeType :=
  node
    [ f_properties
      [ ("externalDocs", ref "ExternalDocs");
        ("discriminator", ref "Discriminator");
        ("title", leaf [s_type "string"]);
        ("multipleOf", leaf [s_type "number"; s_minimum 0]);
        ("maximum", leaf [s_type "number"]);
        ("minimum", leaf [s_type "number"]);
        ("exclusiveMaximum", leaf [s_type "boolean"]);
        ("exclusiveMinimum", leaf [s_type "boolean"]);
        ("maxLength", leaf [s_type "integer"; s_minimum 0]);
        ("minLength", leaf [s_type "integer"; s_minimum 0]);
        ("pattern", leaf [s_type "string"]);
        ("maxItems", leaf [s_type "integer"; s_minimum 0]);
        ("minItems", leaf [s_type "integer"; s_minimum 0]);
        ("uniqueItems", leaf [s_type "boolean"]);
        ("maxProperties", leaf [s_type "integer"; s_minimum 0]);
        ("minProperties", leaf [s_type "integer"; s_minimum 0]);
        ("required", leaf [s_type "array"; s_items (scalar [s_type "string"])]);
        ("enum", leaf [s_type "array"]);
        ("type", leaf [s_enum ["object"; "array"; "string"; "number"; "integer"; "boolean"]]);
        ("allOf", inline (listOf "Schema" []));
        ("anyOf", inline (listOf "Schema" []));
        ("oneOf", inline (listOf "Schema" []));
        ("not", ref "Schema");
        ("properties", ref "SchemaProperties");
        ("items", Resolver Schema_items);
        ("additionalProperties", Resolver Schema_additionalProperties);
        ("description", leaf [s_type "string"]);
        ("format", leaf [s_type "string"]);
        ("default", null);
        ("nullable", leaf [s_type "boolean"]);
        ("readOnly", leaf [s_type "boolean"]);
        ("writeOnly", leaf [s_type "boolean"]);
        ("xml", ref "Xml");
        ("example", leaf [s_isExample true]);
        ("deprecated", leaf [s_type "boolean"]);
        ("x-tags", leaf [s_type "array"; s_items (scalar [s_type "string"])]);
        ("x-additionalPropertiesName", leaf [s_type "string"]);
        ("x-explicitMappingOnly", leaf [s_type "boolean"]) ];
    f_extensionsPrefix "x-";
    f_description "The schema defining the content of the request, response, or parameter.";
    f_documentationLink "https://redocly.com/learn/openapi/openapi-visual-reference/schemas" ].

Definition Xml : NodeType :=
  node
    [ f_properties
      [ ("name", leaf [s_type "string"]);
        ("namespace", leaf [s_type "string"]);
        ("prefix", leaf [s_type "string"]);
        ("attribute", leaf [s_type "boolean"]);
        ("wrapped", leaf [s_type "boolean"]) ];
    f_extensionsPrefix "x-" ].

Definition SchemaProperties : NodeType :=
  node
    [ f_properties [];
    f_additionalProperties (ref "Schema") ].

Definition DiscriminatorMapping_additionalProperties (value : Value) (_key : string)
  : option PropType :=
  if isMappingRef value
  then Some (PScalar (scalar [s_type "string"; s_directResolveAs "Schema"]))
  else Some (PScalar (scalar [s_type "string"])).

Definition DiscriminatorMapping : NodeType :=
  node
    [ f_properties [];
    f_additionalProperties (Resolver DiscriminatorMapping_additionalProperties) ].

Definition Discriminator : NodeType :=
  node
    [ f_properties
      [ ("propertyName", leaf [s_type "string"]);
        ("mapping", ref "DiscriminatorMapping") ];
    f_required ["propertyName"];
    f_extensionsPrefix "x-" ].

Definition Components : NodeType :=
  node
    [ f_properties
      [ ("parameters", ref "NamedParameters");
        ("schemas", ref "NamedSchemas");
        ("responses", ref "NamedResponses");
        ("examples", ref "NamedExamples");
        ("requestBodies", ref "NamedRequestBodies");
        ("headers", ref "NamedHeaders");
        ("securitySchemes", ref "NamedSecuritySchemes");
        ("links", ref "NamedLinks");
        ("callbacks", ref "NamedCallbacks") ];
    f_extensionsPrefix "x-" ].

Definition ImplicitFlow : NodeType :=
  node
    [ f_properties
      [ ("refreshUrl", leaf [s_type "string"]);
        ("scopes", leaf [s_type "object"; s_additionalProperties (scalar [s_type "string"])]);
        ("authorizationUrl", leaf [s_type "string"]) ];
    f_required ["authorizationUrl"; "scopes"];
    f_extensionsPrefix "x-" ].

Definition PasswordFlow : NodeType :=
  node
    [ f_properties
      [ ("refreshUrl", leaf [s_type "string"]);
        ("scopes", leaf [s_type "object"; s_additionalProperties (scalar [s_type "string"])]);
        ("tokenUrl", leaf [s_type "string"]) ];
    f_required ["tokenUrl"; "scopes"];
    f_extensionsPrefix "x-" ].

Definition ClientCredentials : NodeType :=
  node
    [ f_properties
      [ ("refreshUrl", leaf [s_type "string"]);
        ("scopes", leaf [s_type "object"; s_additionalProperties (scalar [s_type "string"])]);
        ("tokenUrl", leaf [s_type "string"]) ];
    f_required ["tokenUrl"; "scopes"];
    f_extensionsPrefix "x-" ].

Definition AuthorizationCode_x_usePkce (value : Value) (_key : string) : option PropType :=
  if isBoolean value then Some (PScalar (scalar [s_type "boolean"]))
  else Some (PRef "XUsePkce").

Definition AuthorizationCode : NodeType :=
  node
    [ f_properties
      [ ("refreshUrl", leaf [s_type "string"]);
        ("authorizationUrl", leaf [s_type "string"]);
        ("scopes", leaf [s_type "object"; s_additionalProperties (scalar [s_type "string"])]);
        ("tokenUrl", leaf [s_type "string"]);
        ("x-usePkce", Resolver AuthorizationCode_x_usePkce) ];
    f_required ["authorizationUrl"; "tokenUrl"; "scopes"];
    f_extensionsPrefix "x-" ].

Definition OAuth2Flows : NodeType :=
  node
    [ f_properties
      [ ("implicit", ref "ImplicitFlow");
        ("password", ref "PasswordFlow");
        ("clientCredentials", ref "ClientCredentials");
        ("authorizationCode", ref "AuthorizationCode") ];
    f_extensionsPrefix "x-" ].

Definition SecurityScheme_required (value : Value) : list string :=
  switch (opt_type value)
    [ ("apiKey", ["type"; "name"; "in"]);
      ("http", ["type"; "scheme"]);
      ("oauth2", ["type"; "flows"]);
      ("openIdConnect", ["type"; "openIdConnectUrl"]) ]
    ["type"].

Definition SecurityScheme_allowed (value : Value) : list string :=
  switch (opt_type value)
    [ ("apiKey", ["type"; "name"; "in"; "description"]);
      ("http", ["type"; "scheme"; "bearerFormat"; "description"]);
      ("oauth2", ["type"; "flows"; "description"]);
      ("openIdConnect", ["type"; "openIdConnectUrl"; "description"]) ]
    ["type"; "description"].

Definition SecurityScheme : NodeType :=
  node
    [ f_properties
      [ ("type", leaf [s_enum ["apiKey"; "http"; "oauth2"; "openIdConnect"]]);
        ("description", leaf [s_type "string"]);
        ("name", leaf [s_type "string"]);
        ("in", leaf [s_type "string"; s_enum ["query"; "header"; "cookie"]]);
        ("scheme", leaf [s_type "string"]);
        ("bearerFormat", leaf [s_type "string"]);
        ("flows", ref "OAuth2Flows");
        ("openIdConnectUrl", leaf [s_type "string"]);
        ("x-defaultClientId", leaf [s_type "string"]) ];
    f_required_fn SecurityScheme_required;
    f_allowed SecurityScheme_allowed;
    f_extensionsPrefix "x-" ].

Definition XUsePkce : NodeType :=
  node
    [ f_properties
      [ ("disableManualConfiguration", leaf [s_type "boolean"]);
        ("hideClientSecretInput", leaf [s_type "boolean"]) ] ].

Definition Oas3Types : list (string * NodeType) :=
  [ ("Root", Root);
    ("Tag", Tag);
    ("TagList", listOf "Tag" [ f_documentationLink "https://redocly.com/learn/openapi/openapi-visual-reference/tags";
       f_description "A list of tags used by the document with additional metadata. The order of the tags can be used to reflect on their order by the parsing tools. Not all tags that are used by the Operation Object must be declared. The tags that are not declared MAY be organized randomly or based on the tools' logic. Each tag name in the list MUST be unique." ]);
    ("TagGroups", listOf "TagGroup" []);
    ("TagGroup", TagGroup);
    ("ExternalDocs", ExternalDocs);
    ("Server", Server);
    ("ServerList", listOf "Server" [ f_description "A list of servers available to the API.";
       f_documentationLink "https://redocly.com/learn/openapi/openapi-visual-reference/servers#servers" ]);
    ("ServerVariable", ServerVariable);
    ("ServerVariablesMap", mapOf "ServerVariable" [ f_description "A map between a variable name and its value. The value is used for substitution in the server's URL template." ]);
    ("SecurityRequirement", SecurityRequirement);
    ("SecurityRequirementList", listOf "SecurityRequirement" []);
    ("Info", Info);
    ("Contact", Contact);
    ("License", License);
    ("Paths", Paths);
    ("PathItem", PathItem);
    ("Parameter", Parameter_);
    ("ParameterList", listOf "Parameter" [ f_description "A list of parameters that are applicable for this operation. If a parameter is already defined at the Path Item, the new definition will override it but can never remove it. The list MUST NOT include duplicated parameters. A unique parameter is defined by a combination of a name and location. The list can use the Reference Object to link to parameters that are defined at the OpenAPI Objectâ€™s components/parameters." ]);
    ("Operation", Operation);
    ("Callback", mapOf "PathItem" []);
    ("CallbacksMap", mapOf "Callback" []);
    ("RequestBody", RequestBody);
    ("MediaTypesMap", MediaTypesMap);
    ("MediaType", MediaType);
    ("Example", Example);
    ("ExamplesMap", mapOf "Example" []);
    ("Encoding", Encoding);
    ("EncodingMap", mapOf "Encoding" []);
    ("EnumDescriptions", EnumDescriptions);
    ("Header", Header);
    ("HeadersMap", mapOf "Header" []);
    ("Responses", Responses);
    ("Response", Response);
    ("Link", Link);
    ("Logo", Logo);
    ("Schema", Schema);
    ("Xml", Xml);
    ("SchemaProperties", SchemaProperties);
    ("DiscriminatorMapping", DiscriminatorMapping);
    ("Discriminator", Discriminator);
    ("Components", Components);
    ("LinksMap", mapOf "Link" []);
    ("NamedSchemas", mapOf "Schema" []);
    ("NamedResponses", mapOf "Response" []);
    ("NamedParameters", mapOf "Parameter" []);
    ("NamedExamples", mapOf "Example" []);
    ("NamedRequestBodies", mapOf "RequestBody" []);
    ("NamedHeaders", mapOf "Header" []);
    ("NamedSecuritySchemes", mapOf "SecurityScheme" []);
    ("NamedLinks", mapOf "Link" []);
    ("NamedCallbacks", mapOf "Callback" []);
    ("ImplicitFlow", ImplicitFlow);
    ("PasswordFlow", PasswordFlow);
    ("ClientCredentials", ClientCredentials);
    ("AuthorizationCode", AuthorizationCode);
    ("OAuth2Flows", OAuth2Flows);
    ("SecurityScheme", SecurityScheme);
    ("XCodeSample", XCodeSample);
    ("XCodeSampleList", listOf "XCodeSample" []);
    ("XUsePkce", XUsePkce);
    ("WebhooksMap", WebhooksMap) ].

End Types.
End Part000.

(** ** AsyncAPI 2: the bindings and security-scheme descriptors of
    [packages/core/src/types/asyncapi2.ts] *)
Module AsyncApi2.

(** The four bindings descriptors are mutated by the module after they are
    written; [ChannelBindings_def] and its like are the literals as written,
    [ChannelBindings] and its like (below) the objects once the module has
    run. *)

Definition Root : NodeType :=
  node
    [ f_properties
      [ ("asyncapi", null);
        ("info", ref "Info");
        ("id", leaf [ s_type "string";
          s_description "Identifier of the application the AsyncAPI document is defining." ]);
        ("servers", ref "ServerMap");
        ("channels", ref "ChannelMap");
        ("components", ref "Components");
        ("tags", ref "TagList");
        ("externalDocs", ref "ExternalDocs");
        ("defaultContentType", leaf [s_type "string"]) ];
    f_required ["asyncapi"; "channels"; "info"];
    f_documentationLink "https://v2.asyncapi.com/docs/reference/specification/v2.0.0" ].

Definition Channel : NodeType :=
  node
    [ f_properties
      [ ("description", leaf [ s_type "string";
          s_description "An optional description of this channel item. CommonMark syntax can be used for rich text representation." ]);
        ("subscribe", ref "Operation");
        ("publish", ref "Operation");
        ("parameters", ref "ParametersMap");
        ("bindings", ref "ChannelBindings");
        ("servers", leaf [ s_type "array";
          s_items (scalar [s_type "string"]);
          s_description "The servers on which this channel is available, specified as an optional unordered list of names (string keys) of Server Objects defined in the Servers Object (a map)." ]) ];
    f_description "Describes the operations available on a single channel.";
    f_documentationLink "https://v2.asyncapi.com/docs/concepts/channel" ].

Definition ChannelMap : NodeType :=
  node
    [ f_properties [];
    f_additionalProperties (ref "Channel") ].

Definition ChannelBindings_allowed (_value : Value) : list string :=
  (* allow all supported values, not all have deep linting *)
  [ "http"; "ws"; "kafka"; "anypointmq"; "amqp"; "amqp1"; "mqtt"; "mqtt5";
    "nats"; "jms"; "sns"; "solace"; "sqs"; "stomp"; "redis"; "mercure";
    "ibmmq"; "googlepubsub"; "pulsar" ].

Definition ChannelBindings_def : NodeType :=
  node
    [ f_properties [];
    f_allowed ChannelBindings_allowed;
    f_additionalProperties (leaf [s_type "object"]);
    f_documentationLink "https://v2.asyncapi.com/docs/reference/specification/v2.6.0#channelBindingsObject";
    f_description "Map describing protocol-specific definitions for a channel." ].

Definition Tag : NodeType :=
  node
    [ f_properties
      [ ("name", leaf [s_type "string"; s_description "REQUIRED. The name of the tag."]);
        ("description", leaf [ s_type "string";
          s_description "A short description for the tag. CommonMark syntax can be used for rich text representation." ]);
        ("externalDocs", ref "ExternalDocs") ];
    f_required ["name"];
    f_description "Allows adding meta data to a single tag.";
    f_documentationLink "https://v2.asyncapi.com/docs/reference/specification/v2.6.0#tagObject" ].

Definition ExternalDocs : NodeType :=
  node
    [ f_properties
      [ ("description", leaf [ s_type "string";
          s_description "A short description of the target documentation. CommonMark syntax can be used for rich text representation." ]);
        ("url", leaf [ s_type "string";
          s_description "REQUIRED. The URL for the target documentation. This MUST be in the form of an absolute URL." ]) ];
    f_required ["url"];
    f_documentationLink "https://v2.asyncapi.com/docs/reference/specification/v2.6.0#externalDocumentationObject";
    f_description "Allows referencing an external resource for extended documentation." ].

Definition SecurityRequirement : NodeType :=
  node
    [ f_properties [];
    f_additionalProperties (leaf [s_type "array"; s_items (scalar [s_type "string"])]);
    f_documentationLink "https://v2.asyncapi.com/docs/reference/specification/v2.6.0#securityRequirementObject";
    f_description "Lists the required security schemes to execute this operation. The name used for each property MUST correspond to a security scheme declared in the Security Schemes under the Components Object." ].

Definition ServerBindings_allowed (_value : Value) : list string :=
  (* allow all supported values, not all have deep linting *)
  [ "http"; "ws"; "kafka"; "anypointmq"; "amqp"; "amqp1"; "mqtt"; "mqtt5";
    "nats"; "jms"; "sns"; "solace"; "sqs"; "stomp"; "redis"; "mercure";
    "ibmmq"; "googlepubsub"; "pulsar" ].

Definition ServerBindings_def : NodeType :=
  node
    [ f_properties [];
    f_allowed ServerBindings_allowed;
    f_additionalProperties (leaf [s_type "object"]);
    f_documentationLink "https://v2.asyncapi.com/docs/reference/specification/v2.6.0#serverBindingsObject";
    f_description "Map describing protocol-specific definitions for a server." ].

Definition Server : NodeType :=
  node
    [ f_properties
      [ ("url", leaf [ s_type "string";
          s_description "REQUIRED. A URL to the target host. This URL supports Server Variables and MAY be relative, to indicate that the host location is relative to the location where the AsyncAPI document is being served. Variable substitutions will be made when a variable is named in {braces}." ]);
        ("protocol", leaf [ s_type "string";
          s_description "REQUIRED. The protocol this URL supports for connection. Supported protocol include, but are not limited to: amqp, amqps, http, https, ibmmq, jms, kafka, kafka-secure, anypointmq, mqtt, secure-mqtt, solace, stomp, stomps, ws, wss, mercure, googlepubsub, pulsar." ]);
        ("protocolVersion", leaf [ s_type "string";
          s_description "The version of the protocol used for connection. For instance: AMQP 0.9.1, HTTP 2.0, Kafka 1.0.0, etc." ]);
        ("description", leaf [ s_type "string";
          s_description "An optional string describing the host designated by the URL. CommonMark syntax MAY be used for rich text representation." ]);
        ("variables", ref "ServerVariablesMap");
        ("security", ref "SecurityRequirementList");
        ("bindings", ref "ServerBindings");
        ("tags", ref "TagList") ];
    f_required ["url"; "protocol"];
    f_documentationLink "https://v2.asyncapi.com/docs/reference/specification/v2.6.0#serverObject";
    f_description "An object representing a message broker, a server or any other kind of computer program capable of sending and/or receiving data. This object is used to capture details such as URIs, protocols and security configuration. Variable substitution can be used so that some details, for example usernames and passwords, can be injected by code generation tools." ].

Definition ServerMap_additionalProperties (_value : Value) (key : string) : option PropType :=
  if testOneOrMore [("A", "Z"); ("a", "z"); ("0", "9"); ("_", "_"); ("-", "-")]%char key
  then Some (PRef "Server")
  else None.

Definition ServerMap : NodeType :=
  node
    [ f_properties [];
    f_additionalProperties (Resolver ServerMap_additionalProperties) ].

Definition ServerVariable : NodeType :=
  node
    [ f_properties
      [ ("enum", leaf [ s_type "array";
          s_items (scalar [s_type "string"]);
          s_description "An enumeration of string values to be used if the substitution options are from a limited set." ]);
        ("default", leaf [ s_type "string";
          s_description "The default value to use for substitution, and to send, if an alternate value is not supplied." ]);
        ("description", leaf [ s_type "string";
          s_description "An optional description for the server variable. CommonMark syntax MAY be used for rich text representation." ]);
        ("examples", leaf [ s_type "array";
          s_items (scalar [s_type "string"]);
          s_description "An array of examples of the server variable." ]) ];
    f_required [];
    f_documentationLink "https://v2.asyncapi.com/docs/reference/specification/v2.6.0#serverVariableObject";
    f_description "An object representing a Server Variable for server URL template substitution." ].

Definition Info : NodeType :=
  node
    [ f_properties
      [ ("title", leaf [s_type "string"]);
        ("version", leaf [s_type "string"]);
        ("description", leaf [s_type "string"]);
        ("termsOfService", leaf [s_type "string"]);
        ("contact", ref "Contact");
        ("license", ref "License") ];
    f_required ["title"; "version"] ].

Definition Contact : NodeType :=
  node
    [ f_properties
      [ ("name", leaf [s_type "string"]);
        ("url", leaf [s_type "string"]);
        ("email", leaf [s_type "string"]) ] ].

Definition License : NodeType :=
  node
    [ f_properties
      [ ("name", leaf [s_type "string"]);
        ("url", leaf [s_type "string"]) ];
    f_required ["name"] ].

Definition Parameter_ : NodeType :=
  node
    [ f_properties
      [ ("description", leaf [s_type "string"]);
        ("schema", ref "Schema");
        ("location", leaf [s_type "string"]) ] ].

Definition CorrelationId : NodeType :=
  node
    [ f_properties
      [ ("description", leaf [s_type "string"]);
        ("location", leaf [s_type "string"]) ];
    f_required ["location"] ].

Definition Message : NodeType :=
  node
    [ f_properties
      [ ("messageId", leaf [s_type "string"]);
        ("headers", ref "Schema");
        ("payload", ref "Schema");
        ("correlationId", ref "CorrelationId");
        ("schemaFormat", leaf [s_type "string"]);
        ("contentType", leaf [s_type "string"]);
        ("name", leaf [s_type "string"]);
        ("title", leaf [s_type "string"]);
        ("summary", leaf [s_type "string"]);
        ("description", leaf [s_type "string"]);
        ("tags", ref "TagList");
        ("externalDocs", ref "ExternalDocs");
        ("bindings", ref "MessageBindings");
        ("examples", ref "MessageExampleList");
        ("traits", ref "MessageTraitList") ];
    f_additionalProperties (leaf []) ].

Definition MessageBindings_allowed (_value : Value) : list string :=
  (* allow all supported values, not all have deep linting *)
  [ "http"; "ws"; "kafka"; "anypointmq"; "amqp"; "amqp1"; "mqtt"; "mqtt5";
    "nats"; "jms"; "sns"; "solace"; "sqs"; "stomp"; "redis"; "mercure";
    "ibmmq"; "googlepubsub"; "pulsar" ].

Definition MessageBindings_def : NodeType :=
  node
    [ f_properties [];
    f_allowed MessageBindings_allowed;
    f_additionalProperties (leaf [s_type "object"]) ].

Definition OperationBindings_allowed (_value : Value) : list string :=
  (* allow all supported values, not all have deep linting *)
  [ "http"; "ws"; "kafka"; "anypointmq"; "amqp"; "amqp1"; "mqtt"; "mqtt5";
    "nats"; "jms"; "sns"; "solace"; "sqs"; "stomp"; "redis"; "mercure";
    "ibmmq"; "googlepubsub"; "pulsar" ].

Definition OperationBindings_def : NodeType :=
  node
    [ f_properties [];
    f_allowed OperationBindings_allowed;
    f_additionalProperties (leaf [s_type "object"]) ].

Definition OperationTrait : NodeType :=
  node
    [ f_properties
      [ ("tags", ref "TagList");
        ("summary", leaf [s_type "string"]);
        ("description", leaf [s_type "string"]);
        ("externalDocs", ref "ExternalDocs");
        ("operationId", leaf [s_type "string"]);
        ("security", ref "SecurityRequirementList");
        ("bindings", ref "OperationBindings") ];
    f_required [] ].

Definition MessageTrait : NodeType :=
  node
    [ f_properties
      [ ("messageId", leaf [s_type "string"]);
        ("headers", ref "Schema");
        ("correlationId", ref "CorrelationId");
        ("schemaFormat", leaf [s_type "string"]);
        ("contentType", leaf [s_type "string"]);
        ("name", leaf [s_type "string"]);
        ("title", leaf [s_type "string"]);
        ("summary", leaf [s_type "string"]);
        ("description", leaf [s_type "string"]);
        ("tags", ref "TagList");
        ("externalDocs", ref "ExternalDocs");
        ("bindings", ref "MessageBindings");
        ("examples", ref "MessageExampleList") ];
    f_additionalProperties (leaf []) ].

Definition Operation : NodeType :=
  node
    [ f_properties
      [ ("tags", ref "TagList");
        ("summary", leaf [s_type "string"]);
        ("description", leaf [s_type "string"]);
        ("externalDocs", ref "ExternalDocs");
        ("operationId", leaf [s_type "string"]);
        ("security", ref "SecurityRequirementList");
        ("bindings", ref "OperationBindings");
        ("traits", ref "OperationTraitList");
        ("message", ref "Message") ];
    f_required [] ].

Definition MessageExample : NodeType :=
  node
    [ f_properties
      [ ("payload", leaf [s_isExample true]);
        ("summary", leaf [s_type "string"]);
        ("name", leaf [s_type "string"]);
        ("headers", leaf [s_type "object"]) ] ].

Definition Components : NodeType :=
  node
    [ f_properties
      [ ("messages", ref "NamedMessages");
        ("parameters", ref "NamedParameters");
        ("schemas", ref "NamedSchemas");
        ("correlationIds", ref "NamedCorrelationIds");
        ("messageTraits", ref "NamedMessageTraits");
        ("operationTraits", ref "NamedOperationTraits");
        ("securitySchemes", ref "NamedSecuritySchemes");
        ("servers", ref "ServerMap");
        ("serverVariables", ref "ServerVariablesMap");
        ("channels", ref "ChannelMap");
        ("serverBindings", ref "ServerBindings");
        ("channelBindings", ref "ChannelBindings");
        ("operationBindings", ref "OperationBindings");
        ("messageBindings", ref "MessageBindings") ] ].

Definition ImplicitFlow : NodeType :=
  node
    [ f_properties
      [ ("refreshUrl", leaf [s_type "string"]);
        ("scopes", leaf [s_type "object"; s_additionalProperties (scalar [s_type "string"])]);
        ("authorizationUrl", leaf [s_type "string"]) ];
    f_required ["authorizationUrl"; "scopes"] ].

Definition PasswordFlow : NodeType :=
  node
    [ f_properties
      [ ("refreshUrl", leaf [s_type "string"]);
        ("scopes", leaf [s_type "object"; s_additionalProperties (scalar [s_type "string"])]);
        ("tokenUrl", leaf [s_type "string"]) ];
    f_required ["tokenUrl"; "scopes"] ].

Definition ClientCredentials : NodeType :=
  node
    [ f_properties
      [ ("refreshUrl", leaf [s_type "string"]);
        ("scopes", leaf [s_type "object"; s_additionalProperties (scalar [s_type "string"])]);
        ("tokenUrl", leaf [s_type "string"]) ];
    f_required ["tokenUrl"; "scopes"] ].

Definition AuthorizationCode : NodeType :=
  node
    [ f_properties
      [ ("refreshUrl", leaf [s_type "string"]);
        ("authorizationUrl", leaf [s_type "string"]);
        ("scopes", leaf [s_type "object"; s_additionalProperties (scalar [s_type "string"])]);
        ("tokenUrl", leaf [s_type "string"]) ];
    f_required ["authorizationUrl"; "tokenUrl"; "scopes"] ].

Definition SecuritySchemeFlows : NodeType :=
  node
    [ f_properties
      [ ("implicit", ref "ImplicitFlow");
        ("password", ref "PasswordFlow");
        ("clientCredentials", ref "ClientCredentials");
        ("authorizationCode", ref "AuthorizationCode") ] ].

Definition SecurityScheme_required (value : Value) : list string :=
  switch (opt_type value)
    [ ("apiKey", ["type"; "in"]);
      ("httpApiKey", ["type"; "name"; "in"]);
      ("http", ["type"; "scheme"]);
      ("oauth2", ["type"; "flows"]);
      ("openIdConnect", ["type"; "openIdConnectUrl"]) ]
    ["type"].

Definition SecurityScheme_allowed (value : Value) : list string :=
  switch (opt_type value)
    [ ("apiKey", ["type"; "in"; "description"]);
      ("httpApiKey", ["type"; "name"; "in"; "description"]);
      ("http", ["type"; "scheme"; "bearerFormat"; "description"]);
      ("oauth2", ["type"; "flows"; "description"]);
      ("openIdConnect", ["type"; "openIdConnectUrl"; "description"]) ]
    ["type"; "description"].

Definition SecurityScheme : NodeType :=
  node
    [ f_properties
      [ ("type", leaf [ s_enum ["userPassword"; "apiKey"; "X509"; "symmetricEncryption"; "asymmetricEncryption"; "httpApiKey"; "http"; "oauth2"; "openIdConnect"; "plain"; "scramSha256"; "scramSha512"; "gssapi"] ]);
        ("description", leaf [s_type "string"]);
        ("name", leaf [s_type "string"]);
        ("in", leaf [s_type "string"; s_enum ["query"; "header"; "cookie"; "user"; "password"]]);
        ("scheme", leaf [s_type "string"]);
        ("bearerFormat", leaf [s_type "string"]);
        ("flows", ref "SecuritySchemeFlows");
        ("openIdConnectUrl", leaf [s_type "string"]) ];
    f_required_fn SecurityScheme_required;
    f_allowed SecurityScheme_allowed;
    f_extensionsPrefix "x-" ].

Definition HttpChannelBinding : NodeType :=
  node
    [ f_properties [] ].

Definition HttpServerBinding : NodeType :=
  node
    [ f_properties [] ].

Definition HttpMessageBinding : NodeType :=
  node
    [ f_properties
      [ ("headers", ref "Schema");
        ("bindingVersion", leaf [s_type "string"]) ] ].

Definition HttpOperationBinding : NodeType :=
  node
    [ f_properties
      [ ("type", leaf [s_type "string"]);
        ("method", leaf [ s_type "string";
          s_enum ["GET"; "POST"; "PUT"; "PATCH"; "DELETE"; "HEAD"; "OPTIONS"; "CONNECT"; "TRACE"] ]);
        ("headers", ref "Schema");
        ("bindingVersion", leaf [s_type "string"]) ] ].

Definition WsChannelBinding : NodeType :=
  node
    [ f_properties
      [ ("method", leaf [s_type "string"]);
        ("query", ref "Schema");
        ("headers", ref "Schema");
        ("bindingVersion", leaf [s_type "string"]) ] ].

Definition WsServerBinding : NodeType :=
  node
    [ f_properties [] ].

Definition WsMessageBinding : NodeType :=
  node
    [ f_properties [] ].

Definition WsOperationBinding : NodeType :=
  node
    [ f_properties [] ].

Definition KafkaTopicConfiguration : NodeType :=
  node
    [ f_properties
      [ ("cleanup.policy", leaf [s_type "array"; s_items (scalar [s_enum ["delete"; "compact"]])]);
        ("retention.ms", leaf [s_type "integer"]);
        ("retention.bytes", leaf [s_type "integer"]);
        ("delete.retention.ms", leaf [s_type "integer"]);
        ("max.message.bytes", leaf [s_type "integer"]) ] ].

Definition KafkaChannelBinding : NodeType :=
  node
    [ f_properties
      [ ("topic", leaf [s_type "string"]);
        ("partitions", leaf [s_type "integer"]);
        ("replicas", leaf [s_type "integer"]);
        ("topicConfiguration", ref "KafkaTopicConfiguration");
        ("bindingVersion", leaf [s_type "string"]) ] ].

Definition KafkaServerBinding : NodeType :=
  node
    [ f_properties [] ].

Definition KafkaMessageBinding : NodeType :=
  node
    [ f_properties
      [ ("key", ref "Schema");
        ("schemaIdLocation", leaf [s_type "string"]);
        ("schemaIdPayloadEncoding", leaf [s_type "string"]);
        ("schemaLookupStrategy", leaf [s_type "string"]);
        ("bindingVersion", leaf [s_type "string"]) ] ].

Definition KafkaOperationBinding : NodeType :=
  node
    [ f_properties
      [ ("groupId", ref "Schema");
        ("clientId", ref "Schema");
        ("bindingVersion", leaf [s_type "string"]) ] ].

Definition AnypointmqChannelBinding : NodeType :=
  node
    [ f_properties
      [ ("destination", leaf [s_type "string"]);
        ("destinationType", leaf [s_type "string"]);
        ("bindingVersion", leaf [s_type "string"]) ] ].

Definition AnypointmqServerBinding : NodeType :=
  node
    [ f_properties [] ].

Definition AnypointmqMessageBinding : NodeType :=
  node
    [ f_properties
      [ ("headers", ref "Schema");
        ("bindingVersion", leaf [s_type "string"]) ] ].

Definition AnypointmqOperationBinding : NodeType :=
  node
    [ f_properties [] ].

Definition AmqpChannelBinding : NodeType :=
  node
    [ f_properties [] ].

Definition AmqpServerBinding : NodeType :=
  node
    [ f_properties [] ].

Definition AmqpMessageBinding : NodeType :=
  node
    [ f_properties
      [ ("contentEncoding", leaf [s_type "string"]);
        ("messageType", leaf [s_type "string"]);
        ("bindingVersion", leaf [s_type "string"]) ] ].

Definition AmqpOperationBinding : NodeType :=
  node
    [ f_properties
      [ ("expiration", leaf [s_type "integer"]);
        ("userId", leaf [s_type "string"]);
        ("cc", leaf [s_type "array"; s_items (scalar [s_type "string"])]);
        ("priority", leaf [s_type "integer"]);
        ("deliveryMode", leaf [s_type "integer"]);
        ("mandatory", leaf [s_type "boolean"]);
        ("bcc", leaf [s_type "array"; s_items (scalar [s_type "string"])]);
        ("replyTo", leaf [s_type "string"]);
        ("timestamp", leaf [s_type "boolean"]);
        ("ack", leaf [s_type "boolean"]);
        ("bindingVersion", leaf [s_type "string"]) ] ].

Definition Amqp1ChannelBinding : NodeType :=
  node
    [ f_properties [] ].

Definition Amqp1ServerBinding : NodeType :=
  node
    [ f_properties [] ].

Definition Amqp1MessageBinding : NodeType :=
  node
    [ f_properties [] ].

Definition Amqp1OperationBinding : NodeType :=
  node
    [ f_properties [] ].

Definition MqttChannelBinding : NodeType :=
  node
    [ f_properties
      [ ("qos", leaf [s_type "integer"]);
        ("retain", leaf [s_type "boolean"]);
        ("bindingVersion", leaf [s_type "string"]) ] ].

Definition MqttServerBindingLastWill : NodeType :=
  node
    [ f_properties
      [ ("topic", leaf [s_type "string"]);
        ("qos", leaf [s_type "integer"]);
        ("message", leaf [s_type "string"]);
        ("retain", leaf [s_type "boolean"]) ] ].

Definition MqttServerBinding : NodeType :=
  node
    [ f_properties
      [ ("clientId", leaf [s_type "string"]);
        ("cleanSession", leaf [s_type "boolean"]);
        ("lastWill", ref "MqttServerBindingLastWill");
        ("keepAlive", leaf [s_type "integer"]);
        ("bindingVersion", leaf [s_type "string"]) ] ].

Definition MqttMessageBinding : NodeType :=
  node
    [ f_properties
      [ ("bindingVersion", leaf [s_type "string"]) ] ].

Definition MqttOperationBinding : NodeType :=
  node
    [ f_properties
      [ ("qos", leaf [s_type "integer"]);
        ("retain", leaf [s_type "boolean"]);
        ("bindingVersion", leaf [s_type "string"]) ] ].

Definition Mqtt5ChannelBinding : NodeType :=
  node
    [ f_properties [] ].

Definition Mqtt5ServerBinding : NodeType :=
  node
    [ f_properties [] ].

Definition Mqtt5MessageBinding : NodeType :=
  node
    [ f_properties [] ].

Definition Mqtt5OperationBinding : NodeType :=
  node
    [ f_properties [] ].

Definition NatsChannelBinding : NodeType :=
  node
    [ f_properties [] ].

Definition NatsServerBinding : NodeType :=
  node
    [ f_properties [] ].

Definition NatsMessageBinding : NodeType :=
  node
    [ f_properties [] ].

Definition NatsOperationBinding : NodeType :=
  node
    [ f_properties
      [ ("queue", leaf [s_type "string"]);
        ("bindingVersion", leaf [s_type "string"]) ] ].

Definition JmsChannelBinding : NodeType :=
  node
    [ f_properties
      [ ("destination", leaf [s_type "string"]);
        ("destinationType", leaf [s_type "string"]);
        ("bindingVersion", leaf [s_type "string"]) ] ].

Definition JmsServerBinding : NodeType :=
  node
    [ f_properties [] ].

Definition JmsMessageBinding : NodeType :=
  node
    [ f_properties
      [ ("headers", ref "Schema");
        ("bindingVersion", leaf [s_type "string"]) ] ].

Definition JmsOperationBinding : NodeType :=
  node
    [ f_properties
      [ ("headers", ref "Schema");
        ("bindingVersion", leaf [s_type "string"]) ] ].

Definition SolaceChannelBinding : NodeType :=
  node
    [ f_properties [] ].

Definition SolaceServerBinding : NodeType :=
  node
    [ f_properties
      [ ("bindingVersion", leaf [s_type "string"]);
        ("msgVpn", leaf [s_type "string"]) ] ].

Definition SolaceMessageBinding : NodeType :=
  node
    [ f_properties [] ].

Definition SolaceDestination : NodeType :=
  node
    [ f_properties
      [ ("destinationType", leaf [s_type "string"; s_enum ["queue"; "topic"]]);
        ("deliveryMode", leaf [s_type "string"; s_enum ["direct"; "persistent"]]);
        ("queue.name", leaf [s_type "string"]);
        ("queue.topicSubscriptions", leaf [s_type "array"; s_items (scalar [s_type "string"])]);
        ("queue.accessType", leaf [s_type "string"; s_enum ["exclusive"; "nonexclusive"]]);
        ("queue.maxMsgSpoolSize", leaf [s_type "string"]);
        ("queue.maxTtl", leaf [s_type "string"]);
        ("topic.topicSubscriptions", leaf [s_type "array"; s_items (scalar [s_type "string"])]) ] ].

Definition SolaceOperationBinding : NodeType :=
  node
    [ f_properties
      [ ("bindingVersion", leaf [s_type "string"]);
        ("destinations", inline (listOf "SolaceDestination" [])) ] ].

Definition StompChannelBinding : NodeType :=
  node
    [ f_properties [] ].

Definition StompServerBinding : NodeType :=
  node
    [ f_properties [] ].

Definition StompMessageBinding : NodeType :=
  node
    [ f_properties [] ].

Definition StompOperationBinding : NodeType :=
  node
    [ f_properties [] ].

Definition RedisChannelBinding : NodeType :=
  node
    [ f_properties [] ].

Definition RedisServerBinding : NodeType :=
  node
    [ f_properties [] ].

Definition RedisMessageBinding : NodeType :=
  node
    [ f_properties [] ].

Definition RedisOperationBinding : NodeType :=
  node
    [ f_properties [] ].

Definition MercureChannelBinding : NodeType :=
  node
    [ f_properties [] ].

Definition MercureServerBinding : NodeType :=
  node
    [ f_properties [] ].

Definition MercureMessageBinding : NodeType :=
  node
    [ f_properties [] ].

Definition MercureOperationBinding : NodeType :=
  node
    [ f_properties [] ].

(** *** The module's assignments to the bindings descriptors

    Between the per-protocol node types the module runs statements of the
    form [ChannelBindings.properties.http = HttpChannelBinding;].  They act on
    the four descriptors, which every later reader shares. *)
Inductive Target : Type :=
| TChannelBindings
| TServerBindings
| TMessageBindings
| TOperationBindings.

Inductive Stmt : Type :=
| Assign (target : Target) (key : string) (value : NodeType).

Record Store : Type := mkStore {
  sChannelBindings : NodeType;
  sServerBindings : NodeType;
  sMessageBindings : NodeType;
  sOperationBindings : NodeType }.

(** [t.properties[k] = v] for a node type [v]. *)
Definition setProperty (t : NodeType) (k : string) (v : NodeType) : NodeType :=
  let '(mkNodeType ps ap it rq ro al ep de dl) := t in
  mkNodeType (assign k (inline v) ps) ap it rq ro al ep de dl.

Definition exec (st : Store) (s : Stmt) : Store :=
  let '(Assign target k v) := s in
  let '(mkStore c sv m o) := st in
  match target with
  | TChannelBindings => mkStore (setProperty c k v) sv m o
  | TServerBindings => mkStore c (setProperty sv k v) m o
  | TMessageBindings => mkStore c sv (setProperty m k v) o
  | TOperationBindings => mkStore c sv m (setProperty o k v)
  end.

Definition run (stmts : list Stmt) (st : Store) : Store :=
  fold_left exec stmts st.

(** The descriptor a target names in a store, and the keys that a list of
    statements assigns in a target's [properties]. *)
Definition select (target : Target) (st : Store) : NodeType :=
  match target with
  | TChannelBindings => sChannelBindings st
  | TServerBindings => sServerBindings st
  | TMessageBindings => sMessageBindings st
  | TOperationBindings => sOperationBindings st
  end.

Definition sameTarget (a b : Target) : bool :=
  match a, b with
  | TChannelBindings, TChannelBindings
  | TServerBindings, TServerBindings
  | TMessageBindings, TMessageBindings
  | TOperationBindings, TOperationBindings => true
  | _, _ => false
  end.

Definition assignedKeys (target : Target) (stmts : list Stmt) : list string :=
  flat_map
    (fun s => let '(Assign t k _) := s in if sameTarget t target then [k] else [])
    stmts.

Definition initial : Store :=
  mkStore ChannelBindings_def ServerBindings_def MessageBindings_def
          OperationBindings_def.

(** The assignments of the module, in the order of the source. *)
Definition patches : list Stmt :=
  [ Assign TChannelBindings "http" HttpChannelBinding;
    Assign TServerBindings "http" HttpServerBinding;
    Assign TMessageBindings "http" HttpMessageBinding;
    Assign TOperationBindings "http" HttpOperationBinding;
    Assign TChannelBindings "ws" WsChannelBinding;
    Assign TServerBindings "ws" WsServerBinding;
    Assign TMessageBindings "ws" WsMessageBinding;
    Assign TOperationBindings "ws" WsOperationBinding;
    Assign TChannelBindings "kafka" KafkaChannelBinding;
    Assign TServerBindings "kafka" KafkaServerBinding;
    Assign TMessageBindings "kafka" KafkaMessageBinding;
    Assign TOperationBindings "kafka" KafkaOperationBinding;
    Assign TChannelBindings "anypointmq" AnypointmqChannelBinding;
    Assign TServerBindings "anypointmq" AnypointmqServerBinding;
    Assign TMessageBindings "anypointmq" AnypointmqMessageBinding;
    Assign TOperationBindings "anypointmq" AnypointmqOperationBinding;
    Assign TChannelBindings "amqp" AmqpChannelBinding;
    Assign TServerBindings "amqp" AmqpServerBinding;
    Assign TMessageBindings "amqp" AmqpMessageBinding;
    Assign TOperationBindings "amqp" AmqpOperationBinding;
    Assign TChannelBindings "amqp1" Amqp1ChannelBinding;
    Assign TServerBindings "amqp1" Amqp1ServerBinding;
    Assign TMessageBindings "amqp1" Amqp1MessageBinding;
    Assign TOperationBindings "amqp1" Amqp1OperationBinding;
    Assign TChannelBindings "mqtt" MqttChannelBinding;
    Assign TServerBindings "mqtt" MqttServerBinding;
    Assign TMessageBindings "mqtt" MqttMessageBinding;
    Assign TOperationBindings "mqtt" MqttOperationBinding;
    Assign TChannelBindings "mqtt5" Mqtt5ChannelBinding;
    Assign TServerBindings "mqtt5" Mqtt5ServerBinding;
    Assign TMessageBindings "mqtt5" Mqtt5MessageBinding;
    Assign TOperationBindings "mqtt5" Mqtt5OperationBinding;
    Assign TChannelBindings "nats" NatsChannelBinding;
    Assign TServerBindings "nats" NatsServerBinding;
    Assign TMessageBindings "nats" NatsMessageBinding;
    Assign TOperationBindings "nats" NatsOperationBinding;
    Assign TChannelBindings "jms" JmsChannelBinding;
    Assign TServerBindings "jms" JmsServerBinding;
    Assign TMessageBindings "jms" JmsMessageBinding;
    Assign TOperationBindings "jms" JmsOperationBinding;
    Assign TChannelBindings "solace" SolaceChannelBinding;
    Assign TServerBindings "solace" SolaceServerBinding;
    Assign TMessageBindings "solace" SolaceMessageBinding;
    Assign TOperationBindings "solace" SolaceOperationBinding;
    Assign TChannelBindings "stomp" StompChannelBinding;
    Assign TServerBindings "stomp" StompServerBinding;
    Assign TMessageBindings "stomp" StompMessageBinding;
    Assign TOperationBindings "stomp" StompOperationBinding;
    Assign TChannelBindings "redis" RedisChannelBinding;
    Assign TServerBindings "redis" RedisServerBinding;
    Assign TMessageBindings "redis" RedisMessageBinding;
    Assign TOperationBindings "redis" RedisOperationBinding;
    Assign TChannelBindings "mercure" MercureChannelBinding;
    Assign TServerBindings "mercure" MercureServerBinding;
    Assign TMessageBindings "mercure" MercureMessageBinding;
    Assign TOperationBindings "mercure" MercureOperationBinding ].

Definition final : Store := run patches initial.

Definition ChannelBindings : NodeType := sChannelBindings final.
Definition ServerBindings : NodeType := sServerBindings final.
Definition MessageBindings : NodeType := sMessageBindings final.
Definition OperationBindings : NodeType := sOperationBindings final.

Definition AsyncApi2Bindings : list (string * NodeType) :=
  [ ("HttpServerBinding", HttpServerBinding);
    ("HttpChannelBinding", HttpChannelBinding);
    ("HttpMessageBinding", HttpMessageBinding);
    ("HttpOperationBinding", HttpOperationBinding);
    ("WsServerBinding", WsServerBinding);
    ("WsChannelBinding", WsChannelBinding);
    ("WsMessageBinding", WsMessageBinding);
    ("WsOperationBinding", WsOperationBinding);
    ("KafkaServerBinding", KafkaServerBinding);
    ("KafkaTopicConfiguration", KafkaTopicConfiguration);
    ("KafkaChannelBinding", KafkaChannelBinding);
    ("KafkaMessageBinding", KafkaMessageBinding);
    ("KafkaOperationBinding", KafkaOperationBinding);
    ("AnypointmqServerBinding", AnypointmqServerBinding);
    ("AnypointmqChannelBinding", AnypointmqChannelBinding);
    ("AnypointmqMessageBinding", AnypointmqMessageBinding);
    ("AnypointmqOperationBinding", AnypointmqOperationBinding);
    ("AmqpServerBinding", AmqpServerBinding);
    ("AmqpChannelBinding", AmqpChannelBinding);
    ("AmqpMessageBinding", AmqpMessageBinding);
    ("AmqpOperationBinding", AmqpOperationBinding);
    ("Amqp1ServerBinding", Amqp1ServerBinding);
    ("Amqp1ChannelBinding", Amqp1ChannelBinding);
    ("Amqp1MessageBinding", Amqp1MessageBinding);
    ("Amqp1OperationBinding", Amqp1OperationBinding);
    ("MqttServerBindingLastWill", MqttServerBindingLastWill);
    ("MqttServerBinding", MqttServerBinding);
    ("MqttChannelBinding", MqttChannelBinding);
    ("MqttMessageBinding", MqttMessageBinding);
    ("MqttOperationBinding", MqttOperationBinding);
    ("Mqtt5ServerBinding", Mqtt5ServerBinding);
    ("Mqtt5ChannelBinding", Mqtt5ChannelBinding);
    ("Mqtt5MessageBinding", Mqtt5MessageBinding);
    ("Mqtt5OperationBinding", Mqtt5OperationBinding);
    ("NatsServerBinding", NatsServerBinding);
    ("NatsChannelBinding", NatsChannelBinding);
    ("NatsMessageBinding", NatsMessageBinding);
    ("NatsOperationBinding", NatsOperationBinding);
    ("JmsServerBinding", JmsServerBinding);
    ("JmsChannelBinding", JmsChannelBinding);
    ("JmsMessageBinding", JmsMessageBinding);
    ("JmsOperationBinding", JmsOperationBinding);
    ("SolaceServerBinding", SolaceServerBinding);
    ("SolaceChannelBinding", SolaceChannelBinding);
    ("SolaceMessageBinding", SolaceMessageBinding);
    ("SolaceDestination", SolaceDestination);
    ("SolaceOperationBinding", SolaceOperationBinding);
    ("StompServerBinding", StompServerBinding);
    ("StompChannelBinding", StompChannelBinding);
    ("StompMessageBinding", StompMessageBinding);
    ("StompOperationBinding", StompOperationBinding);
    ("RedisServerBinding", RedisServerBinding);
    ("RedisChannelBinding", RedisChannelBinding);
    ("RedisMessageBinding", RedisMessageBinding);
    ("RedisOperationBinding", RedisOperationBinding);
    ("MercureServerBinding", MercureServerBinding);
    ("MercureChannelBinding", MercureChannelBinding);
    ("MercureMessageBinding", MercureMessageBinding);
    ("MercureOperationBinding", MercureOperationBinding);
    ("ServerBindings", ServerBindings);
    ("ChannelBindings", ChannelBindings);
    ("MessageBindings", MessageBindings);
    ("OperationBindings", OperationBindings) ].

(** *** The exported table of all AsyncAPI 2 types

    [Dependencies], [Discriminator], [DiscriminatorMapping], [Schema] and
    [SchemaProperties] are imported from [json-schema-draft7.shared.ts],
    which is not among the sources: the table is given for any such
    descriptors. *)
Section Imports.

Variables Dependencies Discriminator DiscriminatorMapping Schema SchemaProperties
  : NodeType.

Definition AsyncApi2Types : list (string * NodeType) :=
  spreadThen AsyncApi2Bindings
  [ ("Root", Root);
    ("Tag", Tag);
    ("TagList", listOf "Tag" []);
    ("ServerMap", ServerMap);
    ("ExternalDocs", ExternalDocs);
    ("Server", Server);
    ("ServerVariable", ServerVariable);
    ("ServerVariablesMap", mapOf "ServerVariable" []);
    ("SecurityRequirement", SecurityRequirement);
    ("SecurityRequirementList", listOf "SecurityRequirement" []);
    ("Info", Info);
    ("Contact", Contact);
    ("License", License);
    ("ChannelMap", ChannelMap);
    ("Channel", Channel);
    ("Parameter", Parameter_);
    ("ParametersMap", mapOf "Parameter" []);
    ("Operation", Operation);
    ("Schema", Schema);
    ("MessageExample", MessageExample);
    ("SchemaProperties", SchemaProperties);
    ("DiscriminatorMapping", DiscriminatorMapping);
    ("Discriminator", Discriminator);
    ("Components", Components);
    ("NamedSchemas", mapOf "Schema" []);
    ("NamedMessages", mapOf "Message" []);
    ("NamedMessageTraits", mapOf "MessageTrait" []);
    ("NamedOperationTraits", mapOf "OperationTrait" []);
    ("NamedParameters", mapOf "Parameter" []);
    ("NamedSecuritySchemes", mapOf "SecurityScheme" []);
    ("NamedCorrelationIds", mapOf "CorrelationId" []);
    ("ImplicitFlow", ImplicitFlow);
    ("PasswordFlow", PasswordFlow);
    ("ClientCredentials", ClientCredentials);
    ("AuthorizationCode", AuthorizationCode);
    ("SecuritySchemeFlows", SecuritySchemeFlows);
    ("SecurityScheme", SecurityScheme);
    ("Message", Message);
    ("MessageBindings", MessageBindings);
    ("OperationBindings", OperationBindings);
    ("OperationTrait", OperationTrait);
    ("OperationTraitList", listOf "OperationTrait" []);
    ("MessageTrait", MessageTrait);
    ("MessageTraitList", listOf "MessageTrait" []);
    ("MessageExampleList", listOf "MessageExample" []);
    ("CorrelationId", CorrelationId);
    ("Dependencies", Dependencies) ].

End Imports.

End AsyncApi2.

(** * Readings of the specification

    Predicates and lists in the words of the specification, which the
    properties below compare with the descriptors. *)

(** The response-code pattern in words: a digit followed by two characters,
    each a digit, ['X'] or ['x']. *)
Definition isDigit (c : ascii) : bool :=
  ((48 <=? nat_of_ascii c) && (nat_of_ascii c <=? 57))%nat.

Definition isDigitOrX (c : ascii) : bool :=
  isDigit c || Ascii.eqb c "X" || Ascii.eqb c "x".

Definition isResponseCode (K : string) : bool :=
  match K with
  | String a (String b (String c EmptyString)) =>
      isDigit a && isDigitOrX b && isDigitOrX c
  | _ => false
  end.

(** A sample classifier for [isMappingRef], to instantiate the descriptors
    with: a string that starts with ['#'] is taken for a pointer. *)
Definition startsWithHash (value : Value) : bool :=
  match value with
  | VStr s => startsWith "#" s
  | _ => false
  end.

(** The discriminants that a [case] of the security schemes names. *)
Definition knownSchemeTypes : list string :=
  ["apiKey"; "httpApiKey"; "http"; "oauth2"; "openIdConnect"].

(** The nineteen protocol names that the bindings descriptors allow. *)
Definition bindingProtocols : list string :=
  [ "http"; "ws"; "kafka"; "anypointmq"; "amqp"; "amqp1"; "mqtt"; "mqtt5";
    "nats"; "jms"; "sns"; "solace"; "sqs"; "stomp"; "redis"; "mercure";
    "ibmmq"; "googlepubsub"; "pulsar" ].

(** A key is classifiable on a descriptor when resolution yields the node
    type assigned to it in [properties], or, the key having no entry there,
    the static [additionalProperties] rule [{ type: 'object' }]. *)
Definition classifiable (D : NodeType) (k : string) (V : Value) : Prop :=
  (exists t, assoc k (properties D) = Some (inline t)
             /\ resolveChild D k V = Resolved (PNode t))
  \/ (assoc k (properties D) = None
      /\ additionalProperties D = Some (leaf [s_type "object"])
      /\ resolveChild D k V = Resolved (PScalar (scalar [s_type "object"]))).

Ltac classify_protocols Hk :=
  simpl in Hk;
  repeat (destruct Hk as [<- | Hk];
          [first [ left; eexists; split; reflexivity
                 | right; split; [reflexivity | split; reflexivity] ] |]);
  destruct Hk.

(** Two descriptors validate alike: the same resolution outcome for every
    child key and value (up to the descriptive fields of the outcome), the
    same rule for list items, the same required, one-of-required and allowed
    keys and the checks on them, and the same extension prefix. *)
Definition sameValidation (D1 D2 : NodeType) : Prop :=
  (forall K V, eraseOutcome (resolveChild D1 K V) = eraseOutcome (resolveChild D2 K V))
  /\ option_map eraseRule (items D1) = option_map eraseRule (items D2)
  /\ (forall V, resolveRequired D1 V = resolveRequired D2 V)
  /\ (forall V, checkRequired D1 V = checkRequired D2 V)
  /\ requiredOneOf D1 = requiredOneOf D2
  /\ (forall V, checkDisjunctiveRequired D1 V = checkDisjunctiveRequired D2 V)
  /\ (forall V, option_map (fun f => f V) (allowed D1)
                = option_map (fun f => f V) (allowed D2))
  /\ (forall V, checkAllowed D1 V = checkAllowed D2 V)
  /\ extensionsPrefix D1 = extensionsPrefix D2
  /\ (forall K, isExtensionKey D1 K = isExtensionKey D2 K).

(** A table with the descriptive fields of its descriptors erased. *)
Definition eraseTable (types : list (string * NodeType)) : list (string * NodeType) :=
  map (fun nd => (fst nd, eraseNode (snd nd))) types.

(** * Well-formedness of descriptor tables *)

(** A property type, rule or node type is closed over a list of type names
    when every type name it mentions is in the list: the name of a reference,
    the [directResolveAs] target of a scalar schema, and, for a resolver, the
    names in its result on every value and key; for a node type, its
    [properties], [additionalProperties] and [items]. *)
Fixpoint closedType (names : list string) (p : PropType) : Prop :=
  match p with
  | PNull => True
  | PRef n => includes names n = true
  | PScalar s =>
      match sc_directResolveAs s with
      | Some n => includes names n = true
      | None => True
      end
  | PNode t => closedNode names t
  end
with closedRule (names : list string) (r : PropRule) : Prop :=
  match r with
  | Static p => closedType names p
  | Resolver f =>
      forall v k,
        match f v k with
        | Some p => closedType names p
        | None => True
        end
  end
with closedNode (names : list string) (t : NodeType) : Prop :=
  let '(mkNodeType ps ap it _ _ _ _ _ _) := t in
  (fix all (l : list (string * PropRule)) : Prop :=
     match l with
     | [] => True
     | kr :: tl => closedRule names (snd kr) /\ all tl
     end) ps
  /\ match ap with Some r => closedRule names r | None => True end
  /\ match it with Some r => closedRule names r | None => True end.

(** A rule that never rejects: a static rule, or a resolver that returns a
    type on every value and key. *)
Definition totalRule (r : PropRule) : Prop :=
  match r with
  | Static _ => True
  | Resolver f => forall v k, f v k <> None
  end.

(** The keys that a node type demands are keys of its [properties]: those of
    [required], for every value when it is a function, and those of
    [requiredOneOf]. *)
Definition demandsDeclared (t : NodeType) : Prop :=
  match required t with
  | Some (ReqList keys) => incl keys (map fst (properties t))
  | Some (ReqFun f) => forall v, incl (f v) (map fst (properties t))
  | None => True
  end
  /\ match requiredOneOf t with
     | Some keys => incl keys (map fst (properties t))
     | None => True
     end.

(** No string occurs twice in a list. *)
Fixpoint distinct (l : list string) : bool :=
  match l with
  | [] => true
  | k :: tl => negb (includes tl k) && distinct tl
  end.

(** The names under which the AsyncAPI 2 table lists the descriptors it
    imports. *)
Definition importedNames : list string :=
  ["Schema"; "SchemaProperties"; "DiscriminatorMapping"; "Discriminator";
   "Dependencies"].

(** A character of a server name: a letter, a digit, ['_'] or ['-']. *)
Definition isServerNameChar (c : ascii) : bool :=
  let n := nat_of_ascii c in
  ((65 <=? n) && (n <=? 90) || (97 <=? n) && (n <=? 122)
   || (48 <=? n) && (n <=? 57) || Ascii.eqb c "_" || Ascii.eqb c "-")%nat.

(** A server name: one character or more, each a server-name character. *)
Fixpoint allChars (p : ascii -> bool) (s : string) : bool :=
  match s with
  | EmptyString => true
  | String c rest => p c && allChars p rest
  end.

Definition isServerName (key : string) : bool :=
  match key with
  | EmptyString => false
  | String _ _ => allChars isServerNameChar key
  end.

(** Every rule of [properties] is total. *)
Definition propertiesTotal (t : NodeType) : Prop :=
  Forall (fun kr => totalRule (snd kr)) (properties t).

(** The catch-all rule, when there is one, is total. *)
Definition catchAllTotal (t : NodeType) : Prop :=
  match additionalProperties t with
  | Some r => totalRule r
  | None => True
  end.

(** The names of the descriptors whose catch-all function can return
    [undefined]. *)
Definition rejectingNames : list string := ["Paths"; "Responses"; "ServerMap"].

(** A descriptor never rejects a key of its [properties], and, unless it is
    one of [rejectingNames], never rejects a key through its catch-all rule. *)
Definition rulesTotal (name : string) (t : NodeType) : Prop :=
  propertiesTotal t /\ (~ In name rejectingNames -> catchAllTotal t).

(** Two node types that differ at most in their [properties]. *)
Definition sameButProperties (a b : NodeType) : Prop :=
  additionalProperties a = additionalProperties b
  /\ items a = items b
  /\ required a = required b
  /\ requiredOneOf a = requiredOneOf b
  /\ allowed a = allowed b
  /\ extensionsPrefix a = extensionsPrefix b
  /\ description a = description b
  /\ documentationLink a = documentationLink b.

(** The values that the [enum] of a descriptor's [type] property permits
    (none when the property is not a scalar schema with an [enum]). *)
Definition typeEnum (t : NodeType) : list string :=
  match assoc "type" (properties t) with
  | Some (Static (PScalar s)) =>
      match sc_enum s with
      | Some values => values
      | None => []
      end
  | _ => []
  end.

(** The names of JSON types that a scalar schema may give as its [type]. *)
Definition scalarTypeNames : list string :=
  ["string"; "number"; "integer"; "boolean"; "array"; "object"].

(** A scalar schema is well formed when its [type], if any, is a JSON type
    name, [items] comes with type ['array'] only, [additionalProperties] with
    type ['object'] only, [minimum] with a numeric type only, an [enum] lists
    no value twice, and the schemas under [items] and [additionalProperties]
    are well formed. *)
Fixpoint wfScalar (s : ScalarSchema) : bool :=
  let '(mkScalar ty en it mi ap _ _ _ _ _) := s in
  match ty with Some t => includes scalarTypeNames t | None => true end
  && match it with
     | Some i => match ty with Some t => String.eqb t "array" | None => false end
                 && wfScalar i
     | None => true
     end
  && match ap with
     | Some a => match ty with Some t => String.eqb t "object" | None => false end
                 && wfScalar a
     | None => true
     end
  && match mi with
     | Some _ => match ty with
                 | Some t => String.eqb t "number" || String.eqb t "integer"
                 | None => false
                 end
     | None => true
     end
  && match en with Some values => distinct values | None => true end.

(** Every scalar schema that a property type, rule or node type holds or
    returns is well formed. *)
Fixpoint wfType (p : PropType) : Prop :=
  match p with
  | PNull => True
  | PRef _ => True
  | PScalar s => wfScalar s = true
  | PNode t => wfNode t
  end
with wfRule (r : PropRule) : Prop :=
  match r with
  | Static p => wfType p
  | Resolver f =>
      forall v k,
        match f v k with
        | Some p => wfType p
        | None => True
        end
  end
with wfNode (t : NodeType) : Prop :=
  let '(mkNodeType ps ap it _ _ _ _ _ _) := t in
  (fix all (l : list (string * PropRule)) : Prop :=
     match l with
     | [] => True
     | kr :: tl => wfRule (snd kr) /\ all tl
     end) ps
  /\ match ap with Some r => wfRule r | None => True end
  /\ match it with Some r => wfRule r | None => True end.

(** * Properties *)

(** ** Association lists and key lists *)

Lemma includes_In (l : list string) (k : string) :
  includes l k = true <-> In k l.
Proof.
  unfold includes. rewrite existsb_exists. split.
  - intros [x [Hx Heq]]. apply String.eqb_eq in Heq. now subst.
  - intros H. exists k. split; [assumption | apply String.eqb_refl].
Qed.

Lemma includes_not_In (l : list string) (k : string) :
  includes l k = false <-> ~ In k l.
Proof.
  rewrite <- includes_In. destruct (includes l k); split; congruence.
Qed.

Lemma assoc_map_snd {A B : Type} (g : A -> B) (k : string) (l : list (string * A)) :
  assoc k (map (fun kr => (fst kr, g (snd kr))) l) = option_map g (assoc k l).
Proof.
  induction l as [| [k' a] tl IH]; simpl; [reflexivity |].
  destruct (String.eqb k k'); [reflexivity | exact IH].
Qed.

Lemma assoc_In_keys {A : Type} (k : string) (l : list (string * A)) :
  In k (map fst l) <-> exists a, assoc k l = Some a.
Proof.
  induction l as [| [k' a] tl IH]; simpl.
  - split; [tauto | intros [a H]; discriminate].
  - destruct (String.eqb k k') eqn:E.
    + apply String.eqb_eq in E. subst. split; [eauto | auto].
    + apply String.eqb_neq in E. rewrite IH. split.
      * intros [H | H]; [congruence | exact H].
      * auto.
Qed.

(** The keys after [o[k] = a] are the keys before and [k]. *)
Lemma assign_keys {A : Type} (k : string) (a : A) (l : list (string * A)) (x : string) :
  In x (map fst (assign k a l)) <-> x = k \/ In x (map fst l).
Proof.
  induction l as [| [k' a'] tl IH]; simpl.
  - intuition.
  - destruct (String.eqb k k') eqn:E; simpl.
    + apply String.eqb_eq in E. subst. intuition.
    + rewrite IH. intuition.
Qed.

(** ** Resolution: precedence of [properties] *)

Lemma resolveChild_property (D : NodeType) (K : string) (V : Value) (rule : PropRule) :
  assoc K (properties D) = Some rule -> resolveChild D K V = applyRule rule V K.
Proof. unfold resolveChild. intros ->. reflexivity. Qed.

Lemma resolveChild_additional (D : NodeType) (K : string) (V : Value) :
  assoc K (properties D) = None -> extensionsPrefix D = None ->
  resolveChild D K V =
    match additionalProperties D with
    | Some rule => applyRule rule V K
    | None => Rejected
    end.
Proof.
  unfold resolveChild, isExtensionKey. intros -> ->. reflexivity.
Qed.

(** ** The [switch] of the security schemes *)

Lemma switch_case {A : Type} (d : Value) (s : string) (cases : list (string * A))
    (default a : A) :
  d = VStr s -> assoc s cases = Some a -> switch d cases default = a.
Proof. intros -> H. unfold switch. rewrite H. reflexivity. Qed.

Lemma switch_default {A : Type} (d : Value) (cases : list (string * A)) (default : A) :
  (forall s, d = VStr s -> assoc s cases = None) -> switch d cases default = default.
Proof.
  intros H. unfold switch. destruct d; try reflexivity.
  rewrite (H s eq_refl). reflexivity.
Qed.

(** The result of a [switch] is the default or the result of one of its cases. *)
Lemma switch_cases_or_default {A : Type} (d : Value) (cases : list (string * A))
    (default : A) :
  switch d cases default = default \/ In (switch d cases default) (map snd cases).
Proof.
  unfold switch. destruct d; auto.
  induction cases as [| [k a] tl IH]; simpl; auto.
  destruct (String.eqb s k); simpl; intuition.
Qed.

(** Two [switch]es over the same labels move together: a relation that holds
    between the results of every pair of matching cases and between the
    defaults holds between the results. *)
Lemma switch_related {A B : Type} (R : A -> B -> Prop) (d : Value)
    (ca : list (string * A)) (cb : list (string * B)) (da : A) (db : B) :
  Forall2 (fun x y => fst x = fst y /\ R (snd x) (snd y)) ca cb ->
  R da db ->
  R (switch d ca da) (switch d cb db).
Proof.
  intros Hc Hd. unfold switch. destruct d; try exact Hd.
  induction Hc as [| [ka a] [kb b] ta tb [Hk Hr] _ IH]; simpl in *; [exact Hd |].
  subst kb. destruct (String.eqb s ka); [exact Hr | exact IH].
Qed.

(** ** Conditional required keys of the OpenAPI 3 security scheme *)

(** C1. The [required] function of the OpenAPI 3 [SecurityScheme] descriptor
    (in both copies of the table) returns [['type','name','in']] on a value
    whose [type] is ['apiKey'] and [['type','scheme']] on one whose [type] is
    ['http']; it is the descriptor's [required] rule, so the missing-keys
    check reports nothing on [{type:'http', scheme:'bearer'}] and exactly
    [name] and [in] on [{type:'apiKey'}]. *)
Theorem SecurityScheme_required_scenario :
  (forall v, opt_type v = VStr "apiKey" ->
     Oas3.SecurityScheme_required v = ["type"; "name"; "in"]
     /\ Part000.SecurityScheme_required v = ["type"; "name"; "in"])
  /\ (forall v, opt_type v = VStr "http" ->
        Oas3.SecurityScheme_required v = ["type"; "scheme"]
        /\ Part000.SecurityScheme_required v = ["type"; "scheme"])
  /\ required Oas3.SecurityScheme = Some (ReqFun Oas3.SecurityScheme_required)
  /\ required Part000.SecurityScheme = Some (ReqFun Part000.SecurityScheme_required)
  /\ checkRequired Oas3.SecurityScheme
        (VObj [("type", VStr "http"); ("scheme", VStr "bearer")]) = []
  /\ checkRequired Part000.SecurityScheme
        (VObj [("type", VStr "http"); ("scheme", VStr "bearer")]) = []
  /\ checkRequired Oas3.SecurityScheme (VObj [("type", VStr "apiKey")])
     = ["name"; "in"]
  /\ checkRequired Part000.SecurityScheme (VObj [("type", VStr "apiKey")])
     = ["name"; "in"].
Proof.
  repeat split.
  - unfold Oas3.SecurityScheme_required. now apply switch_case with (s := "apiKey").
  - unfold Part000.SecurityScheme_required. now apply switch_case with (s := "apiKey").
  - unfold Oas3.SecurityScheme_required. now apply switch_case with (s := "http").
  - unfold Part000.SecurityScheme_required. now apply switch_case with (s := "http").
Qed.

Lemma SecurityScheme_required_scenario_witness :
  Oas3.SecurityScheme_required (VObj [("type", VStr "apiKey"); ("name", VStr "key")])
    = ["type"; "name"; "in"]
  /\ Part000.SecurityScheme_required (VObj [("scheme", VStr "basic"); ("type", VStr "http")])
    = ["type"; "scheme"].
Proof.
  destruct SecurityScheme_required_scenario as [Hk [Hh _]].
  split.
  - apply (Hk (VObj [("type", VStr "apiKey"); ("name", VStr "key")])). reflexivity.
  - apply (Hh (VObj [("scheme", VStr "basic"); ("type", VStr "http")])). reflexivity.
Defined.

(** ** The allow-list *)

Lemma checkAllowed_In (D : NodeType) (f : Value -> list string) (V : Value) (K : string) :
  allowed D = Some f ->
  (In K (checkAllowed D V)
   <-> In K (keysOf V) /\ ~ In K (f V) /\ isExtensionKey D K = false).
Proof.
  intros Hal. unfold checkAllowed. rewrite Hal, filter_In, andb_true_iff.
  rewrite !negb_true_iff, includes_not_In. tauto.
Qed.

(** C2. For a descriptor whose [allowed] function is defined and a node value
    [V], every key of [V] that is neither in [allowed(V)] nor an extension key
    is reported by [checkAllowed]; nothing about [properties] or
    [additionalProperties] enters.  So for the OpenAPI 3 [SecurityScheme] and
    the AsyncAPI 2 [ChannelBindings]; ['bearerFormat'] on a security scheme of
    type ['apiKey'] is disallowed although [properties] lists it, and a key
    that the [additionalProperties] of [ChannelBindings] classifies is
    disallowed all the same. *)
Theorem checkAllowed_allow_list_law :
  (forall (D : NodeType) (f : Value -> list string) (V : Value) (K : string),
      allowed D = Some f ->
      In K (keysOf V) -> ~ In K (f V) -> isExtensionKey D K = false ->
      In K (checkAllowed D V))
  /\ allowed Oas3.SecurityScheme = Some Oas3.SecurityScheme_allowed
  /\ allowed AsyncApi2.ChannelBindings = Some AsyncApi2.ChannelBindings_allowed
  /\ (let V := VObj [("type", VStr "apiKey"); ("name", VStr "k");
                      ("in", VStr "header"); ("bearerFormat", VStr "JWT")] in
      resolveChild Oas3.SecurityScheme "bearerFormat" (VStr "JWT")
        = Resolved (PScalar (scalar [s_type "string"]))
      /\ checkAllowed Oas3.SecurityScheme V = ["bearerFormat"])
  /\ (let V := VObj [("kafka", VObj []); ("carrier-pigeon", VObj [])] in
      resolveChild AsyncApi2.ChannelBindings "carrier-pigeon" (VObj [])
        = Resolved (PScalar (scalar [s_type "object"]))
      /\ checkAllowed AsyncApi2.ChannelBindings V = ["carrier-pigeon"]).
Proof.
  split; [| repeat split].
  intros D f V K Hal Hk Hn He.
  apply (checkAllowed_In D f V K Hal). auto.
Qed.

Lemma checkAllowed_allow_list_law_witness :
  In "bearerFormat"
     (checkAllowed Oas3.SecurityScheme
        (VObj [("type", VStr "apiKey"); ("bearerFormat", VStr "JWT")])).
Proof.
  apply (proj1 checkAllowed_allow_list_law
           Oas3.SecurityScheme Oas3.SecurityScheme_allowed
           (VObj [("type", VStr "apiKey"); ("bearerFormat", VStr "JWT")])
           "bearerFormat").
  - reflexivity.
  - simpl. auto.
  - simpl. intros [H | [H | [H | [H | H]]]]; try discriminate H; exact H.
  - reflexivity.
Defined.

(** ** Response codes *)

Lemma inClass_digit (c : ascii) : inClass [("0", "9")]%char c = isDigit c.
Proof. unfold inClass, isDigit. simpl. now rewrite orb_false_r. Qed.

Lemma range_single (a c : ascii) :
  ((nat_of_ascii a <=? nat_of_ascii c) && (nat_of_ascii c <=? nat_of_ascii a))%nat
  = Ascii.eqb c a.
Proof.
  destruct (Ascii.eqb c a) eqn:E.
  - apply Ascii.eqb_eq in E. subst. now rewrite Nat.leb_refl.
  - apply Ascii.eqb_neq in E.
    apply andb_false_iff.
    destruct (Nat.leb_spec (nat_of_ascii a) (nat_of_ascii c)) as [H1 | H1];
      [| now left].
    destruct (Nat.leb_spec (nat_of_ascii c) (nat_of_ascii a)) as [H2 | H2];
      [| now right].
    exfalso. apply E.
    rewrite <- (ascii_nat_embedding c), <- (ascii_nat_embedding a).
    f_equal. lia.
Qed.

Lemma inClass_digitOrX (c : ascii) :
  inClass [("0", "9"); ("X", "X"); ("x", "x")]%char c = isDigitOrX c.
Proof.
  unfold inClass, isDigitOrX, isDigit. cbn [existsb fst snd].
  rewrite !range_single, orb_false_r, orb_assoc. reflexivity.
Qed.

Lemma responseCodeRegexp_test (K : string) :
  test Oas3.responseCodeRegexp K = isResponseCode K
  /\ test Part000.responseCodeRegexp K = isResponseCode K.
Proof.
  assert (H : test [ Rep [("0", "9")] 1;
                     Rep [("0", "9"); ("X", "X"); ("x", "x")] 2 ]%char K
              = isResponseCode K).
  { destruct K as [| a rest]; [reflexivity |].
    cbn [test consume]. rewrite inClass_digit.
    destruct rest as [| b rest];
      [cbn [isResponseCode]; destruct (isDigit a); reflexivity |].
    destruct rest as [| c rest]; cbn [isResponseCode].
    - destruct (isDigit a); [| reflexivity].
      cbn [test consume]. destruct (inClass _ b); reflexivity.
    - destruct (isDigit a); cbn [andb];
        [| destruct rest; reflexivity].
      cbn [test consume]. rewrite !inClass_digitOrX.
      destruct (isDigitOrX b); cbn [andb]; [| destruct rest; reflexivity].
      destruct (isDigitOrX c); destruct rest; reflexivity. }
  split; exact H.
Qed.

(** C3. On the OpenAPI 3 [Responses] descriptor the key ['default'] resolves
    to the reference ['Response'] through its [properties] entry, whatever
    [additionalProperties] is (a key of [properties] never reaches it); every
    other key resolves to the reference ['Response'] exactly when the pattern
    [^[0-9][0-9Xx]{2}$] matches it, that is when it is a digit followed by two
    characters each a digit, ['X'] or ['x'], and is rejected otherwise. *)
Theorem Responses_resolution :
  (forall (D : NodeType) (K : string) (V : Value) (rule : PropRule),
      assoc K (properties D) = Some rule ->
      resolveChild D K V = applyRule rule V K)
  /\ (forall D re,
        (D = Oas3.Responses /\ re = Oas3.responseCodeRegexp)
        \/ (D = Part000.Responses /\ re = Part000.responseCodeRegexp) ->
        assoc "default" (properties D) = Some (ref "Response")
        /\ (forall V, resolveChild D "default" V = Resolved (PRef "Response"))
        /\ (forall V ap,
              resolveChild (setNodeField D (f_additionalProperties ap)) "default" V
              = Resolved (PRef "Response"))
        /\ (forall K V, K <> "default" ->
              resolveChild D K V
              = if test re K then Resolved (PRef "Response") else Rejected)
        /\ (forall K, test re K = isResponseCode K)).
Proof.
  split; [exact resolveChild_property |].
  intros D re H.
  assert (Hd : D = Oas3.Responses \/ D = Part000.Responses) by tauto.
  assert (Hre : forall K, test re K = isResponseCode K).
  { intros K. destruct (responseCodeRegexp_test K).
    destruct H as [[_ ->] | [_ ->]]; assumption. }
  repeat split.
  - destruct Hd; subst D; reflexivity.
  - destruct Hd; subst D; reflexivity.
  - destruct Hd; subst D; reflexivity.
  - intros K V Hk. apply String.eqb_neq in Hk.
    destruct H as [[-> ->] | [-> ->]].
    + rewrite resolveChild_additional; [| | reflexivity].
      * change (additionalProperties Oas3.Responses)
          with (Some (Resolver Oas3.Responses_additionalProperties)).
        unfold applyRule, Oas3.Responses_additionalProperties.
        destruct (test Oas3.responseCodeRegexp K); reflexivity.
      * change (properties Oas3.Responses) with [("default", ref "Response")].
        cbn [assoc]. rewrite Hk. reflexivity.
    + rewrite resolveChild_additional; [| | reflexivity].
      * change (additionalProperties Part000.Responses)
          with (Some (Resolver Part000.Responses_additionalProperties)).
        unfold applyRule, Part000.Responses_additionalProperties.
        destruct (test Part000.responseCodeRegexp K); reflexivity.
      * change (properties Part000.Responses) with [("default", ref "Response")].
        cbn [assoc]. rewrite Hk. reflexivity.
  - exact Hre.
Qed.

Lemma Responses_resolution_witness :
  resolveChild Oas3.Responses "404" VNull = Resolved (PRef "Response")
  /\ resolveChild Oas3.Responses "2XX" VNull = Resolved (PRef "Response")
  /\ resolveChild Part000.Responses "20" VNull = Rejected
  /\ resolveChild Part000.Responses "2000" VNull = Rejected
  /\ resolveChild Part000.Responses "x-rate" VNull = Rejected.
Proof.
  pose proof (proj2 Responses_resolution) as H.
  destruct (H Oas3.Responses Oas3.responseCodeRegexp) as (_ & _ & _ & Ho & _);
    [left; split; reflexivity |].
  destruct (H Part000.Responses Part000.responseCodeRegexp) as (_ & _ & _ & Hp & _);
    [right; split; reflexivity |].
  split; [| split; [| split; [| split]]].
  - apply (Ho "404" VNull). apply String.eqb_neq. reflexivity.
  - apply (Ho "2XX" VNull). apply String.eqb_neq. reflexivity.
  - apply (Hp "20" VNull). apply String.eqb_neq. reflexivity.
  - apply (Hp "2000" VNull). apply String.eqb_neq. reflexivity.
  - apply (Hp "x-rate" VNull). apply String.eqb_neq. reflexivity.
Defined.

(** ** Paths *)

(** C4. The OpenAPI 3 [Paths] descriptor has no [properties]; a child key
    resolves to the reference ['PathItem'] exactly when it starts with ['/'];
    on any other key the [additionalProperties] function returns [undefined],
    and the key is rejected as unknown. *)
Theorem Paths_resolution :
  properties Oas3.Paths = []
  /\ properties Part000.Paths = []
  /\ additionalProperties Oas3.Paths = Some (Resolver Oas3.Paths_additionalProperties)
  /\ additionalProperties Part000.Paths = Some (Resolver Part000.Paths_additionalProperties)
  /\ (forall K V,
        Oas3.Paths_additionalProperties V K
        = (if startsWith "/" K then Some (PRef "PathItem") else None)
        /\ Part000.Paths_additionalProperties V K
           = (if startsWith "/" K then Some (PRef "PathItem") else None))
  /\ (forall K V,
        resolveChild Oas3.Paths K V
        = (if startsWith "/" K then Resolved (PRef "PathItem") else Rejected)
        /\ resolveChild Part000.Paths K V
           = (if startsWith "/" K then Resolved (PRef "PathItem") else Rejected)).
Proof.
  repeat split.
  - unfold resolveChild, isExtensionKey. cbn.
    unfold Oas3.Paths_additionalProperties.
    destruct (startsWith "/" K); reflexivity.
  - unfold resolveChild, isExtensionKey. cbn.
    unfold Part000.Paths_additionalProperties.
    destruct (startsWith "/" K); reflexivity.
Qed.

(** ** Discriminator mappings *)

(** C5. The catch-all rule of the OpenAPI 3 [DiscriminatorMapping] descriptor
    classifies every entry value, under any key: a value on which
    [isMappingRef] holds gets [{ type: 'string', directResolveAs: 'Schema' }],
    every other value the plain [{ type: 'string' }]; with no [properties]
    and no extension prefix, that is what resolution yields. *)
Theorem DiscriminatorMapping_classifies
    (isMappingRef : Value -> bool) (K : string) (value : Value) :
  (isMappingRef value = true ->
     let r := PScalar (scalar [s_type "string"; s_directResolveAs "Schema"]) in
     Oas3.DiscriminatorMapping_additionalProperties isMappingRef value K = Some r
     /\ Part000.DiscriminatorMapping_additionalProperties isMappingRef value K = Some r
     /\ resolveChild (Oas3.DiscriminatorMapping isMappingRef) K value = Resolved r
     /\ resolveChild (Part000.DiscriminatorMapping isMappingRef) K value = Resolved r)
  /\ (isMappingRef value = false ->
        let r := PScalar (scalar [s_type "string"]) in
        Oas3.DiscriminatorMapping_additionalProperties isMappingRef value K = Some r
        /\ Part000.DiscriminatorMapping_additionalProperties isMappingRef value K = Some r
        /\ resolveChild (Oas3.DiscriminatorMapping isMappingRef) K value = Resolved r
        /\ resolveChild (Part000.DiscriminatorMapping isMappingRef) K value = Resolved r).
Proof.
  split; intros H r; subst r;
    unfold resolveChild, isExtensionKey; cbn;
    unfold Oas3.DiscriminatorMapping_additionalProperties,
           Part000.DiscriminatorMapping_additionalProperties;
    rewrite H; repeat split.
Qed.

Lemma DiscriminatorMapping_classifies_witness :
  resolveChild (Oas3.DiscriminatorMapping startsWithHash) "dog" (VStr "Dog")
    = Resolved (PScalar (scalar [s_type "string"]))
  /\ resolveChild (Oas3.DiscriminatorMapping startsWithHash) "cat"
       (VStr "#/components/schemas/Cat")
     = Resolved (PScalar (scalar [s_type "string"; s_directResolveAs "Schema"])).
Proof.
  split.
  - apply (proj2 (DiscriminatorMapping_classifies startsWithHash "dog" (VStr "Dog"))).
    reflexivity.
  - apply (proj1 (DiscriminatorMapping_classifies startsWithHash "cat"
                    (VStr "#/components/schemas/Cat"))).
    reflexivity.
Defined.

(** ** The assignments of the AsyncAPI 2 module *)

Lemma setProperty_keys (t v : NodeType) (k x : string) :
  In x (map fst (properties (AsyncApi2.setProperty t k v)))
  <-> x = k \/ In x (map fst (properties t)).
Proof. destruct t. simpl. apply assign_keys. Qed.

Lemma exec_keys (st : AsyncApi2.Store) (s : AsyncApi2.Stmt)
    (target : AsyncApi2.Target) (x : string) :
  In x (map fst (properties (AsyncApi2.select target (AsyncApi2.exec st s))))
  <-> In x (AsyncApi2.assignedKeys target [s])
      \/ In x (map fst (properties (AsyncApi2.select target st))).
Proof.
  destruct s as [t k v], st as [c sv m o].
  destruct t, target; simpl; rewrite ?setProperty_keys; intuition.
Qed.

Lemma assignedKeys_cons (target : AsyncApi2.Target) (s : AsyncApi2.Stmt)
    (tl : list AsyncApi2.Stmt) :
  AsyncApi2.assignedKeys target (s :: tl)
  = (AsyncApi2.assignedKeys target [s] ++ AsyncApi2.assignedKeys target tl)%list.
Proof. unfold AsyncApi2.assignedKeys. simpl. now rewrite app_nil_r. Qed.

(** Running assignments adds exactly the assigned keys to the keys a
    descriptor had. *)
Lemma run_keys (stmts : list AsyncApi2.Stmt) (st : AsyncApi2.Store)
    (target : AsyncApi2.Target) (x : string) :
  In x (map fst (properties (AsyncApi2.select target (AsyncApi2.run stmts st))))
  <-> In x (map fst (properties (AsyncApi2.select target st)))
      \/ In x (AsyncApi2.assignedKeys target stmts).
Proof.
  revert st. induction stmts as [| s tl IH]; intros st.
  - simpl. tauto.
  - change (AsyncApi2.run (s :: tl) st) with (AsyncApi2.run tl (AsyncApi2.exec st s)).
    rewrite IH, exec_keys.
    rewrite (assignedKeys_cons target s tl), in_app_iff. tauto.
Qed.

(** C6. [ChannelBindings] is written with an empty [properties]; once all the
    assignments of the AsyncAPI 2 module have run, the keys of its
    [properties] are exactly the fourteen protocol keys assigned to it (in
    the order of the assignments, none twice): the keys it had and the
    assigned ones, and no other. *)
Theorem ChannelBindings_properties_after_patches :
  properties AsyncApi2.ChannelBindings_def = []
  /\ AsyncApi2.ChannelBindings
     = AsyncApi2.select AsyncApi2.TChannelBindings
         (AsyncApi2.run AsyncApi2.patches AsyncApi2.initial)
  /\ AsyncApi2.assignedKeys AsyncApi2.TChannelBindings AsyncApi2.patches
     = ["http"; "ws"; "kafka"; "anypointmq"; "amqp"; "amqp1"; "mqtt"; "mqtt5";
        "nats"; "jms"; "solace"; "stomp"; "redis"; "mercure"]
  /\ map fst (properties AsyncApi2.ChannelBindings)
     = ["http"; "ws"; "kafka"; "anypointmq"; "amqp"; "amqp1"; "mqtt"; "mqtt5";
        "nats"; "jms"; "solace"; "stomp"; "redis"; "mercure"]
  /\ List.length (properties AsyncApi2.ChannelBindings) = 14
  /\ NoDup (map fst (properties AsyncApi2.ChannelBindings))
  /\ (forall k,
        In k (map fst (properties AsyncApi2.ChannelBindings))
        <-> In k (map fst (properties AsyncApi2.ChannelBindings_def))
            \/ In k (AsyncApi2.assignedKeys AsyncApi2.TChannelBindings
                       AsyncApi2.patches)).
Proof.
  split; [reflexivity |].
  split; [reflexivity |].
  split; [reflexivity |].
  split; [reflexivity |].
  split; [reflexivity |].
  split.
  - change (map fst (properties AsyncApi2.ChannelBindings))
      with ["http"; "ws"; "kafka"; "anypointmq"; "amqp"; "amqp1"; "mqtt"; "mqtt5";
            "nats"; "jms"; "solace"; "stomp"; "redis"; "mercure"].
    repeat (constructor;
            [simpl; intros H;
             repeat (destruct H as [H | H]; [discriminate H |]); exact H |]).
    constructor.
  - intros k.
    apply (run_keys AsyncApi2.patches AsyncApi2.initial AsyncApi2.TChannelBindings k).
Qed.

(** ** The security schemes of both dialects *)

(** C8. The [required] functions of the OpenAPI 3 and AsyncAPI 2
    [SecurityScheme] descriptors return equal lists on equal values, and the
    list depends on the value through [value?.type] alone: a fixed list for
    each of ['apiKey'], ['httpApiKey'], ['http'], ['oauth2'] and
    ['openIdConnect'], and [['type']] in the default case. *)
Theorem SecurityScheme_required_deterministic :
  (forall v w, v = w ->
     Oas3.SecurityScheme_required v = Oas3.SecurityScheme_required w
     /\ AsyncApi2.SecurityScheme_required v = AsyncApi2.SecurityScheme_required w)
  /\ (forall v w, opt_type v = opt_type w ->
        Oas3.SecurityScheme_required v = Oas3.SecurityScheme_required w
        /\ AsyncApi2.SecurityScheme_required v = AsyncApi2.SecurityScheme_required w)
  /\ (forall v, opt_type v = VStr "apiKey" ->
        Oas3.SecurityScheme_required v = ["type"; "name"; "in"]
        /\ AsyncApi2.SecurityScheme_required v = ["type"; "in"])
  /\ (forall v, opt_type v = VStr "httpApiKey" ->
        Oas3.SecurityScheme_required v = ["type"]
        /\ AsyncApi2.SecurityScheme_required v = ["type"; "name"; "in"])
  /\ (forall v, opt_type v = VStr "http" ->
        Oas3.SecurityScheme_required v = ["type"; "scheme"]
        /\ AsyncApi2.SecurityScheme_required v = ["type"; "scheme"])
  /\ (forall v, opt_type v = VStr "oauth2" ->
        Oas3.SecurityScheme_required v = ["type"; "flows"]
        /\ AsyncApi2.SecurityScheme_required v = ["type"; "flows"])
  /\ (forall v, opt_type v = VStr "openIdConnect" ->
        Oas3.SecurityScheme_required v = ["type"; "openIdConnectUrl"]
        /\ AsyncApi2.SecurityScheme_required v = ["type"; "openIdConnectUrl"])
  /\ (forall v, (forall s, opt_type v = VStr s -> ~ In s knownSchemeTypes) ->
        Oas3.SecurityScheme_required v = ["type"]
        /\ AsyncApi2.SecurityScheme_required v = ["type"]).
Proof.
  unfold Oas3.SecurityScheme_required, AsyncApi2.SecurityScheme_required.
  split; [intros v w ->; split; reflexivity |].
  split; [intros v w ->; split; reflexivity |].
  repeat split; try (rewrite H; reflexivity).
  - apply switch_default. intros s Hs. specialize (H s Hs).
    simpl in *.
    repeat match goal with
           | |- context [String.eqb ?a ?b] =>
               destruct (String.eqb_spec a b); [exfalso; apply H; subst; tauto |]
           end.
    reflexivity.
  - apply switch_default. intros s Hs. specialize (H s Hs).
    simpl in *.
    repeat match goal with
           | |- context [String.eqb ?a ?b] =>
               destruct (String.eqb_spec a b); [exfalso; apply H; subst; tauto |]
           end.
    reflexivity.
Qed.

Lemma SecurityScheme_required_deterministic_witness :
  Oas3.SecurityScheme_required (VObj [("type", VStr "oauth2")])
    = Oas3.SecurityScheme_required (VObj [("flows", VObj []); ("type", VStr "oauth2")])
  /\ AsyncApi2.SecurityScheme_required (VObj [("type", VStr "apiKey")]) = ["type"; "in"]
  /\ Oas3.SecurityScheme_required VNull = ["type"]
  /\ AsyncApi2.SecurityScheme_required (VObj [("type", VStr "X509")]) = ["type"].
Proof.
  destruct SecurityScheme_required_deterministic
    as (_ & Ht & Hk & _ & _ & _ & _ & Hd).
  split; [| split; [| split]].
  - apply (Ht (VObj [("type", VStr "oauth2")])
              (VObj [("flows", VObj []); ("type", VStr "oauth2")])).
    reflexivity.
  - apply (Hk (VObj [("type", VStr "apiKey")])). reflexivity.
  - apply (Hd VNull). intros s H. discriminate H.
  - apply (Hd (VObj [("type", VStr "X509")])). intros s H.
    injection H as <-. simpl.
    intros [E | [E | [E | [E | [E | []]]]]]; discriminate E.
Defined.

(** C9. For every value, [null] and [undefined] included, each key that the
    [required] function of a [SecurityScheme] descriptor (OpenAPI 3 and
    AsyncAPI 2) returns is in the list its [allowed] function returns, and
    both lists contain ['type']; hence no required key is ever reported as
    disallowed. *)
Theorem SecurityScheme_required_incl_allowed (v : Value) :
  (incl (Oas3.SecurityScheme_required v) (Oas3.SecurityScheme_allowed v)
   /\ In "type" (Oas3.SecurityScheme_required v)
   /\ In "type" (Oas3.SecurityScheme_allowed v))
  /\ (incl (AsyncApi2.SecurityScheme_required v) (AsyncApi2.SecurityScheme_allowed v)
      /\ In "type" (AsyncApi2.SecurityScheme_required v)
      /\ In "type" (AsyncApi2.SecurityScheme_allowed v))
  /\ (forall k, In k (resolveRequired Oas3.SecurityScheme v) ->
                ~ In k (checkAllowed Oas3.SecurityScheme v))
  /\ (forall k, In k (resolveRequired AsyncApi2.SecurityScheme v) ->
                ~ In k (checkAllowed AsyncApi2.SecurityScheme v)).
Proof.
  assert (Ho : incl (Oas3.SecurityScheme_required v) (Oas3.SecurityScheme_allowed v)
               /\ In "type" (Oas3.SecurityScheme_required v)
               /\ In "type" (Oas3.SecurityScheme_allowed v)).
  { unfold Oas3.SecurityScheme_required, Oas3.SecurityScheme_allowed.
    apply (switch_related (fun a b => incl a b /\ In "type" a /\ In "type" b)).
    - repeat (apply Forall2_cons;
              [split; [reflexivity | unfold incl; simpl; intuition] |]).
      apply Forall2_nil.
    - unfold incl; simpl; intuition. }
  assert (Ha : incl (AsyncApi2.SecurityScheme_required v)
                    (AsyncApi2.SecurityScheme_allowed v)
               /\ In "type" (AsyncApi2.SecurityScheme_required v)
               /\ In "type" (AsyncApi2.SecurityScheme_allowed v)).
  { unfold AsyncApi2.SecurityScheme_required, AsyncApi2.SecurityScheme_allowed.
    apply (switch_related (fun a b => incl a b /\ In "type" a /\ In "type" b)).
    - repeat (apply Forall2_cons;
              [split; [reflexivity | unfold incl; simpl; intuition] |]).
      apply Forall2_nil.
    - unfold incl; simpl; intuition. }
  split; [exact Ho |]. split; [exact Ha |]. split.
  - intros k Hk Hc.
    apply (checkAllowed_In Oas3.SecurityScheme Oas3.SecurityScheme_allowed v k eq_refl)
      in Hc.
    destruct Hc as (_ & Hn & _). apply Hn. apply (proj1 Ho). exact Hk.
  - intros k Hk Hc.
    apply (checkAllowed_In AsyncApi2.SecurityScheme AsyncApi2.SecurityScheme_allowed
             v k eq_refl) in Hc.
    destruct Hc as (_ & Hn & _). apply Hn. apply (proj1 Ha). exact Hk.
Qed.

Lemma SecurityScheme_required_incl_allowed_witness :
  ~ In "in" (checkAllowed AsyncApi2.SecurityScheme
               (VObj [("type", VStr "apiKey"); ("in", VStr "user");
                      ("name", VStr "api_key")]))
  /\ ~ In "type" (checkAllowed Oas3.SecurityScheme VNull)
  /\ ~ In "type" (checkAllowed Oas3.SecurityScheme VUndefined).
Proof.
  split; [| split].
  - apply (proj2 (proj2 (proj2 (SecurityScheme_required_incl_allowed
             (VObj [("type", VStr "apiKey"); ("in", VStr "user");
                    ("name", VStr "api_key")])))) "in").
    simpl. auto.
  - apply (proj1 (proj2 (proj2 (SecurityScheme_required_incl_allowed VNull))) "type").
    simpl. auto.
  - apply (proj1 (proj2 (proj2 (SecurityScheme_required_incl_allowed VUndefined)))
             "type").
    simpl. auto.
Defined.

(** ** The allow-list of the bindings descriptors *)

Lemma classifiable_not_rejected (D : NodeType) (k : string) (V : Value) :
  classifiable D k V -> resolveChild D k V <> Rejected.
Proof.
  intros [[t [_ H]] | (_ & _ & H)]; rewrite H; discriminate.
Qed.

(** C10. The [allowed] functions of the four AsyncAPI 2 bindings descriptors
    return, on every value, the same list of nineteen protocol names, and
    they are the [allowed] rules of the descriptors once the module has run;
    every key of that list is classifiable on each of the four descriptors,
    so none is rejected as unknown. *)
Theorem bindings_allowed_classifiable :
  (forall v,
      AsyncApi2.ChannelBindings_allowed v = bindingProtocols
      /\ AsyncApi2.ServerBindings_allowed v = bindingProtocols
      /\ AsyncApi2.MessageBindings_allowed v = bindingProtocols
      /\ AsyncApi2.OperationBindings_allowed v = bindingProtocols)
  /\ List.length bindingProtocols = 19
  /\ NoDup bindingProtocols
  /\ allowed AsyncApi2.ChannelBindings = Some AsyncApi2.ChannelBindings_allowed
  /\ allowed AsyncApi2.ServerBindings = Some AsyncApi2.ServerBindings_allowed
  /\ allowed AsyncApi2.MessageBindings = Some AsyncApi2.MessageBindings_allowed
  /\ allowed AsyncApi2.OperationBindings = Some AsyncApi2.OperationBindings_allowed
  /\ (forall k V, In k bindingProtocols ->
        classifiable AsyncApi2.ChannelBindings k V
        /\ classifiable AsyncApi2.ServerBindings k V
        /\ classifiable AsyncApi2.MessageBindings k V
        /\ classifiable AsyncApi2.OperationBindings k V)
  /\ (forall k V, In k bindingProtocols ->
        resolveChild AsyncApi2.ChannelBindings k V <> Rejected
        /\ resolveChild AsyncApi2.ServerBindings k V <> Rejected
        /\ resolveChild AsyncApi2.MessageBindings k V <> Rejected
        /\ resolveChild AsyncApi2.OperationBindings k V <> Rejected).
Proof.
  assert (Hc : forall k V, In k bindingProtocols ->
                 classifiable AsyncApi2.ChannelBindings k V
                 /\ classifiable AsyncApi2.ServerBindings k V
                 /\ classifiable AsyncApi2.MessageBindings k V
                 /\ classifiable AsyncApi2.OperationBindings k V).
  { intros k V Hk. unfold classifiable.
    split; [| split; [| split]].
    - clear - Hk. classify_protocols Hk.
    - clear - Hk. classify_protocols Hk.
    - clear - Hk. classify_protocols Hk.
    - clear - Hk. classify_protocols Hk. }
  split; [intros v; repeat split |].
  split; [reflexivity |].
  split.
  { unfold bindingProtocols.
    repeat (constructor;
            [simpl; intros H;
             repeat (destruct H as [H | H]; [discriminate H |]); exact H |]).
    constructor. }
  do 4 (split; [reflexivity |]).
  split; [exact Hc |].
  intros k V Hk. destruct (Hc k V Hk) as (H1 & H2 & H3 & H4).
  repeat split; apply classifiable_not_rejected; assumption.
Qed.

Lemma bindings_allowed_classifiable_witness :
  classifiable AsyncApi2.ChannelBindings "kafka" (VObj [])
  /\ resolveChild AsyncApi2.MessageBindings "sns" (VObj []) <> Rejected.
Proof.
  destruct bindings_allowed_classifiable as (_ & _ & _ & _ & _ & _ & _ & Hc & Hr).
  split.
  - apply (Hc "kafka" (VObj [])). simpl. tauto.
  - apply (Hr "sns" (VObj [])). simpl. tauto.
Defined.

(** ** The two OpenAPI 3 tables *)

(** Validation reads a descriptor only through what is left once the
    descriptive fields are erased. *)
Section Erasure.

Variable D : NodeType.

Lemma erase_properties :
  properties (eraseNode D)
  = map (fun kr => (fst kr, eraseRule (snd kr))) (properties D).
Proof. destruct D; reflexivity. Qed.

Lemma erase_additionalProperties :
  additionalProperties (eraseNode D) = option_map eraseRule (additionalProperties D).
Proof. destruct D; reflexivity. Qed.

Lemma erase_items : items (eraseNode D) = option_map eraseRule (items D).
Proof. destruct D; reflexivity. Qed.

Lemma erase_required : required (eraseNode D) = required D.
Proof. destruct D; reflexivity. Qed.

Lemma erase_requiredOneOf : requiredOneOf (eraseNode D) = requiredOneOf D.
Proof. destruct D; reflexivity. Qed.

Lemma erase_allowed : allowed (eraseNode D) = allowed D.
Proof. destruct D; reflexivity. Qed.

Lemma erase_extensionsPrefix : extensionsPrefix (eraseNode D) = extensionsPrefix D.
Proof. destruct D; reflexivity. Qed.

Lemma erase_isExtensionKey (K : string) :
  isExtensionKey (eraseNode D) K = isExtensionKey D K.
Proof. unfold isExtensionKey. now rewrite erase_extensionsPrefix. Qed.

Lemma erase_applyRule (rule : PropRule) (V : Value) (K : string) :
  applyRule (eraseRule rule) V K = eraseOutcome (applyRule rule V K).
Proof.
  destruct rule as [p | f]; simpl; [reflexivity |].
  destruct (f V K); reflexivity.
Qed.

Lemma erase_resolveChild (K : string) (V : Value) :
  resolveChild (eraseNode D) K V = eraseOutcome (resolveChild D K V).
Proof.
  unfold resolveChild.
  rewrite erase_properties, assoc_map_snd, erase_isExtensionKey,
    erase_additionalProperties.
  destruct (assoc K (properties D)) as [rule |]; simpl.
  - apply erase_applyRule.
  - destruct (isExtensionKey D K); [reflexivity |].
    destruct (additionalProperties D) as [rule |]; simpl;
      [apply erase_applyRule | reflexivity].
Qed.

Lemma erase_resolveRequired (V : Value) :
  resolveRequired (eraseNode D) V = resolveRequired D V.
Proof. unfold resolveRequired. now rewrite erase_required. Qed.

Lemma erase_checkRequired (V : Value) :
  checkRequired (eraseNode D) V = checkRequired D V.
Proof. unfold checkRequired. now rewrite erase_resolveRequired. Qed.

Lemma erase_checkDisjunctiveRequired (V : Value) :
  checkDisjunctiveRequired (eraseNode D) V = checkDisjunctiveRequired D V.
Proof. unfold checkDisjunctiveRequired. now rewrite erase_requiredOneOf. Qed.

Lemma erase_checkAllowed (V : Value) :
  checkAllowed (eraseNode D) V = checkAllowed D V.
Proof.
  unfold checkAllowed. rewrite erase_allowed.
  destruct (allowed D); [| reflexivity].
  apply filter_ext. intros k. now rewrite erase_isExtensionKey.
Qed.

End Erasure.

Lemma sameValidation_of_erase (D1 D2 : NodeType) :
  eraseNode D1 = eraseNode D2 -> sameValidation D1 D2.
Proof.
  intros E. unfold sameValidation.
  split; [intros K V; now rewrite <- !erase_resolveChild, E |].
  split; [now rewrite <- !erase_items, E |].
  split; [intros V; now rewrite <- (erase_resolveRequired D1), E, erase_resolveRequired |].
  split; [intros V; now rewrite <- (erase_checkRequired D1), E, erase_checkRequired |].
  split; [now rewrite <- (erase_requiredOneOf D1), E, erase_requiredOneOf |].
  split; [intros V; now rewrite <- (erase_checkDisjunctiveRequired D1), E,
                        erase_checkDisjunctiveRequired |].
  split; [intros V; now rewrite <- (erase_allowed D1), E, erase_allowed |].
  split; [intros V; now rewrite <- (erase_checkAllowed D1), E, erase_checkAllowed |].
  split; [now rewrite <- (erase_extensionsPrefix D1), E, erase_extensionsPrefix |].
  intros K. now rewrite <- (erase_isExtensionKey D1), E, erase_isExtensionKey.
Qed.

Lemma eraseTable_lookup (types1 types2 : list (string * NodeType))
    (name : string) (D1 D2 : NodeType) :
  eraseTable types1 = eraseTable types2 ->
  lookup name types1 = Some D1 -> lookup name types2 = Some D2 ->
  eraseNode D1 = eraseNode D2.
Proof.
  intros E H1 H2.
  assert (H : lookup name (eraseTable types1) = lookup name (eraseTable types2))
    by now rewrite E.
  unfold lookup, eraseTable in *. rewrite !assoc_map_snd, H1, H2 in H.
  now injection H.
Qed.

Lemma Oas3Types_erased (isMappingRef : Value -> bool) :
  eraseTable (Part000.Oas3Types isMappingRef) = eraseTable (Oas3.Oas3Types isMappingRef).
Proof. reflexivity. Qed.

(** C7. The two OpenAPI 3 tables define the same type names, and for every
    name the two descriptors are equal once [description] and
    [documentationLink] are erased; hence they validate alike: the same
    resolution outcome for every child key and value, the same required,
    one-of-required and allowed sets, the same extension prefix.  The
    descriptive fields do differ (the description of [Paths], for one). *)
Theorem Oas3Types_tables_equivalent (isMappingRef : Value -> bool) :
  map fst (Part000.Oas3Types isMappingRef) = map fst (Oas3.Oas3Types isMappingRef)
  /\ (forall name D1 D2,
        lookup name (Part000.Oas3Types isMappingRef) = Some D1 ->
        lookup name (Oas3.Oas3Types isMappingRef) = Some D2 ->
        eraseNode D1 = eraseNode D2 /\ sameValidation D1 D2)
  /\ description Part000.Paths <> description Oas3.Paths.
Proof.
  split; [reflexivity |].
  split; [| discriminate].
  intros name D1 D2 H1 H2.
  assert (E : eraseNode D1 = eraseNode D2)
    by exact (eraseTable_lookup _ _ name D1 D2 (Oas3Types_erased isMappingRef) H1 H2).
  split; [exact E | exact (sameValidation_of_erase D1 D2 E)].
Qed.

Lemma Oas3Types_tables_equivalent_witness :
  sameValidation Part000.Tag Oas3.Tag
  /\ sameValidation Part000.SecurityScheme Oas3.SecurityScheme.
Proof.
  split.
  - apply (proj1 (proj2 (Oas3Types_tables_equivalent startsWithHash))
             "Tag" Part000.Tag Oas3.Tag); reflexivity.
  - apply (proj1 (proj2 (Oas3Types_tables_equivalent startsWithHash))
             "SecurityScheme" Part000.SecurityScheme Oas3.SecurityScheme);
      reflexivity.
Defined.

(** * Further properties of the descriptor tables *)

Lemma assoc_In {A : Type} (k : string) (a : A) (l : list (string * A)) :
  assoc k l = Some a -> In (k, a) l.
Proof.
  induction l as [| [k' a'] tl IH]; simpl; [discriminate |].
  destruct (String.eqb_spec k k') as [-> | _].
  - intros [= ->]. now left.
  - intros H. right. exact (IH H).
Qed.

Lemma Forall_lookup {P : string -> NodeType -> Prop} (types : list (string * NodeType))
    (name : string) (D : NodeType) :
  Forall (fun nd => P (fst nd) (snd nd)) types ->
  lookup name types = Some D -> P name D.
Proof.
  intros HF H. apply assoc_In in H.
  rewrite Forall_forall in HF. exact (HF (name, D) H).
Qed.

Ltac split_ands := repeat match goal with |- _ /\ _ => split end.

Ltac case_ifs :=
  repeat match goal with
         | |- context [if ?c then _ else _] => destruct c
         end.

(** One descriptor is closed: its static rules by computation, its resolvers
    by cases on their conditions. *)
Ltac closed_node :=
  cbn; split_ands; try exact I; try reflexivity;
  intros v k;
  cbv beta delta [Oas3.Paths_additionalProperties Oas3.WebhooksMap_additionalProperties
                  Oas3.Responses_additionalProperties Oas3.Schema_items
                  Oas3.Schema_additionalProperties
                  Oas3.DiscriminatorMapping_additionalProperties
                  Oas3.AuthorizationCode_x_usePkce
                  Part000.Paths_additionalProperties
                  Part000.WebhooksMap_additionalProperties
                  Part000.Responses_additionalProperties Part000.Schema_items
                  Part000.Schema_additionalProperties
                  Part000.DiscriminatorMapping_additionalProperties
                  Part000.AuthorizationCode_x_usePkce
                  AsyncApi2.ServerMap_additionalProperties];
  case_ifs; cbn; split_ands; try exact I; reflexivity.

Lemma Oas3Types_closed_all (isMappingRef : Value -> bool) :
  Forall (fun nd => closedNode (map fst (Oas3.Oas3Types isMappingRef)) (snd nd))
         (Oas3.Oas3Types isMappingRef).
Proof.
  unfold Oas3.Oas3Types at 2.
  repeat (apply Forall_cons; [closed_node |]).
  apply Forall_nil.
Qed.

Lemma Part000_Oas3Types_closed_all (isMappingRef : Value -> bool) :
  Forall (fun nd => closedNode (map fst (Part000.Oas3Types isMappingRef)) (snd nd))
         (Part000.Oas3Types isMappingRef).
Proof.
  unfold Part000.Oas3Types at 2.
  repeat (apply Forall_cons; [closed_node |]).
  apply Forall_nil.
Qed.

(** X1. In both OpenAPI 3 tables every type name that a descriptor of the
    table mentions is itself a name of the table: the references of its
    [properties], [additionalProperties] and [items], the [directResolveAs]
    targets, and whatever a resolver function returns, on every value and
    key.  No reference of the table dangles. *)
Theorem Oas3Types_references_closed (isMappingRef : Value -> bool)
    (name : string) (D : NodeType) :
  (lookup name (Oas3.Oas3Types isMappingRef) = Some D ->
   closedNode (map fst (Oas3.Oas3Types isMappingRef)) D)
  /\ (lookup name (Part000.Oas3Types isMappingRef) = Some D ->
      closedNode (map fst (Part000.Oas3Types isMappingRef)) D).
Proof.
  split; intros H.
  - exact (Forall_lookup (P := fun _ d => closedNode _ d) _ name D
             (Oas3Types_closed_all isMappingRef) H).
  - exact (Forall_lookup (P := fun _ d => closedNode _ d) _ name D
             (Part000_Oas3Types_closed_all isMappingRef) H).
Qed.

Lemma Oas3Types_references_closed_witness :
  closedNode (map fst (Oas3.Oas3Types startsWithHash)) Oas3.Schema
  /\ closedNode (map fst (Part000.Oas3Types startsWithHash))
       (Part000.DiscriminatorMapping startsWithHash).
Proof.
  split.
  - apply (proj1 (Oas3Types_references_closed startsWithHash "Schema" Oas3.Schema)).
    reflexivity.
  - apply (proj2 (Oas3Types_references_closed startsWithHash "DiscriminatorMapping"
                    (Part000.DiscriminatorMapping startsWithHash))).
    reflexivity.
Defined.

Section AsyncApi2Imports.

Variables Dependencies Discriminator DiscriminatorMapping Schema SchemaProperties
  : NodeType.

Let types : list (string * NodeType) :=
  AsyncApi2.AsyncApi2Types Dependencies Discriminator DiscriminatorMapping Schema
    SchemaProperties.

Lemma AsyncApi2Types_closed_all :
  Forall (fun nd => ~ In (fst nd) importedNames ->
                    closedNode (map fst types) (snd nd))
         types.
Proof.
  set (names := map fst types).
  unfold types.
  cbv [AsyncApi2.AsyncApi2Types AsyncApi2.AsyncApi2Bindings spreadThen fold_left
       assign fst snd String.eqb Ascii.eqb Bool.eqb].
  repeat (apply Forall_cons;
          [intros Hni;
           first [ solve [closed_node]
                 | exfalso; apply Hni; cbn; tauto ] |]).
  apply Forall_nil.
Qed.

End AsyncApi2Imports.

(** X2. In the table of all AsyncAPI 2 types, whatever the five imported
    JSON-Schema descriptors are, every type name that a descriptor written
    in the module mentions is a name of the table: references, list items,
    resolver results and the node types assigned to the bindings included. *)
Theorem AsyncApi2Types_references_closed
    (Dependencies Discriminator DiscriminatorMapping Schema SchemaProperties : NodeType)
    (name : string) (D : NodeType) :
  lookup name
    (AsyncApi2.AsyncApi2Types Dependencies Discriminator DiscriminatorMapping Schema
       SchemaProperties) = Some D ->
  ~ In name importedNames ->
  closedNode
    (map fst (AsyncApi2.AsyncApi2Types Dependencies Discriminator DiscriminatorMapping
                Schema SchemaProperties))
    D.
Proof.
  intros H.
  exact (Forall_lookup
           (P := fun n d => ~ In n importedNames -> closedNode _ d) _ name D
           (AsyncApi2Types_closed_all Dependencies Discriminator DiscriminatorMapping
              Schema SchemaProperties) H).
Qed.

Lemma AsyncApi2Types_references_closed_witness :
  closedNode
    (map fst (AsyncApi2.AsyncApi2Types emptyNode emptyNode emptyNode emptyNode emptyNode))
    AsyncApi2.OperationBindings.
Proof.
  apply (AsyncApi2Types_references_closed emptyNode emptyNode emptyNode emptyNode
           emptyNode "OperationBindings" AsyncApi2.OperationBindings).
  - reflexivity.
  - simpl. intros [H | [H | [H | [H | [H | []]]]]]; discriminate H.
Defined.

(** ** Server names *)

Lemma inClass_serverName (c : ascii) :
  inClass [("A", "Z"); ("a", "z"); ("0", "9"); ("_", "_"); ("-", "-")]%char c
  = isServerNameChar c.
Proof.
  unfold inClass, isServerNameChar. cbn [existsb fst snd].
  rewrite !range_single.
  change (nat_of_ascii "A") with 65. change (nat_of_ascii "Z") with 90.
  change (nat_of_ascii "a") with 97. change (nat_of_ascii "z") with 122.
  change (nat_of_ascii "0") with 48. change (nat_of_ascii "9") with 57.
  cbv zeta.
  destruct ((65 <=? nat_of_ascii c)%nat && (nat_of_ascii c <=? 90)%nat);
    destruct ((97 <=? nat_of_ascii c)%nat && (nat_of_ascii c <=? 122)%nat);
    destruct ((48 <=? nat_of_ascii c)%nat && (nat_of_ascii c <=? 57)%nat);
    destruct (Ascii.eqb c "_"); destruct (Ascii.eqb c "-"); reflexivity.
Qed.

Lemma allInClass_serverName (s : string) :
  allInClass [("A", "Z"); ("a", "z"); ("0", "9"); ("_", "_"); ("-", "-")]%char s
  = allChars isServerNameChar s.
Proof.
  induction s as [| c rest IH]; [reflexivity |].
  cbn [allInClass allChars]. now rewrite inClass_serverName, IH.
Qed.

(** X3. The AsyncAPI 2 [ServerMap] descriptor, which has no [properties],
    gives a key the type ['Server'] exactly when the key is a server name:
    not empty, and made of letters, digits, ['_'] and ['-'] only.  On the
    empty key and on a key with any other character (a dot, a space, a
    slash) its function returns [undefined]. *)
Theorem ServerMap_key_pattern :
  properties AsyncApi2.ServerMap = []
  /\ additionalProperties AsyncApi2.ServerMap
     = Some (Resolver AsyncApi2.ServerMap_additionalProperties)
  /\ (forall value key,
        AsyncApi2.ServerMap_additionalProperties value key
        = if isServerName key then Some (PRef "Server") else None)
  /\ (forall value, AsyncApi2.ServerMap_additionalProperties value "" = None)
  /\ (forall value key c,
        In c (list_ascii_of_string key) -> isServerNameChar c = false ->
        AsyncApi2.ServerMap_additionalProperties value key = None).
Proof.
  assert (H : forall value key,
             AsyncApi2.ServerMap_additionalProperties value key
             = if isServerName key then Some (PRef "Server") else None).
  { intros value key. unfold AsyncApi2.ServerMap_additionalProperties.
    destruct key as [| c rest]; [reflexivity |].
    unfold testOneOrMore, isServerName. now rewrite allInClass_serverName. }
  split; [reflexivity |]. split; [reflexivity |]. split; [exact H |].
  split; [reflexivity |].
  intros value key c Hin Hc. rewrite H.
  assert (E : isServerName key = false).
  { destruct key as [| a rest]; [reflexivity |].
    unfold isServerName.
    revert Hin. generalize (String a rest). intros s.
    induction s as [| b s IH]; simpl; [tauto |].
    intros [-> | Hin]; [now rewrite Hc |].
    rewrite (IH Hin). apply andb_false_r. }
  now rewrite E.
Qed.

Lemma ServerMap_key_pattern_witness :
  AsyncApi2.ServerMap_additionalProperties VNull "prod.eu" = None.
Proof.
  apply (proj2 (proj2 (proj2 (proj2 ServerMap_key_pattern))) VNull "prod.eu" "."%char).
  - simpl. tauto.
  - reflexivity.
Defined.

(** ** Keys of tables and descriptors *)

Lemma distinct_NoDup (l : list string) : distinct l = true -> NoDup l.
Proof.
  induction l as [| k tl IH]; simpl; [constructor |].
  rewrite andb_true_iff, negb_true_iff, includes_not_In.
  intros [Hn Hd]. constructor; auto.
Qed.

Section AsyncApi2Table.

Variables Dependencies Discriminator DiscriminatorMapping Schema SchemaProperties
  : NodeType.

Let types : list (string * NodeType) :=
  AsyncApi2.AsyncApi2Types Dependencies Discriminator DiscriminatorMapping Schema
    SchemaProperties.

Lemma AsyncApi2Bindings_kept_all :
  Forall (fun nd => lookup (fst nd) types = Some (snd nd)) AsyncApi2.AsyncApi2Bindings.
Proof.
  unfold AsyncApi2.AsyncApi2Bindings.
  repeat (apply Forall_cons; [reflexivity |]).
  apply Forall_nil.
Qed.

(** X4. The spread of [AsyncApi2Bindings] into [AsyncApi2Types] is kept: every
    name of the bindings table is found in the table of all types with the
    same descriptor, no later entry replacing it ([MessageBindings] and
    [OperationBindings], listed again, are the same objects); the four
    bindings descriptors are found as the module's assignments left them; and
    no name occurs twice in the table. *)
Theorem AsyncApi2Types_keeps_bindings :
  (forall name D,
      lookup name AsyncApi2.AsyncApi2Bindings = Some D -> lookup name types = Some D)
  /\ lookup "ChannelBindings" types = Some AsyncApi2.ChannelBindings
  /\ lookup "ServerBindings" types = Some AsyncApi2.ServerBindings
  /\ lookup "MessageBindings" types = Some AsyncApi2.MessageBindings
  /\ lookup "OperationBindings" types = Some AsyncApi2.OperationBindings
  /\ NoDup (map fst types).
Proof.
  split.
  - intros name D H.
    exact (Forall_lookup (P := fun n d => lookup n types = Some d) _ name D
             AsyncApi2Bindings_kept_all H).
  - do 4 (split; [reflexivity |]).
    apply distinct_NoDup. vm_compute. reflexivity.
Qed.

End AsyncApi2Table.

Lemma AsyncApi2Types_keeps_bindings_witness :
  lookup "KafkaMessageBinding"
    (AsyncApi2.AsyncApi2Types emptyNode emptyNode emptyNode emptyNode emptyNode)
  = Some AsyncApi2.KafkaMessageBinding.
Proof.
  apply (proj1 (AsyncApi2Types_keeps_bindings emptyNode emptyNode emptyNode emptyNode
                  emptyNode) "KafkaMessageBinding" AsyncApi2.KafkaMessageBinding).
  reflexivity.
Defined.

(** ** Rules that never reject *)

Ltac unfold_resolvers :=
  cbv beta delta [Oas3.Paths_additionalProperties Oas3.WebhooksMap_additionalProperties
                  Oas3.Responses_additionalProperties Oas3.Schema_items
                  Oas3.Schema_additionalProperties
                  Oas3.DiscriminatorMapping_additionalProperties
                  Oas3.AuthorizationCode_x_usePkce
                  Part000.Paths_additionalProperties
                  Part000.WebhooksMap_additionalProperties
                  Part000.Responses_additionalProperties Part000.Schema_items
                  Part000.Schema_additionalProperties
                  Part000.DiscriminatorMapping_additionalProperties
                  Part000.AuthorizationCode_x_usePkce
                  AsyncApi2.ServerMap_additionalProperties].

Ltac total_rule :=
  cbn; first [ exact I | intros v k; unfold_resolvers; case_ifs; discriminate ].

Ltac total_node :=
  split;
  [ unfold propertiesTotal; cbn;
    repeat (apply Forall_cons; [solve [total_rule] |]); apply Forall_nil
  | intros Hni; unfold catchAllTotal;
    first [ solve [total_rule] | exfalso; apply Hni; cbn; tauto ] ].

Lemma Oas3Types_total_all (isMappingRef : Value -> bool) :
  Forall (fun nd => rulesTotal (fst nd) (snd nd)) (Oas3.Oas3Types isMappingRef)
  /\ Forall (fun nd => rulesTotal (fst nd) (snd nd)) (Part000.Oas3Types isMappingRef).
Proof.
  split.
  - unfold Oas3.Oas3Types.
    repeat (apply Forall_cons; [solve [total_node] |]). apply Forall_nil.
  - unfold Part000.Oas3Types.
    repeat (apply Forall_cons; [solve [total_node] |]). apply Forall_nil.
Qed.

Lemma AsyncApi2Types_total_all
    (Dependencies Discriminator DiscriminatorMapping Schema SchemaProperties : NodeType) :
  Forall (fun nd => ~ In (fst nd) importedNames -> rulesTotal (fst nd) (snd nd))
         (AsyncApi2.AsyncApi2Types Dependencies Discriminator DiscriminatorMapping
            Schema SchemaProperties).
Proof.
  cbv [AsyncApi2.AsyncApi2Types AsyncApi2.AsyncApi2Bindings spreadThen fold_left
       assign fst snd String.eqb Ascii.eqb Bool.eqb].
  repeat (apply Forall_cons;
          [intros Hi;
           first [ solve [total_node] | exfalso; apply Hi; cbn; tauto ] |]).
  apply Forall_nil.
Qed.

(** X5. In the two OpenAPI 3 tables and in the AsyncAPI 2 table (the imported
    descriptors apart), no rule of a descriptor's [properties] ever returns
    [undefined]: a key listed in [properties] is given a type on every
    value.  Among the catch-all rules only those of [Paths], [Responses] and
    [ServerMap] can return [undefined]; every other one gives a type to every
    key and value. *)
Theorem tables_rules_total (isMappingRef : Value -> bool) (name : string) (D : NodeType) :
  (lookup name (Oas3.Oas3Types isMappingRef) = Some D -> rulesTotal name D)
  /\ (lookup name (Part000.Oas3Types isMappingRef) = Some D -> rulesTotal name D)
  /\ (forall Dependencies Discriminator DiscriminatorMapping Schema SchemaProperties,
        lookup name
          (AsyncApi2.AsyncApi2Types Dependencies Discriminator DiscriminatorMapping
             Schema SchemaProperties) = Some D ->
        ~ In name importedNames -> rulesTotal name D).
Proof.
  destruct (Oas3Types_total_all isMappingRef) as [Ho Hp].
  split; [| split].
  - exact (Forall_lookup (P := rulesTotal) _ name D Ho).
  - exact (Forall_lookup (P := rulesTotal) _ name D Hp).
  - intros D1 D2 D3 D4 D5.
    exact (Forall_lookup (P := fun n d => ~ In n importedNames -> rulesTotal n d)
             _ name D (AsyncApi2Types_total_all D1 D2 D3 D4 D5)).
Qed.

Lemma tables_rules_total_witness :
  rulesTotal "Schema" Oas3.Schema
  /\ rulesTotal "AuthorizationCode" Part000.AuthorizationCode
  /\ rulesTotal "Message" AsyncApi2.Message.
Proof.
  split; [| split].
  - apply (proj1 (tables_rules_total startsWithHash "Schema" Oas3.Schema)).
    reflexivity.
  - apply (proj1 (proj2 (tables_rules_total startsWithHash "AuthorizationCode"
                           Part000.AuthorizationCode))).
    reflexivity.
  - apply (proj2 (proj2 (tables_rules_total startsWithHash "Message" AsyncApi2.Message))
             emptyNode emptyNode emptyNode emptyNode emptyNode).
    + reflexivity.
    + simpl. intros [H | [H | [H | [H | [H | []]]]]]; discriminate H.
Defined.

(** ** Demanded keys are declared *)

Lemma incl_forallb (l1 l2 : list string) :
  forallb (includes l2) l1 = true -> incl l1 l2.
Proof.
  rewrite forallb_forall. intros H k Hk. apply includes_In. exact (H k Hk).
Qed.

Ltac incl_keys := apply incl_forallb; reflexivity.

(** The result of a [switch] over lists of keys is included in a list when
    the default and every case are. *)
Ltac incl_switch :=
  intros v;
  cbv beta delta [Oas3.SecurityScheme_required Oas3.SecurityScheme_allowed
                  Part000.SecurityScheme_required Part000.SecurityScheme_allowed
                  AsyncApi2.SecurityScheme_required AsyncApi2.SecurityScheme_allowed];
  match goal with
  | |- incl (switch ?d ?c ?df) _ =>
      destruct (switch_cases_or_default d c df) as [E | E];
      [ rewrite E; incl_keys
      | cbn [map snd In] in E;
        repeat (destruct E as [E | E]; [rewrite <- E; incl_keys |]);
        destruct E ]
  end.

Ltac demands_node :=
  unfold demandsDeclared; cbn; split;
  first [ exact I | incl_keys | incl_switch ].

Lemma Oas3Types_demands_all (isMappingRef : Value -> bool) :
  Forall (fun nd => demandsDeclared (snd nd)) (Oas3.Oas3Types isMappingRef)
  /\ Forall (fun nd => demandsDeclared (snd nd)) (Part000.Oas3Types isMappingRef).
Proof.
  split.
  - unfold Oas3.Oas3Types.
    repeat (apply Forall_cons; [solve [demands_node] |]). apply Forall_nil.
  - unfold Part000.Oas3Types.
    repeat (apply Forall_cons; [solve [demands_node] |]). apply Forall_nil.
Qed.

Lemma AsyncApi2Types_demands_all
    (Dependencies Discriminator DiscriminatorMapping Schema SchemaProperties : NodeType) :
  Forall (fun nd => ~ In (fst nd) importedNames -> demandsDeclared (snd nd))
         (AsyncApi2.AsyncApi2Types Dependencies Discriminator DiscriminatorMapping
            Schema SchemaProperties).
Proof.
  cbv [AsyncApi2.AsyncApi2Types AsyncApi2.AsyncApi2Bindings spreadThen fold_left
       assign fst snd String.eqb Ascii.eqb Bool.eqb].
  repeat (apply Forall_cons;
          [intros Hi;
           first [ solve [demands_node] | exfalso; apply Hi; cbn; tauto ] |]).
  apply Forall_nil.
Qed.

(** X6. In the two OpenAPI 3 tables and in the AsyncAPI 2 table (the imported
    descriptors apart), every key that a descriptor demands is a key of its
    own [properties]: the keys of a [required] list, the keys a [required]
    function returns on any value, and the keys of [requiredOneOf].  The
    allow-lists of the security schemes, too, name declared properties only. *)
Theorem tables_demands_declared (isMappingRef : Value -> bool)
    (name : string) (D : NodeType) :
  (lookup name (Oas3.Oas3Types isMappingRef) = Some D -> demandsDeclared D)
  /\ (lookup name (Part000.Oas3Types isMappingRef) = Some D -> demandsDeclared D)
  /\ (forall Dependencies Discriminator DiscriminatorMapping Schema SchemaProperties,
        lookup name
          (AsyncApi2.AsyncApi2Types Dependencies Discriminator DiscriminatorMapping
             Schema SchemaProperties) = Some D ->
        ~ In name importedNames -> demandsDeclared D)
  /\ (forall v,
        incl (Oas3.SecurityScheme_allowed v) (map fst (properties Oas3.SecurityScheme))
        /\ incl (Part000.SecurityScheme_allowed v)
                (map fst (properties Part000.SecurityScheme))
        /\ incl (AsyncApi2.SecurityScheme_allowed v)
                (map fst (properties AsyncApi2.SecurityScheme))).
Proof.
  destruct (Oas3Types_demands_all isMappingRef) as [Ho Hp].
  split; [| split; [| split]].
  - exact (Forall_lookup (P := fun _ d => demandsDeclared d) _ name D Ho).
  - exact (Forall_lookup (P := fun _ d => demandsDeclared d) _ name D Hp).
  - intros D1 D2 D3 D4 D5.
    exact (Forall_lookup (P := fun n d => ~ In n importedNames -> demandsDeclared d)
             _ name D (AsyncApi2Types_demands_all D1 D2 D3 D4 D5)).
  - intros v0. split; [| split]; cbn [map fst properties]; revert v0.
    + change (map fst (properties Oas3.SecurityScheme))
        with ["type"; "description"; "name"; "in"; "scheme"; "bearerFormat"; "flows";
              "openIdConnectUrl"; "x-defaultClientId"].
      incl_switch.
    + change (map fst (properties Part000.SecurityScheme))
        with ["type"; "description"; "name"; "in"; "scheme"; "bearerFormat"; "flows";
              "openIdConnectUrl"; "x-defaultClientId"].
      incl_switch.
    + change (map fst (properties AsyncApi2.SecurityScheme))
        with ["type"; "description"; "name"; "in"; "scheme"; "bearerFormat"; "flows";
              "openIdConnectUrl"].
      incl_switch.
Qed.

Lemma tables_demands_declared_witness :
  demandsDeclared Oas3.SecurityScheme
  /\ demandsDeclared Part000.Parameter_
  /\ demandsDeclared AsyncApi2.Server.
Proof.
  split; [| split].
  - apply (proj1 (tables_demands_declared startsWithHash "SecurityScheme"
                    Oas3.SecurityScheme)).
    reflexivity.
  - apply (proj1 (proj2 (tables_demands_declared startsWithHash "Parameter"
                           Part000.Parameter_))).
    reflexivity.
  - apply (proj1 (proj2 (proj2 (tables_demands_declared startsWithHash "Server"
                                  AsyncApi2.Server)))
             emptyNode emptyNode emptyNode emptyNode emptyNode).
    + reflexivity.
    + simpl. intros [H | [H | [H | [H | [H | []]]]]]; discriminate H.
Defined.

(** ** What the assignments to the bindings descriptors leave *)

Lemma sameButProperties_refl (a : NodeType) : sameButProperties a a.
Proof. unfold sameButProperties. repeat split. Qed.

Lemma sameButProperties_trans (a b c : NodeType) :
  sameButProperties a b -> sameButProperties b c -> sameButProperties a c.
Proof.
  unfold sameButProperties. intros H1 H2.
  decompose [and] H1. decompose [and] H2.
  repeat split; congruence.
Qed.

Lemma setProperty_same (t v : NodeType) (k : string) :
  sameButProperties t (AsyncApi2.setProperty t k v).
Proof. destruct t. unfold sameButProperties. repeat split. Qed.

Lemma exec_same (st : AsyncApi2.Store) (s : AsyncApi2.Stmt) (target : AsyncApi2.Target) :
  sameButProperties (AsyncApi2.select target st)
                    (AsyncApi2.select target (AsyncApi2.exec st s)).
Proof.
  destruct s as [t k v], st as [c sv m o].
  destruct t, target; simpl;
    first [apply sameButProperties_refl | apply setProperty_same].
Qed.

Lemma run_same (stmts : list AsyncApi2.Stmt) (st : AsyncApi2.Store)
    (target : AsyncApi2.Target) :
  sameButProperties (AsyncApi2.select target st)
                    (AsyncApi2.select target (AsyncApi2.run stmts st)).
Proof.
  revert st. induction stmts as [| s tl IH]; intros st.
  - apply sameButProperties_refl.
  - change (AsyncApi2.run (s :: tl) st) with (AsyncApi2.run tl (AsyncApi2.exec st s)).
    eapply sameButProperties_trans; [apply exec_same | apply IH].
Qed.

(** X7. Every assignment of the AsyncAPI 2 module is still in force once the
    module has run: for each statement [T.properties.k = B], the entry [k] of
    the [properties] of [T] is [B] at the end, none having been overwritten
    by a later statement.  Assignments change nothing of a descriptor but its
    [properties]: the allow-list, the catch-all rule and the other fields of
    the four bindings descriptors are those they were written with. *)
Theorem patches_all_in_force :
  (forall target key value,
      In (AsyncApi2.Assign target key value) AsyncApi2.patches ->
      assoc key (properties (AsyncApi2.select target AsyncApi2.final))
      = Some (inline value))
  /\ (forall stmts st target,
        sameButProperties (AsyncApi2.select target st)
                          (AsyncApi2.select target (AsyncApi2.run stmts st)))
  /\ sameButProperties AsyncApi2.ChannelBindings_def AsyncApi2.ChannelBindings
  /\ sameButProperties AsyncApi2.ServerBindings_def AsyncApi2.ServerBindings
  /\ sameButProperties AsyncApi2.MessageBindings_def AsyncApi2.MessageBindings
  /\ sameButProperties AsyncApi2.OperationBindings_def AsyncApi2.OperationBindings.
Proof.
  split; [| split; [exact run_same |]].
  - intros target key value H. unfold AsyncApi2.patches in H.
    cbn [In] in H.
    repeat (destruct H as [H | H]; [injection H as <- <- <-; reflexivity |]).
    destruct H.
  - split; [| split; [| split]].
    + exact (run_same AsyncApi2.patches AsyncApi2.initial AsyncApi2.TChannelBindings).
    + exact (run_same AsyncApi2.patches AsyncApi2.initial AsyncApi2.TServerBindings).
    + exact (run_same AsyncApi2.patches AsyncApi2.initial AsyncApi2.TMessageBindings).
    + exact (run_same AsyncApi2.patches AsyncApi2.initial AsyncApi2.TOperationBindings).
Qed.

Lemma patches_all_in_force_witness :
  assoc "mqtt" (properties AsyncApi2.ServerBindings)
  = Some (inline AsyncApi2.MqttServerBinding).
Proof.
  apply (proj1 patches_all_in_force AsyncApi2.TServerBindings "mqtt"
           AsyncApi2.MqttServerBinding).
  unfold AsyncApi2.patches. cbn [In]. do 25 right. left. reflexivity.
Defined.

(** X8. Every key that has an entry in the [properties] of a bindings
    descriptor, once the module has run, is a key its allow-list returns, on
    every value: no protocol that was given a node type is reported as
    disallowed. *)
Theorem assigned_bindings_allowed (target : AsyncApi2.Target) (v : Value) (k : string) :
  In k (map fst (properties (AsyncApi2.select target AsyncApi2.final))) ->
  exists f, allowed (AsyncApi2.select target AsyncApi2.final) = Some f /\ In k (f v).
Proof.
  intros H.
  destruct target;
    [ exists AsyncApi2.ChannelBindings_allowed
    | exists AsyncApi2.ServerBindings_allowed
    | exists AsyncApi2.MessageBindings_allowed
    | exists AsyncApi2.OperationBindings_allowed ];
    (split; [reflexivity |]);
    apply includes_In;
    cbn in H;
    repeat (destruct H as [<- | H]; [reflexivity |]);
    destruct H.
Qed.

Lemma assigned_bindings_allowed_witness :
  exists f,
    allowed (AsyncApi2.select AsyncApi2.TMessageBindings AsyncApi2.final) = Some f
    /\ In "amqp" (f (VObj [("amqp", VObj [])])).
Proof.
  apply (assigned_bindings_allowed AsyncApi2.TMessageBindings
           (VObj [("amqp", VObj [])]) "amqp").
  cbn. tauto.
Defined.

(** ** No key written twice *)

Lemma forallb_lookup (g : string -> NodeType -> bool) (types : list (string * NodeType))
    (name : string) (D : NodeType) :
  forallb (fun nd => g (fst nd) (snd nd)) types = true ->
  lookup name types = Some D -> g name D = true.
Proof.
  intros HF H. apply assoc_In in H.
  rewrite forallb_forall in HF. exact (HF (name, D) H).
Qed.

(** X9. No object literal of the tables writes a key twice (where a literal
    would silently keep the last value only): the names of each OpenAPI 3
    table are distinct, and so are the keys of the [properties] of every
    descriptor of the two OpenAPI 3 tables and of the AsyncAPI 2 table (the
    imported descriptors apart), the bindings descriptors after the module's
    assignments included. *)
Theorem tables_keys_distinct (isMappingRef : Value -> bool) (name : string) (D : NodeType) :
  NoDup (map fst (Oas3.Oas3Types isMappingRef))
  /\ NoDup (map fst (Part000.Oas3Types isMappingRef))
  /\ (lookup name (Oas3.Oas3Types isMappingRef) = Some D ->
      NoDup (map fst (properties D)))
  /\ (lookup name (Part000.Oas3Types isMappingRef) = Some D ->
      NoDup (map fst (properties D)))
  /\ (forall Dependencies Discriminator DiscriminatorMapping Schema SchemaProperties,
        lookup name
          (AsyncApi2.AsyncApi2Types Dependencies Discriminator DiscriminatorMapping
             Schema SchemaProperties) = Some D ->
        ~ In name importedNames ->
        NoDup (map fst (properties D))).
Proof.
  split; [apply distinct_NoDup; vm_compute; reflexivity |].
  split; [apply distinct_NoDup; vm_compute; reflexivity |].
  split; [| split].
  - intros H. apply distinct_NoDup.
    apply (forallb_lookup (fun _ d => distinct (map fst (properties d)))
             (Oas3.Oas3Types isMappingRef) name D);
      [vm_compute; reflexivity | exact H].
  - intros H. apply distinct_NoDup.
    apply (forallb_lookup (fun _ d => distinct (map fst (properties d)))
             (Part000.Oas3Types isMappingRef) name D);
      [vm_compute; reflexivity | exact H].
  - intros D1 D2 D3 D4 D5 H Hni.
    assert (E : includes importedNames name
                || distinct (map fst (properties D)) = true).
    { apply (forallb_lookup
               (fun n d => includes importedNames n
                           || distinct (map fst (properties d)))
               (AsyncApi2.AsyncApi2Types D1 D2 D3 D4 D5) name D);
        [vm_compute; reflexivity | exact H]. }
    apply includes_not_In in Hni. rewrite Hni in E.
    apply distinct_NoDup. exact E.
Qed.

Lemma tables_keys_distinct_witness :
  NoDup (map fst (properties Oas3.Operation))
  /\ NoDup (map fst (properties AsyncApi2.ChannelBindings)).
Proof.
  split.
  - apply (proj1 (proj2 (proj2 (tables_keys_distinct startsWithHash "Operation"
                                  Oas3.Operation)))).
    reflexivity.
  - apply (proj2 (proj2 (proj2 (proj2 (tables_keys_distinct startsWithHash
                                          "ChannelBindings" AsyncApi2.ChannelBindings))))
             emptyNode emptyNode emptyNode emptyNode emptyNode).
    + reflexivity.
    + simpl. intros [H | [H | [H | [H | [H | []]]]]]; discriminate H.
Defined.

(** ** Scalar schemas *)

Ltac wf_node :=
  cbn; split_ands; try exact I; try reflexivity;
  intros v k; unfold_resolvers; case_ifs; cbn; split_ands; try exact I; reflexivity.

Lemma Oas3Types_wf_all (isMappingRef : Value -> bool) :
  Forall (fun nd => wfNode (snd nd)) (Oas3.Oas3Types isMappingRef)
  /\ Forall (fun nd => wfNode (snd nd)) (Part000.Oas3Types isMappingRef).
Proof.
  split.
  - unfold Oas3.Oas3Types.
    repeat (apply Forall_cons; [solve [wf_node] |]). apply Forall_nil.
  - unfold Part000.Oas3Types.
    repeat (apply Forall_cons; [solve [wf_node] |]). apply Forall_nil.
Qed.

Lemma AsyncApi2Types_wf_all
    (Dependencies Discriminator DiscriminatorMapping Schema SchemaProperties : NodeType) :
  Forall (fun nd => ~ In (fst nd) importedNames -> wfNode (snd nd))
         (AsyncApi2.AsyncApi2Types Dependencies Discriminator DiscriminatorMapping
            Schema SchemaProperties).
Proof.
  cbv [AsyncApi2.AsyncApi2Types AsyncApi2.AsyncApi2Bindings spreadThen fold_left
       assign fst snd String.eqb Ascii.eqb Bool.eqb].
  repeat (apply Forall_cons;
          [intros Hi;
           first [ solve [wf_node] | exfalso; apply Hi; cbn; tauto ] |]).
  apply Forall_nil.
Qed.

(** X10. Every scalar schema of the two OpenAPI 3 tables and of the AsyncAPI 2
    table (the imported descriptors apart), whether written in a descriptor
    or returned by a resolver on any value, is well formed: its [type] is a
    JSON type name, [items] occurs under type ['array'] only,
    [additionalProperties] under type ['object'] only, [minimum] under a
    numeric type only, and no [enum] lists a value twice. *)
Theorem tables_scalars_well_formed (isMappingRef : Value -> bool)
    (name : string) (D : NodeType) :
  (lookup name (Oas3.Oas3Types isMappingRef) = Some D -> wfNode D)
  /\ (lookup name (Part000.Oas3Types isMappingRef) = Some D -> wfNode D)
  /\ (forall Dependencies Discriminator DiscriminatorMapping Schema SchemaProperties,
        lookup name
          (AsyncApi2.AsyncApi2Types Dependencies Discriminator DiscriminatorMapping
             Schema SchemaProperties) = Some D ->
        ~ In name importedNames -> wfNode D).
Proof.
  destruct (Oas3Types_wf_all isMappingRef) as [Ho Hp].
  split; [| split].
  - exact (Forall_lookup (P := fun _ d => wfNode d) _ name D Ho).
  - exact (Forall_lookup (P := fun _ d => wfNode d) _ name D Hp).
  - intros D1 D2 D3 D4 D5.
    exact (Forall_lookup (P := fun n d => ~ In n importedNames -> wfNode d)
             _ name D (AsyncApi2Types_wf_all D1 D2 D3 D4 D5)).
Qed.

Lemma tables_scalars_well_formed_witness :
  wfNode Oas3.Schema /\ wfNode AsyncApi2.KafkaTopicConfiguration.
Proof.
  split.
  - apply (proj1 (tables_scalars_well_formed startsWithHash "Schema" Oas3.Schema)).
    reflexivity.
  - apply (proj2 (proj2 (tables_scalars_well_formed startsWithHash
                           "KafkaTopicConfiguration" AsyncApi2.KafkaTopicConfiguration))
             emptyNode emptyNode emptyNode emptyNode emptyNode).
    + reflexivity.
    + simpl. intros [H | [H | [H | [H | [H | []]]]]]; discriminate H.
Defined.

(** ** The security schemes and their [type] *)

Ltac allowed_for t :=
  right; exists (VObj [("type", VStr t)]); cbn; tauto.

(** X11. No property that a [SecurityScheme] descriptor declares (OpenAPI 3,
    both copies, and AsyncAPI 2) is shut out by its own allow-list: each
    declared key either starts with the descriptor's extension prefix ['x-']
    or is returned by [allowed] on some value.  ['type'] and ['description']
    are returned on every value. *)
Theorem SecurityScheme_declared_usable (k : string) :
  (In k (map fst (properties Oas3.SecurityScheme)) ->
   startsWith "x-" k = true \/ exists v, In k (Oas3.SecurityScheme_allowed v))
  /\ (In k (map fst (properties Part000.SecurityScheme)) ->
      startsWith "x-" k = true \/ exists v, In k (Part000.SecurityScheme_allowed v))
  /\ (In k (map fst (properties AsyncApi2.SecurityScheme)) ->
      startsWith "x-" k = true \/ exists v, In k (AsyncApi2.SecurityScheme_allowed v))
  /\ extensionsPrefix Oas3.SecurityScheme = Some "x-"
  /\ extensionsPrefix Part000.SecurityScheme = Some "x-"
  /\ extensionsPrefix AsyncApi2.SecurityScheme = Some "x-"
  /\ (forall v,
        incl ["type"; "description"] (Oas3.SecurityScheme_allowed v)
        /\ incl ["type"; "description"] (Part000.SecurityScheme_allowed v)
        /\ incl ["type"; "description"] (AsyncApi2.SecurityScheme_allowed v)).
Proof.
  split; [| split; [| split]].
  - cbn. intros H.
    destruct H as [<- | [<- | [<- | [<- | [<- | [<- | [<- | [<- | [<- | []]]]]]]]]];
      first [ left; reflexivity | allowed_for "apiKey" | allowed_for "http"
            | allowed_for "oauth2" | allowed_for "openIdConnect" ].
  - cbn. intros H.
    destruct H as [<- | [<- | [<- | [<- | [<- | [<- | [<- | [<- | [<- | []]]]]]]]]];
      first [ left; reflexivity | allowed_for "apiKey" | allowed_for "http"
            | allowed_for "oauth2" | allowed_for "openIdConnect" ].
  - cbn. intros H.
    destruct H as [<- | [<- | [<- | [<- | [<- | [<- | [<- | [<- | []]]]]]]]];
      first [ allowed_for "httpApiKey" | allowed_for "http"
            | allowed_for "oauth2" | allowed_for "openIdConnect" ].
  - do 3 (split; [reflexivity |]).
    intros v.
    split; [| split];
      cbv beta delta [Oas3.SecurityScheme_allowed Part000.SecurityScheme_allowed
                      AsyncApi2.SecurityScheme_allowed];
      match goal with
      | |- incl _ (switch ?d ?c ?df) =>
          destruct (switch_cases_or_default d c df) as [E | E];
          [ rewrite E; incl_keys
          | cbn [map snd In] in E;
            repeat (destruct E as [E | E]; [rewrite <- E; incl_keys |]);
            destruct E ]
      end.
Qed.

Lemma SecurityScheme_declared_usable_witness :
  startsWith "x-" "bearerFormat" = true
  \/ exists v, In "bearerFormat" (Oas3.SecurityScheme_allowed v).
Proof.
  apply (proj1 (SecurityScheme_declared_usable "bearerFormat")).
  cbn. tauto.
Defined.

(** X12. The [case] labels of the security schemes are legal values of
    [type]: whenever [required] demands more than ['type'], or [allowed]
    allows more than ['type'] and ['description'], the value's [type] is a
    string that the [enum] of the [type] property permits.  In OpenAPI 3 the
    converse holds too: every value of that [enum] has a case of its own. *)
Theorem SecurityScheme_cases_in_enum (v : Value) (s : string) :
  opt_type v = VStr s ->
  (Oas3.SecurityScheme_required v <> ["type"]
   <-> In s (typeEnum Oas3.SecurityScheme))
  /\ (Oas3.SecurityScheme_allowed v <> ["type"; "description"]
      <-> In s (typeEnum Oas3.SecurityScheme))
  /\ (AsyncApi2.SecurityScheme_required v <> ["type"]
      -> In s (typeEnum AsyncApi2.SecurityScheme))
  /\ (AsyncApi2.SecurityScheme_allowed v <> ["type"; "description"]
      -> In s (typeEnum AsyncApi2.SecurityScheme)).
Proof.
  intros H.
  unfold Oas3.SecurityScheme_required, Oas3.SecurityScheme_allowed,
    AsyncApi2.SecurityScheme_required, AsyncApi2.SecurityScheme_allowed.
  rewrite H. unfold switch. cbn [assoc].
  change (typeEnum Oas3.SecurityScheme)
    with ["apiKey"; "http"; "oauth2"; "openIdConnect"].
  change (typeEnum AsyncApi2.SecurityScheme)
    with ["userPassword"; "apiKey"; "X509"; "symmetricEncryption";
          "asymmetricEncryption"; "httpApiKey"; "http"; "oauth2"; "openIdConnect";
          "plain"; "scramSha256"; "scramSha512"; "gssapi"].
  repeat match goal with
         | |- context [String.eqb s ?b] => destruct (String.eqb_spec s b); [subst s |]
         end;
    repeat split; cbn [In]; intros; try discriminate; try tauto;
    try congruence;
    repeat match goal with
           | E : _ \/ _ |- _ => destruct E
           end; congruence.
Qed.

Lemma SecurityScheme_cases_in_enum_witness :
  In "httpApiKey" (typeEnum AsyncApi2.SecurityScheme)
  /\ In "oauth2" (typeEnum Oas3.SecurityScheme).
Proof.
  split.
  - apply (proj1 (proj2 (proj2 (SecurityScheme_cases_in_enum
                                  (VObj [("type", VStr "httpApiKey")]) "httpApiKey"
                                  eq_refl)))).
    cbn. intros E. discriminate E.
  - apply (proj1 (proj1 (SecurityScheme_cases_in_enum
                           (VObj [("type", VStr "oauth2")]) "oauth2" eq_refl))).
    cbn. intros E. discriminate E.
Defined.
